(** * Grocery list API: ownership-scoped CRUD and the authentication gateway

    A shallow embedding of the TypeScript services of the grocery list API
    (repositories, Zod validation, item and auth services, the auth
    middleware and the route handlers), followed by theorems about the
    ownership, validation, partial-update and authentication contracts.

    Conventions of the embedding:
    - a JavaScript [number] that the code only uses as an integer (ids,
    quantities, timestamps) is a [Z]; strings are [string], a sequence of
    code units below 256 whose [length] is the JavaScript [.length];
    - an optional property ([store?: string]) is an [option]; SQL [NULL] is
    [None];
    - [async] functions are functions in the monad [Async]: they read and
    write the datastore and either return a value or throw an exception;
    - the PostgreSQL datastore is a record of tables; every statement the
    repositories send is a function on that record, and is recorded in
    the log of executed statements. Statements are taken to execute
    successfully (no connection failure and no constraint or range
    violation); the module [Pg] describes the parameters for which
    PostgreSQL accepts the statements on [grocery_items]. *)

From Stdlib Require Import ZArith List String Ascii Bool Lia.
From Stdlib Require Import Sorting.Permutation Sorting.Sorted.
Import ListNotations.

Local Open Scope string_scope.
Local Open Scope list_scope.
Local Open Scope Z_scope.

(* ===================================================================== *)
(** * Errors (lib/utils/errors) *)
(* ===================================================================== *)

Module Errors.

(** The classes of the exceptions the code throws: [JsError] is a plain
    JavaScript [Error] (and any exception that is not an [AppError]); the
    others are the subclasses of [AppError]. *)
Inductive ErrorClass : Type :=
  | JsError
  | ValidationError
  | AuthenticationError
  | ConflictError
  | NotFoundError
  | DatabaseError.

Record Exception : Type := mkException { cls : ErrorClass; message : string }.

Definition ErrorClass_eqb (a b : ErrorClass) : bool :=
  match a, b with
  | JsError, JsError
  | ValidationError, ValidationError
  | AuthenticationError, AuthenticationError
  | ConflictError, ConflictError
  | NotFoundError, NotFoundError
  | DatabaseError, DatabaseError => true
  | _, _ => false
  end.

(** [error instanceof C] for a subclass [C] of [AppError]. *)
Definition instanceof (e : Exception) (c : ErrorClass) : bool :=
  ErrorClass_eqb (cls e) c.

(** [error instanceof AppError]. *)
Definition instanceofAppError (e : Exception) : bool :=
  match cls e with
  | JsError => false
  | _ => true
  end.

(** Modelled from the spec: lib/utils/errors.ts (the [statusCode] field of
    each [AppError] subclass) is not among the sources. The status codes
    are those of the error taxonomy: validation 400, authentication 401,
    conflict 409, not found 404, database 500. A plain [Error] has no
    [statusCode]; the handlers never read it (they answer 500). *)
Definition statusCode (c : ErrorClass) : Z :=
  match c with
  | ValidationError => 400
  | AuthenticationError => 401
  | ConflictError => 409
  | NotFoundError => 404
  | DatabaseError => 500
  | JsError => 500
  end.

End Errors.
Import Errors.

(* ===================================================================== *)
(** * The datastore (docker/postgres/init.sql, lib/database/connection.ts) *)
(* ===================================================================== *)

(** A row of [users]. *)
Module UserRow.
Record t : Type := mk {
    id : Z;
    email : string;
    password_hash : string;
    created_at : Z;
    updated_at : Z
  }.
End UserRow.

(** A row of [grocery_items], with all the columns of the table. *)
Module Row.
Record t : Type := mk {
    id : Z;
    user_id : Z;
    name : string;
    quantity : Z;
    store : option string;
    category : option string;
    notes : option string;
    is_purchased : bool;
    created_at : Z;
    updated_at : Z
  }.
End Row.

(** The statements the repositories send through [query]. *)
Inductive Statement : Type :=
| SelectUserByEmail (email : string)
| SelectUserById (id : Z)
| SelectUserByIdWithPassword (id : Z)
| InsertItem (user_id : Z)
| SelectItemById (id user_id : Z)
| SelectItemsByUser (user_id : Z)
| UpdateItem (id user_id : Z)
| DeleteItem (id user_id : Z).

Module Db.
Record t : Type := mk {
    users : list UserRow.t;
    grocery_items : list Row.t;
    (** next values of the SERIAL sequences *)
    users_id_seq : Z;
    grocery_items_id_seq : Z;
    (** the value of CURRENT_TIMESTAMP *)
    current_timestamp : Z;
    (** the statements executed so far, oldest first *)
    statements : list Statement
  }.

Definition log (s : Statement) (db : t) : t :=
  mk (users db) (grocery_items db) (users_id_seq db) (grocery_items_id_seq db)
     (current_timestamp db) (statements db ++ [s]).

Definition with_grocery_items (rows : list Row.t) (db : t) : t :=
  mk (users db) rows (users_id_seq db) (grocery_items_id_seq db)
     (current_timestamp db) (statements db).

(** The clock of the database server moves between requests. *)
Definition at_time (now : Z) (db : t) : t :=
  mk (users db) (grocery_items db) (users_id_seq db) (grocery_items_id_seq db)
       now (statements db).

(** A freshly initialised database: empty tables, sequences at 1. *)
Definition init (now : Z) : t := mk [] [] 1 1 now [].
End Db.

(* ===================================================================== *)
(** * Asynchronous computations that may throw *)
(* ===================================================================== *)

Inductive Completion (A : Type) : Type :=
| Return (a : A)
| Throw (e : Exception).
Arguments Return {A} a.
Arguments Throw {A} e.

Definition Async (A : Type) : Type := Db.t -> Completion A * Db.t.

Definition ret {A} (a : A) : Async A := fun db => (Return a, db).

Definition throw {A} (c : ErrorClass) (msg : string) : Async A :=
  fun db => (Throw (mkException c msg), db).

Definition rethrow {A} (e : Exception) : Async A := fun db => (Throw e, db).

Definition bind {A B} (m : Async A) (k : A -> Async B) : Async B :=
  fun db =>
    match m db with
    | (Return a, db') => k a db'
    | (Throw e, db') => (Throw e, db')
    end.

(** [try { m } catch (error) { h error }] *)
Definition try_catch {A} (m : Async A) (h : Exception -> Async A) : Async A :=
  fun db =>
    match m db with
    | (Return a, db') => (Return a, db')
    | (Throw e, db') => h e db'
    end.

(** A synchronous call that may throw, used inside an [async] function. *)
Definition lift {A} (c : Completion A) : Async A := fun db => (c, db).

Declare Scope async_scope.
Delimit Scope async_scope with async.
Notation "x <- m ;; k" := (bind m (fun x => k))
  (at level 100, m at next level, right associativity) : async_scope.
Notation "m ;;; k" := (bind m (fun _ => k))
  (at level 100, right associativity) : async_scope.
Local Open Scope async_scope.

(** [query(text, params)]: runs a statement on the datastore and records
    it. The statement is taken to be accepted by PostgreSQL: the [catch]
    of [query], which throws [DatabaseError("Database query failed")] for
    a statement that PostgreSQL refuses, is not reached. The parameters for
    which this is so are described in the module [Pg] below. *)
Definition query {A} (s : Statement) (run : Db.t -> A * Db.t) : Async A :=
  fun db => let '(a, db') := run db in (Return a, Db.log s db').

(* ===================================================================== *)
(** * Types (lib/types/grocery-item.types.ts, lib/types/auth.types.ts) *)
(* ===================================================================== *)

Module GroceryItem.
Record t : Type := mk {
    id : Z;
    userId : Z;
    name : string;
    quantity : Z;
    store : option string;
    category : option string;
    notes : option string;
    isPurchased : bool;
    createdAt : Z;
    updatedAt : Z
  }.
End GroceryItem.

(** The item without its [userId]: what [toGroceryItemResponse] returns. *)
Module GroceryItemResponse.
Record t : Type := mk {
    id : Z;
    name : string;
    quantity : Z;
    store : option string;
    category : option string;
    notes : option string;
    isPurchased : bool;
    createdAt : Z;
    updatedAt : Z
  }.
End GroceryItemResponse.

Module CreateGroceryItemRequest.
Record t : Type := mk {
    name : string;
    quantity : option Z;
    store : option string;
    category : option string;
    notes : option string
  }.
End CreateGroceryItemRequest.

Module UpdateGroceryItemRequest.
Record t : Type := mk {
    name : option string;
    quantity : option Z;
    store : option string;
    category : option string;
    notes : option string;
    isPurchased : option bool
  }.

(** The patch [{}]. *)
Definition empty : t := mk None None None None None None.
End UpdateGroceryItemRequest.

Module GroceryItemFilters.
Record t : Type := mk {
    store : option string;
    category : option string;
    isPurchased : option bool;
    search : option string
  }.

Definition empty : t := mk None None None None.
End GroceryItemFilters.

Module User.
Record t : Type := mk {
    id : Z;
    email : string;
    createdAt : Z;
    updatedAt : Z
  }.
End User.

Module UserWithPassword.
Record t : Type := mk {
    id : Z;
    email : string;
    passwordHash : string;
    createdAt : Z;
    updatedAt : Z
  }.
End UserWithPassword.

Module JWTPayload.
Record t : Type := mk { userId : Z; email : string }.
End JWTPayload.

Module AuthTokens.
Record t : Type := mk { accessToken : string; refreshToken : string }.
End AuthTokens.

Module LoginRequest.
Record t : Type := mk { email : string; password : string }.
End LoginRequest.

(* ===================================================================== *)
(** * SQL on the [grocery_items] and [users] tables *)
(* ===================================================================== *)

Module Sql.

(** The columns every SELECT and RETURNING clause of the item repository
    lists: [id, user_id, name, quantity, category, notes, is_purchased,
    created_at, updated_at]. The [store] column is not among them. *)
Record ResultRow : Type := mkResultRow {
    id : Z;
    user_id : Z;
    name : string;
    quantity : Z;
    category : option string;
    notes : option string;
    is_purchased : bool;
    created_at : Z;
    updated_at : Z
  }.

Definition returning (r : Row.t) : ResultRow :=
  mkResultRow (Row.id r) (Row.user_id r) (Row.name r) (Row.quantity r)
    (Row.category r) (Row.notes r) (Row.is_purchased r)
    (Row.created_at r) (Row.updated_at r).

(** [WHERE id = $1 AND user_id = $2] *)
Definition where_id_and_user_id (id user_id : Z) (r : Row.t) : bool :=
  Z.eqb (Row.id r) id && Z.eqb (Row.user_id r) user_id.

(** ** ILIKE *)

Definition lower (c : ascii) : ascii :=
  let n := nat_of_ascii c in
  if ((65 <=? n) && (n <=? 90))%nat then ascii_of_nat (n + 32) else c.

Definition eqb_ci (a b : ascii) : bool := Ascii.eqb (lower a) (lower b).

(** [s ILIKE p]: [%] matches any sequence, [_] any character, a backslash
    makes the next character literal; letters match without case. *)
Fixpoint ilike_chars (p : list ascii) : list ascii -> bool :=
  match p with
  | [] => fun s => match s with [] => true | _ :: _ => false end
  | c :: p' =>
      if Ascii.eqb c "%" then
        fix star (s : list ascii) : bool :=
          ilike_chars p' s || match s with [] => false | _ :: s' => star s' end
      else if Ascii.eqb c "_" then
        fun s => match s with [] => false | _ :: s' => ilike_chars p' s' end
      else if Ascii.eqb c "\" then
        match p' with
        | [] => fun _ => false
        | d :: p'' =>
            fun s => match s with
                     | [] => false
                     | x :: s' => eqb_ci d x && ilike_chars p'' s'
                     end
        end
      else
        fun s => match s with
                 | [] => false
                 | x :: s' => eqb_ci c x && ilike_chars p' s'
                 end
  end.

Definition ilike (s p : string) : bool :=
  ilike_chars (list_ascii_of_string p) (list_ascii_of_string s).

(** [column ILIKE p] on a nullable column: NULL never satisfies a WHERE. *)
Definition ilike_nullable (s : option string) (p : string) : bool :=
  match s with
  | Some s => ilike s p
  | None => false
  end.

(** [column = $n] on a nullable column. *)
Definition eq_nullable (s : option string) (v : string) : bool :=
  match s with
  | Some s => String.eqb s v
  | None => false
  end.

(** ** ORDER BY created_at DESC (rows of equal time keep the table order) *)

Fixpoint insert_desc (r : Row.t) (l : list Row.t) : list Row.t :=
  match l with
  | [] => [r]
  | x :: l' =>
      if Row.created_at x <=? Row.created_at r then r :: x :: l'
      else x :: insert_desc r l'
  end.

Definition order_by_created_at_desc (l : list Row.t) : list Row.t :=
  fold_right insert_desc [] l.

(** ** INSERT INTO grocery_items (user_id, name, quantity, category, notes)
       VALUES ($1, $2, $3, $4, $5) RETURNING ...

    The columns that are not listed take their defaults: [id] the next
    value of the sequence, [store] NULL, [is_purchased] FALSE and both
    timestamps CURRENT_TIMESTAMP. *)
Definition insert_grocery_item (user_id : Z) (name : string) (quantity : Z)
    (category notes : option string) (db : Db.t) : list ResultRow * Db.t :=
  let row := Row.mk (Db.grocery_items_id_seq db) user_id name quantity None
               category notes false
               (Db.current_timestamp db) (Db.current_timestamp db) in
  ([returning row],
   Db.mk (Db.users db) (Db.grocery_items db ++ [row]) (Db.users_id_seq db)
     (Db.grocery_items_id_seq db + 1) (Db.current_timestamp db)
     (Db.statements db)).

(** ** SELECT ... FROM grocery_items WHERE id = $1 AND user_id = $2 *)
Definition select_item_by_id (id user_id : Z) (db : Db.t)
    : list ResultRow * Db.t :=
  (map returning (filter (where_id_and_user_id id user_id) (Db.grocery_items db)),
   db).

(** ** The dynamic SELECT of [findByUserId]: the conditions that were
       appended to [WHERE user_id = $1], then [ORDER BY created_at DESC]. *)
Inductive Condition : Type :=
| category_eq (v : string)
| is_purchased_eq (v : bool)
| name_or_notes_ilike (pattern : string).

Definition holds (c : Condition) (r : Row.t) : bool :=
  match c with
  | category_eq v => eq_nullable (Row.category r) v
  | is_purchased_eq v => Bool.eqb (Row.is_purchased r) v
  | name_or_notes_ilike p => ilike (Row.name r) p || ilike_nullable (Row.notes r) p
  end.

Definition select_items_by_user (user_id : Z) (conds : list Condition)
    (db : Db.t) : list ResultRow * Db.t :=
  (map returning
     (order_by_created_at_desc
        (filter (fun r => Z.eqb (Row.user_id r) user_id
                          && forallb (fun c => holds c r) conds)
                (Db.grocery_items db))),
   db).

(** ** The dynamic UPDATE of [update]: the assignments of the SET clause,
       to which the statement adds [updated_at = CURRENT_TIMESTAMP]. *)
Inductive Assignment : Type :=
| set_name (v : string)
| set_quantity (v : Z)
| set_category (v : string)
| set_notes (v : string)
| set_is_purchased (v : bool).

Definition assign (r : Row.t) (a : Assignment) : Row.t :=
  match a with
  | set_name v =>
      Row.mk (Row.id r) (Row.user_id r) v (Row.quantity r) (Row.store r)
        (Row.category r) (Row.notes r) (Row.is_purchased r)
        (Row.created_at r) (Row.updated_at r)
  | set_quantity v =>
      Row.mk (Row.id r) (Row.user_id r) (Row.name r) v (Row.store r)
        (Row.category r) (Row.notes r) (Row.is_purchased r)
        (Row.created_at r) (Row.updated_at r)
  | set_category v =>
      Row.mk (Row.id r) (Row.user_id r) (Row.name r) (Row.quantity r) (Row.store r)
        (Some v) (Row.notes r) (Row.is_purchased r)
        (Row.created_at r) (Row.updated_at r)
  | set_notes v =>
      Row.mk (Row.id r) (Row.user_id r) (Row.name r) (Row.quantity r) (Row.store r)
        (Row.category r) (Some v) (Row.is_purchased r)
        (Row.created_at r) (Row.updated_at r)
  | set_is_purchased v =>
      Row.mk (Row.id r) (Row.user_id r) (Row.name r) (Row.quantity r) (Row.store r)
        (Row.category r) (Row.notes r) v
        (Row.created_at r) (Row.updated_at r)
  end.

Definition set_updated_at (now : Z) (r : Row.t) : Row.t :=
  Row.mk (Row.id r) (Row.user_id r) (Row.name r) (Row.quantity r) (Row.store r)
    (Row.category r) (Row.notes r) (Row.is_purchased r) (Row.created_at r) now.

Definition update_row (sets : list Assignment) (now : Z) (r : Row.t) : Row.t :=
  set_updated_at now (fold_left assign sets r).

Definition update_grocery_item (sets : list Assignment) (id user_id : Z)
    (db : Db.t) : list ResultRow * Db.t :=
  let hit := where_id_and_user_id id user_id in
  let now := Db.current_timestamp db in
  (map (fun r => returning (update_row sets now r))
       (filter hit (Db.grocery_items db)),
   Db.with_grocery_items
     (map (fun r => if hit r then update_row sets now r else r)
          (Db.grocery_items db))
     db).

(** ** DELETE FROM grocery_items WHERE id = $1 AND user_id = $2
       (the result is the row count) *)
Definition delete_grocery_item (id user_id : Z) (db : Db.t) : Z * Db.t :=
  let hit := where_id_and_user_id id user_id in
  (Z.of_nat (List.length (filter hit (Db.grocery_items db))),
   Db.with_grocery_items
     (filter (fun r => negb (hit r)) (Db.grocery_items db)) db).

(** ** The SELECTs on [users] *)
Definition select_user_by_email (email : string) (db : Db.t)
    : list UserRow.t * Db.t :=
  (filter (fun u => String.eqb (UserRow.email u) email) (Db.users db), db).

Definition select_user_by_id (id : Z) (db : Db.t) : list UserRow.t * Db.t :=
  (filter (fun u => Z.eqb (UserRow.id u) id) (Db.users db), db).

End Sql.

(* ===================================================================== *)
(** * External packages and configuration *)
(* ===================================================================== *)

(** What [jwt.verify(token, secret)] of the jsonwebtoken package does at the
    time of the call: it returns the payload or throws. [TokenExpiredError]
    is a subclass of [JsonWebTokenError]; [ThrowsJsonWebTokenError] stands
    for the instances of [JsonWebTokenError] that are not
    [TokenExpiredError]s, [ThrowsOther] for any other exception. *)
Inductive JwtVerifyResult : Type :=
| Verified (payload : JWTPayload.t)
| ThrowsTokenExpiredError
| ThrowsJsonWebTokenError
| ThrowsOther.

(** The packages the code calls and the configuration it reads
    (lib/config.ts): they are parameters of the embedding. *)
Class Packages : Type := {
  (** the format test of [z.string().email()] *)
  zod_email : string -> bool;
  (** [bcrypt.compare(password, hash)] *)
  bcrypt_compare : string -> string -> bool;
  (** [jwt.verify(token, secret)] *)
  jwt_verify : string -> string -> JwtVerifyResult;
  (** [jwt.sign(payload, secret, { expiresIn })] *)
  jwt_sign : JWTPayload.t -> string -> string -> string;
  (** [config.auth] *)
  jwtSecret : string;
  jwtExpiresIn : string;
  refreshTokenExpiresIn : string
}.

(* ===================================================================== *)
(** * Validation (lib/utils/validation.ts) *)
(* ===================================================================== *)

Module Validation.

(** The result of [schema.safeParse(data)]: the parsed data, or the
    messages of the issues in the order Zod reports them. *)
Inductive SafeParseResult (O : Type) : Type :=
| success (data : O)
| failure (errors : list string).
Arguments success {O} data.
Arguments failure {O} errors.

Definition ZodSchema (I O : Type) : Type := I -> SafeParseResult O.

(** [.min(n, msg)] and [.max(n, msg)] of [z.string()] *)
Definition string_min (n : nat) (msg : string) (s : string) : list string :=
  if (String.length s <? n)%nat then [msg] else [].

Definition string_max (n : nat) (msg : string) (s : string) : list string :=
  if (n <? String.length s)%nat then [msg] else [].

(** [.min(n, msg)] of [z.number()] *)
Definition number_min (n : Z) (msg : string) (v : Z) : list string :=
  if v <? n then [msg] else [].

(** [.positive(msg)] of [z.number()] *)
Definition number_positive (msg : string) (v : Z) : list string :=
  if v <=? 0 then [msg] else [].

(** [.optional()]: an absent property raises no issue. *)
Definition optional {A} (check : A -> list string) (o : option A) : list string :=
  match o with
  | Some v => check v
  | None => []
  end.

Definition parsed {O} (issues : list string) (data : O) : SafeParseResult O :=
  match issues with
  | [] => success data
  | _ :: _ => failure issues
  end.

Definition createGroceryItemSchema
    : ZodSchema CreateGroceryItemRequest.t CreateGroceryItemRequest.t :=
  fun data =>
    let name := CreateGroceryItemRequest.name data in
    let quantity := CreateGroceryItemRequest.quantity data in
    let store := CreateGroceryItemRequest.store data in
    let category := CreateGroceryItemRequest.category data in
    let notes := CreateGroceryItemRequest.notes data in
    parsed
      (string_min 1 "Item name is required" name
       ++ string_max 255 "Item name must be 255 characters or less" name
       ++ optional (number_min 1 "Quantity must be at least 1") quantity
       ++ optional (string_max 255 "Store name must be 255 characters or less") store
       ++ optional (string_max 100 "Category must be 100 characters or less") category
       ++ optional (string_max 1000 "Notes must be 1000 characters or less") notes)
      (CreateGroceryItemRequest.mk name
         (Some (match quantity with Some q => q | None => 1 end))
         store category notes).

(** [Object.keys(data).length] of a parsed patch *)
Definition key {A} (o : option A) : nat :=
  match o with
  | Some _ => 1%nat
  | None => 0%nat
  end.

Definition keys_length (data : UpdateGroceryItemRequest.t) : nat :=
  (key (UpdateGroceryItemRequest.name data)
   + key (UpdateGroceryItemRequest.quantity data)
   + key (UpdateGroceryItemRequest.store data)
   + key (UpdateGroceryItemRequest.category data)
   + key (UpdateGroceryItemRequest.notes data)
   + key (UpdateGroceryItemRequest.isPurchased data))%nat.

Definition updateGroceryItemSchema
    : ZodSchema UpdateGroceryItemRequest.t UpdateGroceryItemRequest.t :=
  fun data =>
    parsed
      (optional (fun name =>
                   string_min 1 "Item name cannot be empty" name
                   ++ string_max 255 "Item name must be 255 characters or less" name)
         (UpdateGroceryItemRequest.name data)
       ++ optional (number_min 1 "Quantity must be at least 1")
            (UpdateGroceryItemRequest.quantity data)
       ++ optional (string_max 255 "Store name must be 255 characters or less")
            (UpdateGroceryItemRequest.store data)
       ++ optional (string_max 100 "Category must be 100 characters or less")
            (UpdateGroceryItemRequest.category data)
       ++ optional (string_max 1000 "Notes must be 1000 characters or less")
            (UpdateGroceryItemRequest.notes data)
       ++ (if (0 <? keys_length data)%nat then []
           else ["At least one field must be provided for update"]))
      data.

Definition groceryItemFiltersSchema
    : ZodSchema GroceryItemFilters.t GroceryItemFilters.t :=
  fun data =>
    parsed
      (optional (string_max 255 "Store filter must be 255 characters or less")
         (GroceryItemFilters.store data)
       ++ optional (string_max 100 "Category filter must be 100 characters or less")
            (GroceryItemFilters.category data)
       ++ optional (string_max 255 "Search term must be 255 characters or less")
            (GroceryItemFilters.search data))
      data.

Definition idSchema : ZodSchema Z Z :=
  fun id => parsed (number_positive "ID must be a positive integer" id) id.

Definition loginSchema {pkg : Packages} : ZodSchema LoginRequest.t LoginRequest.t :=
  fun data =>
    parsed
      ((if zod_email (LoginRequest.email data) then [] else ["Invalid email format"])
       ++ string_min 1 "Password is required" (LoginRequest.password data))
      data.

(** [validateRequestBody]: throws a plain [Error] when the parse fails. *)
Definition validateRequestBody {I O} (schema : ZodSchema I O) (data : I)
    : Completion O :=
  match schema data with
  | success data => Return data
  | failure errors =>
      Throw (mkException JsError
               ("Validation failed: " ++ String.concat ", " errors)%string)
  end.

End Validation.

(* ===================================================================== *)
(** * Grocery item repository
      (lib/repositories/grocery-item.repository.ts) *)
(* ===================================================================== *)

Module GroceryItemRepository.

(** The object literal has no [store] property. *)
Definition mapDbRowToGroceryItem (row : Sql.ResultRow) : GroceryItem.t :=
  GroceryItem.mk (Sql.id row) (Sql.user_id row) (Sql.name row) (Sql.quantity row)
    None (Sql.category row) (Sql.notes row) (Sql.is_purchased row)
    (Sql.created_at row) (Sql.updated_at row).

(** [value || null] on an optional string: absent and empty both give null. *)
Definition or_null (value : option string) : option string :=
  match value with
  | Some EmptyString => None
  | Some s => Some s
  | None => None
  end.

(** The test [if (value)] on an optional string. *)
Definition truthy (value : option string) : option string := or_null value.

Definition create (userId : Z) (itemData : CreateGroceryItemRequest.t)
    : Async GroceryItem.t :=
  let name := CreateGroceryItemRequest.name itemData in
  let quantity :=
    match CreateGroceryItemRequest.quantity itemData with
    | Some q => q
    | None => 1
    end in
  let category := CreateGroceryItemRequest.category itemData in
  let notes := CreateGroceryItemRequest.notes itemData in
  result <- query (InsertItem userId)
              (Sql.insert_grocery_item userId name quantity
                 (or_null category) (or_null notes)) ;;
  match result with
  | [] => throw DatabaseError "Failed to create grocery item"
  | row :: _ => ret (mapDbRowToGroceryItem row)
  end.

Definition findById (id userId : Z) : Async (option GroceryItem.t) :=
  result <- query (SelectItemById id userId) (Sql.select_item_by_id id userId) ;;
  match result with
  | [] => ret None
  | row :: _ => ret (Some (mapDbRowToGroceryItem row))
  end.

(** The conditions [findByUserId] appends to the query text. Nothing is
    appended for [filters.store]. *)
Definition conditions (filters : option GroceryItemFilters.t)
    : list Sql.Condition :=
  let conds := [] in
  let conds :=
    match truthy (match filters with
                  | Some f => GroceryItemFilters.category f
                  | None => None
                  end) with
    | Some category => conds ++ [Sql.category_eq category]
    | None => conds
    end in
  let conds :=
    match (match filters with
           | Some f => GroceryItemFilters.isPurchased f
           | None => None
           end) with
    | Some isPurchased => conds ++ [Sql.is_purchased_eq isPurchased]
    | None => conds
    end in
  let conds :=
    match truthy (match filters with
                  | Some f => GroceryItemFilters.search f
                  | None => None
                  end) with
    | Some search => conds ++ [Sql.name_or_notes_ilike ("%" ++ search ++ "%")%string]
    | None => conds
    end in
  conds.

Definition findByUserId (userId : Z) (filters : option GroceryItemFilters.t)
    : Async (list GroceryItem.t) :=
  result <- query (SelectItemsByUser userId)
              (Sql.select_items_by_user userId (conditions filters)) ;;
  ret (map mapDbRowToGroceryItem result).

(** The [updateFields] that [update] collects. Nothing is collected for
    [updateData.store]. *)
Definition updateFields (updateData : UpdateGroceryItemRequest.t)
    : list Sql.Assignment :=
  let fields := [] in
  let fields :=
    match UpdateGroceryItemRequest.name updateData with
    | Some v => fields ++ [Sql.set_name v]
    | None => fields
    end in
  let fields :=
    match UpdateGroceryItemRequest.quantity updateData with
    | Some v => fields ++ [Sql.set_quantity v]
    | None => fields
    end in
  let fields :=
    match UpdateGroceryItemRequest.category updateData with
    | Some v => fields ++ [Sql.set_category v]
    | None => fields
    end in
  let fields :=
    match UpdateGroceryItemRequest.notes updateData with
    | Some v => fields ++ [Sql.set_notes v]
    | None => fields
    end in
  let fields :=
    match UpdateGroceryItemRequest.isPurchased updateData with
    | Some v => fields ++ [Sql.set_is_purchased v]
    | None => fields
    end in
  fields.

Definition update (id userId : Z) (updateData : UpdateGroceryItemRequest.t)
    : Async GroceryItem.t :=
  let fields := updateFields updateData in
  match fields with
  | [] => throw DatabaseError "No fields to update"
  | _ :: _ =>
      result <- query (UpdateItem id userId)
                  (Sql.update_grocery_item fields id userId) ;;
      match result with
      | [] => throw NotFoundError "Grocery item not found"
      | row :: _ => ret (mapDbRowToGroceryItem row)
      end
  end.

Definition delete (id userId : Z) : Async bool :=
  rowCount <- query (DeleteItem id userId) (Sql.delete_grocery_item id userId) ;;
  ret (0 <? rowCount).

End GroceryItemRepository.

(* ===================================================================== *)
(** * Grocery item service (lib/services/grocery-item.service.ts) *)
(* ===================================================================== *)

Module GroceryItemService.
Import Validation.

(** [const { userId, ...response } = item] *)
Definition toGroceryItemResponse (item : GroceryItem.t) : GroceryItemResponse.t :=
  GroceryItemResponse.mk (GroceryItem.id item) (GroceryItem.name item)
    (GroceryItem.quantity item) (GroceryItem.store item)
    (GroceryItem.category item) (GroceryItem.notes item)
    (GroceryItem.isPurchased item) (GroceryItem.createdAt item)
    (GroceryItem.updatedAt item).

Definition createItem (userId : Z) (itemData : CreateGroceryItemRequest.t)
    : Async GroceryItemResponse.t :=
  validatedData <- lift (validateRequestBody createGroceryItemSchema itemData) ;;
  item <- GroceryItemRepository.create userId validatedData ;;
  ret (toGroceryItemResponse item).

Definition getItem (id userId : Z) : Async GroceryItemResponse.t :=
  _ <- lift (validateRequestBody idSchema id) ;;
  item <- GroceryItemRepository.findById id userId ;;
  match item with
  | None => throw NotFoundError "Grocery item not found"
  | Some item => ret (toGroceryItemResponse item)
  end.

Definition getUserItems (userId : Z) (filters : option GroceryItemFilters.t)
    : Async (list GroceryItemResponse.t) :=
  filters <- match filters with
             | Some f =>
                 f' <- lift (validateRequestBody groceryItemFiltersSchema f) ;;
                 ret (Some f')
             | None => ret None
             end ;;
  items <- GroceryItemRepository.findByUserId userId filters ;;
  ret (map toGroceryItemResponse items).

Definition updateItem (id userId : Z) (updateData : UpdateGroceryItemRequest.t)
    : Async GroceryItemResponse.t :=
  _ <- lift (validateRequestBody idSchema id) ;;
  validatedData <- lift (validateRequestBody updateGroceryItemSchema updateData) ;;
  item <- GroceryItemRepository.update id userId validatedData ;;
  ret (toGroceryItemResponse item).

Definition deleteItem (id userId : Z) : Async unit :=
  _ <- lift (validateRequestBody idSchema id) ;;
  deleted <- GroceryItemRepository.delete id userId ;;
  if deleted then ret tt else throw NotFoundError "Grocery item not found".

Definition markAsPurchased (id userId : Z) : Async GroceryItemResponse.t :=
  updateItem id userId
    (UpdateGroceryItemRequest.mk None None None None None (Some true)).

Definition markAsNotPurchased (id userId : Z) : Async GroceryItemResponse.t :=
  updateItem id userId
    (UpdateGroceryItemRequest.mk None None None None None (Some false)).

End GroceryItemService.

(* ===================================================================== *)
(** * User repository (lib/repositories/user.repository.ts) *)
(* ===================================================================== *)

Module UserRepository.

Definition toUser (row : UserRow.t) : User.t :=
  User.mk (UserRow.id row) (UserRow.email row)
    (UserRow.created_at row) (UserRow.updated_at row).

Definition toUserWithPassword (row : UserRow.t) : UserWithPassword.t :=
  UserWithPassword.mk (UserRow.id row) (UserRow.email row)
    (UserRow.password_hash row) (UserRow.created_at row) (UserRow.updated_at row).

Definition findByEmail (email : string) : Async (option User.t) :=
  result <- query (SelectUserByEmail email) (Sql.select_user_by_email email) ;;
  match result with
  | [] => ret None
  | row :: _ => ret (Some (toUser row))
  end.

Definition findById (id : Z) : Async (option User.t) :=
  result <- query (SelectUserById id) (Sql.select_user_by_id id) ;;
  match result with
  | [] => ret None
  | row :: _ => ret (Some (toUser row))
  end.

Definition findByIdWithPassword (id : Z) : Async (option UserWithPassword.t) :=
  result <- query (SelectUserByIdWithPassword id) (Sql.select_user_by_id id) ;;
  match result with
  | [] => ret None
  | row :: _ => ret (Some (toUserWithPassword row))
  end.

End UserRepository.

(* ===================================================================== *)
(** * JWT utilities (lib/auth/jwt.ts) *)
(* ===================================================================== *)

Module Jwt.

(** [s.split(sep)] for a separator of one character *)
Fixpoint split (sep : ascii) (s : string) : list string :=
  match s with
  | EmptyString => [EmptyString]
  | String c s' =>
      if Ascii.eqb c sep then EmptyString :: split sep s'
      else match split sep s' with
           | part :: parts => String c part :: parts
           | [] => [String c EmptyString]
           end
  end.

Section WithPackages.
Context {pkg : Packages}.

Definition generateTokens (userId : Z) (email : string) : AuthTokens.t :=
  let payload := JWTPayload.mk userId email in
  AuthTokens.mk (jwt_sign payload jwtSecret jwtExpiresIn)
    (jwt_sign payload jwtSecret refreshTokenExpiresIn).

Definition verifyToken (token : string) : Completion JWTPayload.t :=
  match jwt_verify token jwtSecret with
  | Verified payload => Return payload
  | ThrowsTokenExpiredError =>
      Throw (mkException AuthenticationError "Token has expired")
  | ThrowsJsonWebTokenError =>
      Throw (mkException AuthenticationError "Invalid token")
  | ThrowsOther =>
      Throw (mkException AuthenticationError "Token verification failed")
  end.

End WithPackages.

Definition extractTokenFromHeader (authHeader : option string) : Completion string :=
  match authHeader with
  | None | Some EmptyString =>
      Throw (mkException AuthenticationError "Authorization header missing")
  | Some authHeader =>
      match split " " authHeader with
      | [scheme; token] =>
          if String.eqb scheme "Bearer" then Return token
          else Throw (mkException AuthenticationError
                        "Invalid authorization header format")
      | _ => Throw (mkException AuthenticationError
                      "Invalid authorization header format")
      end
  end.

End Jwt.

(* ===================================================================== *)
(** * Auth service (lib/services/auth.service.ts) *)
(* ===================================================================== *)

Module AuthService.
Import Validation.

Section WithPackages.
Context {pkg : Packages}.

Definition login (loginData : LoginRequest.t) : Async (User.t * AuthTokens.t) :=
  validatedData <- lift (validateRequestBody loginSchema loginData) ;;
  let email := LoginRequest.email validatedData in
  let password := LoginRequest.password validatedData in
  found <- UserRepository.findByEmail email ;;
  userWithPassword <-
    UserRepository.findByIdWithPassword
      (match found with
       | Some u => User.id u
       | None => 0
       end) ;;
  match userWithPassword with
  | None => throw AuthenticationError "Invalid email or password"
  | Some userWithPassword =>
      let isPasswordValid :=
        bcrypt_compare password (UserWithPassword.passwordHash userWithPassword) in
      if negb isPasswordValid then
        throw AuthenticationError "Invalid email or password"
      else
        let user :=
          User.mk (UserWithPassword.id userWithPassword)
            (UserWithPassword.email userWithPassword)
            (UserWithPassword.createdAt userWithPassword)
            (UserWithPassword.updatedAt userWithPassword) in
        let tokens := Jwt.generateTokens (User.id user) (User.email user) in
        ret (user, tokens)
  end.

End WithPackages.

Definition validateUser (userId : Z) : Async User.t :=
  user <- UserRepository.findById userId ;;
  match user with
  | None => throw AuthenticationError "User not found"
  | Some user => ret user
  end.

End AuthService.

(* ===================================================================== *)
(** * Requests and responses *)
(* ===================================================================== *)

(** What a handler reads of a [NextRequest]: the [authorization] header,
    the query parameters of the URL, and the body as [request.json()]
    returns it ([None] when the body is not JSON and the call throws). *)
Record NextRequest (B : Type) : Type := mkRequest {
  authorization : option string;
  searchParams : list (string * string);
  json : option B
}.
Arguments mkRequest {B} _ _ _.
Arguments authorization {B} _.
Arguments searchParams {B} _.
Arguments json {B} _.

Inductive Body : Type :=
| ErrorBody (error : string)
| MessageBody (message : string)
| ItemBody (message : string) (item : GroceryItemResponse.t)
| ItemsBody (message : string) (items : list GroceryItemResponse.t) (count : Z)
| LoginBody (message : string) (user : User.t) (tokens : AuthTokens.t).

Record Response : Type := mkResponse { status : Z; body : Body }.

(* ===================================================================== *)
(** * Authentication middleware (lib/auth/middleware.ts) *)
(* ===================================================================== *)

Module Middleware.

Section WithPackages.
Context {pkg : Packages}.

Definition authenticate {B} (request : NextRequest B) : Async User.t :=
  try_catch
    (let authHeader := authorization request in
     token <- lift (Jwt.extractTokenFromHeader authHeader) ;;
     payload <- lift (Jwt.verifyToken token) ;;
     user <- AuthService.validateUser (JWTPayload.userId payload) ;;
     ret user)
    (fun error =>
       if instanceof error AuthenticationError then rethrow error
       else throw AuthenticationError "Authentication failed").

(** The [catch] block of the function [withAuth] returns. *)
Definition onError (error : Exception) : Async Response :=
  if instanceof error AuthenticationError then
    ret (mkResponse (statusCode (cls error)) (ErrorBody (message error)))
  else
    ret (mkResponse 500 (ErrorBody "Internal server error")).

Definition withAuth {B P}
    (handler : NextRequest B -> P -> User.t -> Async Response)
    : NextRequest B -> P -> Async Response :=
  fun request context =>
    try_catch
      (user <- authenticate request ;;
       handler request context user)
      onError.

End WithPackages.

End Middleware.

(* ===================================================================== *)
(** * JavaScript built-ins the handlers use *)
(* ===================================================================== *)

Module Js.

(** White space and line terminators of JavaScript, which [parseInt] skips
    and [trim] removes, among the code units below 256: TAB, LF, VT, FF,
    CR, the space and the no-break space (U+00A0). *)
Definition isWhiteSpace (c : ascii) : bool :=
  let n := nat_of_ascii c in
  (((9 <=? n) && (n <=? 13)) || (n =? 32) || (n =? 160))%nat.

Fixpoint skipWhiteSpace (s : string) : string :=
  match s with
  | String c s' => if isWhiteSpace c then skipWhiteSpace s' else s
  | EmptyString => s
  end.

Definition digitValue (c : ascii) : option Z :=
  let n := nat_of_ascii c in
  if ((48 <=? n) && (n <=? 57))%nat then Some (Z.of_nat (n - 48))
  else if ((97 <=? n) && (n <=? 122))%nat then Some (Z.of_nat (n - 87))
  else if ((65 <=? n) && (n <=? 90))%nat then Some (Z.of_nat (n - 55))
  else None.

(** The value of the longest prefix of digits of the radix; [acc] is the
    value read so far, [None] when no digit was read. *)
Fixpoint digits (radix : Z) (s : string) (acc : option Z) : option Z :=
  match s with
  | EmptyString => acc
  | String c s' =>
      match digitValue c with
      | Some d =>
          if d <? radix then
            digits radix s' (Some (match acc with
                                   | Some a => a * radix + d
                                   | None => d
                                   end))
          else acc
      | None => acc
      end
  end.

(** [parseInt(s)] without a radix; [None] is NaN. (The result is exact:
    the rounding of integers beyond 2^53 is not modelled.) *)
Definition parseInt (s : string) : option Z :=
  let s := skipWhiteSpace s in
  let '(sign, s) :=
    match s with
    | String "-" rest => (-1, rest)
    | String "+" rest => (1, rest)
    | _ => (1, s)
    end in
  let '(radix, s) :=
    match s with
    | String "0" (String "x" rest) => (16, rest)
    | String "0" (String "X" rest) => (16, rest)
    | _ => (10, s)
    end in
  match digits radix s None with
  | Some n => Some (sign * n)
  | None => None
  end.

(** [searchParams.get(name)] *)
Fixpoint get (name : string) (params : list (string * string)) : option string :=
  match params with
  | [] => None
  | (k, v) :: rest => if String.eqb k name then Some v else get name rest
  end.

End Js.

(* ===================================================================== *)
(** * Route handlers (app/api/.../route.ts) *)
(* ===================================================================== *)

Module Routes.

(** The [catch] block of the handlers: the classes a handler names first
    ([named]), then any [AppError], answer with the error's status code and
    message; anything else answers 500. *)
Definition catchBlock (named : Exception -> bool) (error : Exception)
    : Async Response :=
  if named error then
    ret (mkResponse (statusCode (cls error)) (ErrorBody (message error)))
  else if instanceofAppError error then
    ret (mkResponse (statusCode (cls error)) (ErrorBody (message error)))
  else
    ret (mkResponse 500 (ErrorBody "Internal server error")).

(** [await request.json()] *)
Definition requestJson {B} (request : NextRequest B) : Async B :=
  match json request with
  | Some body => ret body
  | None => throw JsError "Unexpected token in JSON"
  end.

(** ** app/api/grocery-items/[id]/route.ts *)

Module Item.

Record Params : Type := mkParams { id : string }.

Definition onError : Exception -> Async Response :=
  catchBlock (fun error =>
                instanceof error NotFoundError || instanceof error ValidationError).

Definition getHandler {B} (request : NextRequest B) (params : Params)
    (user : User.t) : Async Response :=
  try_catch
    (match Js.parseInt (id params) with
     | None => ret (mkResponse 400 (ErrorBody "Invalid item ID"))
     | Some itemId =>
         item <- GroceryItemService.getItem itemId (User.id user) ;;
         ret (mkResponse 200
                (ItemBody "Grocery item retrieved successfully" item))
     end)
    onError.

Definition putHandler (request : NextRequest UpdateGroceryItemRequest.t)
    (params : Params) (user : User.t) : Async Response :=
  try_catch
    (match Js.parseInt (id params) with
     | None => ret (mkResponse 400 (ErrorBody "Invalid item ID"))
     | Some itemId =>
         body <- requestJson request ;;
         item <- GroceryItemService.updateItem itemId (User.id user) body ;;
         ret (mkResponse 200
                (ItemBody "Grocery item updated successfully" item))
     end)
    onError.

Definition deleteHandler {B} (request : NextRequest B) (params : Params)
    (user : User.t) : Async Response :=
  try_catch
    (match Js.parseInt (id params) with
     | None => ret (mkResponse 400 (ErrorBody "Invalid item ID"))
     | Some itemId =>
         _ <- GroceryItemService.deleteItem itemId (User.id user) ;;
         ret (mkResponse 200 (MessageBody "Grocery item deleted successfully"))
     end)
    onError.

Section WithPackages.
Context {pkg : Packages}.

Definition GET {B} : NextRequest B -> Params -> Async Response :=
  Middleware.withAuth getHandler.

Definition PUT : NextRequest UpdateGroceryItemRequest.t -> Params -> Async Response :=
  Middleware.withAuth putHandler.

Definition DELETE {B} : NextRequest B -> Params -> Async Response :=
  Middleware.withAuth deleteHandler.

End WithPackages.

End Item.

(** ** app/api/grocery-items/route.ts *)

Module Items.

Definition onError : Exception -> Async Response :=
  catchBlock (fun error => instanceof error ValidationError).

(** The filters [GET] reads from the query string: [category],
    [isPurchased] and [search]. *)
Definition parseFilters (params : list (string * string)) : GroceryItemFilters.t :=
  let truthy := GroceryItemRepository.truthy in
  GroceryItemFilters.mk None
    (truthy (Js.get "category" params))
    (match truthy (Js.get "isPurchased" params) with
     | Some v => Some (String.eqb v "true")
     | None => None
     end)
    (truthy (Js.get "search" params)).

Definition getHandler {B} (request : NextRequest B) (context : unit)
    (user : User.t) : Async Response :=
  try_catch
    (let filters := parseFilters (searchParams request) in
     items <- GroceryItemService.getUserItems (User.id user) (Some filters) ;;
     ret (mkResponse 200
            (ItemsBody "Grocery items retrieved successfully" items
               (Z.of_nat (List.length items)))))
    onError.

Definition postHandler (request : NextRequest CreateGroceryItemRequest.t)
    (context : unit) (user : User.t) : Async Response :=
  try_catch
    (body <- requestJson request ;;
     item <- GroceryItemService.createItem (User.id user) body ;;
     ret (mkResponse 201 (ItemBody "Grocery item created successfully" item)))
    onError.

Section WithPackages.
Context {pkg : Packages}.

Definition GET {B} : NextRequest B -> unit -> Async Response :=
  Middleware.withAuth getHandler.

Definition POST : NextRequest CreateGroceryItemRequest.t -> unit -> Async Response :=
  Middleware.withAuth postHandler.

End WithPackages.

End Items.

(** ** app/api/auth/login/route.ts *)

Module Login.

Definition onError : Exception -> Async Response :=
  catchBlock (fun error =>
                instanceof error ValidationError
                || instanceof error AuthenticationError).

Section WithPackages.
Context {pkg : Packages}.

Definition POST (request : NextRequest LoginRequest.t) : Async Response :=
  try_catch
    (body <- requestJson request ;;
     result <- AuthService.login body ;;
     ret (mkResponse 200 (LoginBody "Login successful" (fst result) (snd result))))
    onError.

End WithPackages.

End Login.

End Routes.

(* ===================================================================== *)
(** * Stand-ins for the external packages *)
(* ===================================================================== *)

(** Concrete packages on which the model runs: the e-mail test is the
    regular expression of the hand-written [validateEmail]
    ([/^[^\s@]+@[^\s@]+\.[^\s@]+$/]), the hash keeps the password in clear
    behind a prefix, and the token library knows four tokens. *)
Module Fakes.

Definition isAt (c : ascii) : bool := Ascii.eqb c "@".
Definition isDot (c : ascii) : bool := Ascii.eqb c ".".

(** The part of [l] before the first [@], and the part after it. *)
Fixpoint splitAt (l : list ascii) : list ascii * option (list ascii) :=
  match l with
  | [] => ([], None)
  | c :: l' =>
      if isAt c then ([], Some l')
      else let '(before, after) := splitAt l' in (c :: before, after)
  end.

Definition emailRegex (email : string) : bool :=
  let chars := list_ascii_of_string email in
  forallb (fun c => negb (Js.isWhiteSpace c)) chars
  && match splitAt chars with
     | (_ :: _, Some (d :: domain)) =>
         negb (existsb isAt (d :: domain))
         && existsb isDot (removelast domain)
     | _ => false
     end.

Definition hash (password : string) : string := ("$2a$12$" ++ password)%string.

Definition compare (password hashed : string) : bool :=
  String.eqb hashed (hash password).

Definition secret : string := "test-secret".

Definition verify (token key : string) : JwtVerifyResult :=
  if negb (String.eqb key secret) then ThrowsJsonWebTokenError
  else if String.eqb token "alice.access" then
    Verified (JWTPayload.mk 1 "alice@example.com")
  else if String.eqb token "ghost.access" then
    Verified (JWTPayload.mk 99 "ghost@example.com")
  else if String.eqb token "alice.expired" then ThrowsTokenExpiredError
  else if String.eqb token "not.a.string" then ThrowsOther
  else ThrowsJsonWebTokenError.

Definition sign (payload : JWTPayload.t) (key expiresIn : string) : string :=
  (JWTPayload.email payload ++ "/" ++ expiresIn)%string.

Definition packages : Packages :=
  Build_Packages emailRegex compare verify sign secret "24h" "7d".

(** Two registered users, alice (id 1) and bob (id 2). *)
Definition alice : UserRow.t :=
  UserRow.mk 1 "alice@example.com" (hash "correct horse") 10 10.

Definition bob : UserRow.t :=
  UserRow.mk 2 "bob@example.com" (hash "battery staple") 20 20.

Definition twoUsers (now : Z) : Db.t := Db.mk [alice; bob] [] 3 1 now [].

End Fakes.

(* ===================================================================== *)
(** * Invariants of the datastore *)
(* ===================================================================== *)

Module Invariant.

(** [id SERIAL PRIMARY KEY] on [grocery_items]: the ids are distinct,
    positive and below the next value of the sequence. *)
Definition primary_key (db : Db.t) : Prop :=
  NoDup (map Row.id (Db.grocery_items db)).

Definition serial (db : Db.t) : Prop :=
  0 < Db.grocery_items_id_seq db
  /\ Forall (fun r => 0 < Row.id r < Db.grocery_items_id_seq db)
            (Db.grocery_items db).

(** [id SERIAL PRIMARY KEY] and [email UNIQUE] on [users]. *)
Definition users_key (db : Db.t) : Prop :=
  NoDup (map UserRow.id (Db.users db))
  /\ NoDup (map UserRow.email (Db.users db))
  /\ Forall (fun u => 0 < UserRow.id u) (Db.users db).

Definition wf (db : Db.t) : Prop :=
  primary_key db /\ serial db /\ users_key db.

End Invariant.

(* ===================================================================== *)
(** * What the spec asks of a partial update *)
(* ===================================================================== *)

Module Spec.

Definition orElse {A} (o : option A) (old : A) : A :=
  match o with
  | Some v => v
  | None => old
  end.

Definition orKeep {A} (o : option A) (old : option A) : option A :=
  match o with
  | Some v => Some v
  | None => old
  end.

(** The merge of the spec: every field that is present in the patch
    replaces the column, [store] included; the others are kept;
    [updated_at] is refreshed. *)
Definition merge (patch : UpdateGroceryItemRequest.t) (now : Z) (r : Row.t)
    : Row.t :=
  Row.mk (Row.id r) (Row.user_id r)
    (orElse (UpdateGroceryItemRequest.name patch) (Row.name r))
    (orElse (UpdateGroceryItemRequest.quantity patch) (Row.quantity r))
    (orKeep (UpdateGroceryItemRequest.store patch) (Row.store r))
    (orKeep (UpdateGroceryItemRequest.category patch) (Row.category r))
    (orKeep (UpdateGroceryItemRequest.notes patch) (Row.notes r))
    (orElse (UpdateGroceryItemRequest.isPurchased patch) (Row.is_purchased r))
    (Row.created_at r) now.

(** The merge the repository performs: the same, except that the [store]
    column is kept whatever the patch says. *)
Definition merge_without_store (patch : UpdateGroceryItemRequest.t) (now : Z)
    (r : Row.t) : Row.t :=
  Row.mk (Row.id r) (Row.user_id r)
    (orElse (UpdateGroceryItemRequest.name patch) (Row.name r))
    (orElse (UpdateGroceryItemRequest.quantity patch) (Row.quantity r))
    (Row.store r)
    (orKeep (UpdateGroceryItemRequest.category patch) (Row.category r))
    (orKeep (UpdateGroceryItemRequest.notes patch) (Row.notes r))
    (orElse (UpdateGroceryItemRequest.isPurchased patch) (Row.is_purchased r))
    (Row.created_at r) now.

(** A patch that passes [updateGroceryItemSchema]. *)
Definition valid_patch (patch : UpdateGroceryItemRequest.t) : Prop :=
  Validation.updateGroceryItemSchema patch = Validation.success patch.

(** A create input that passes [createGroceryItemSchema]. *)
Definition valid_input (input : CreateGroceryItemRequest.t) : Prop :=
  exists data, Validation.createGroceryItemSchema input = Validation.success data.

(** The view of a row: what the service returns for it. *)
Definition view (r : Row.t) : GroceryItemResponse.t :=
  GroceryItemService.toGroceryItemResponse
    (GroceryItemRepository.mapDbRowToGroceryItem (Sql.returning r)).

End Spec.

(** The row that [INSERT] adds for a validated input. *)
Definition inserted (owner : Z) (input : CreateGroceryItemRequest.t) (db : Db.t)
    : Row.t :=
  Row.mk (Db.grocery_items_id_seq db) owner
    (CreateGroceryItemRequest.name input)
    (Spec.orElse (CreateGroceryItemRequest.quantity input) 1)
    None
    (GroceryItemRepository.or_null (CreateGroceryItemRequest.category input))
    (GroceryItemRepository.or_null (CreateGroceryItemRequest.notes input))
    false (Db.current_timestamp db) (Db.current_timestamp db).

Definition after_insert (owner : Z) (input : CreateGroceryItemRequest.t)
    (db : Db.t) : Db.t :=
  Db.log (InsertItem owner)
    (Db.mk (Db.users db) (Db.grocery_items db ++ [inserted owner input db])
       (Db.users_id_seq db) (Db.grocery_items_id_seq db + 1)
       (Db.current_timestamp db) (Db.statements db)).

(* ===================================================================== *)
(** * Inputs and states of the examples *)
(* ===================================================================== *)

(** The inputs of the examples. *)
Module Example.

Definition milk : CreateGroceryItemRequest.t :=
  CreateGroceryItemRequest.mk "Milk" (Some 2) (Some "Walmart") (Some "Dairy")
    (Some "2% milk").

(** Alice (user 1) has created [milk] at time 100. *)
Definition aliceHasMilk : Db.t :=
  snd (GroceryItemService.createItem 1 milk (Fakes.twoUsers 100)).

Definition milkRow : Row.t :=
  Row.mk 1 1 "Milk" 2 None (Some "Dairy") (Some "2% milk") false 100 100.

Definition storeOnly (store : string) : UpdateGroceryItemRequest.t :=
  UpdateGroceryItemRequest.mk None None (Some store) None None None.

Definition quantityOnly (quantity : Z) : UpdateGroceryItemRequest.t :=
  UpdateGroceryItemRequest.mk None (Some quantity) None None None None.

Definition quantityAndStore (quantity : Z) (store : string)
    : UpdateGroceryItemRequest.t :=
  UpdateGroceryItemRequest.mk None (Some quantity) (Some store) None None None.

(** Three rows of user 1 with the stores and categories of the filter
    example, created at times 1, 2 and 3. *)
Definition rowAX : Row.t := Row.mk 1 1 "first" 1 (Some "A") (Some "X") None false 1 1.
Definition rowAY : Row.t := Row.mk 2 1 "second" 1 (Some "A") (Some "Y") None false 2 2.
Definition rowBX : Row.t := Row.mk 3 1 "third" 1 (Some "B") (Some "X") None false 3 3.

Definition threeItems : Db.t := Db.mk [Fakes.alice] [rowAX; rowAY; rowBX] 2 4 10 [].

Definition storeAcategoryX : GroceryItemFilters.t :=
  GroceryItemFilters.mk (Some "A") (Some "X") None None.

End Example.

(* ===================================================================== *)
(** * What a listing is expected to contain *)
(* ===================================================================== *)

Module Listing.

(** The rows a listing keeps, as the repository filters them: the
    category matches exactly, the purchased flag matches exactly, and the
    search pattern matches the name or the notes; a filter that is absent
    or the empty string keeps every row. The [store] filter keeps every
    row. *)
Definition matches (filters : option GroceryItemFilters.t) (r : Row.t) : bool :=
  match filters with
  | None => true
  | Some f =>
      match GroceryItemFilters.category f with
      | None | Some EmptyString => true
      | Some category => Sql.eq_nullable (Row.category r) category
      end
      && match GroceryItemFilters.isPurchased f with
         | None => true
         | Some isPurchased => Bool.eqb (Row.is_purchased r) isPurchased
         end
      && match GroceryItemFilters.search f with
         | None | Some EmptyString => true
         | Some search =>
             Sql.ilike (Row.name r) ("%" ++ search ++ "%")
             || Sql.ilike_nullable (Row.notes r) ("%" ++ search ++ "%")
         end
  end.

(** The item the repository makes of a row. *)
Definition item (r : Row.t) : GroceryItem.t :=
  GroceryItemRepository.mapDbRowToGroceryItem (Sql.returning r).

(** Newest first. *)
Definition newer_first (a b : GroceryItem.t) : Prop :=
  GroceryItem.createdAt b <= GroceryItem.createdAt a.

Definition newer_row (a b : Row.t) : Prop :=
  Row.created_at b <= Row.created_at a.

End Listing.

(* ===================================================================== *)
(** * The bounds of the validation schemas *)
(* ===================================================================== *)

Module Bounds.

Definition at_most (n : nat) (value : option string) : bool :=
  match value with
  | Some s => (String.length s <=? n)%nat
  | None => true
  end.

Definition at_least_one (value : option Z) : bool :=
  match value with
  | Some q => 1 <=? q
  | None => true
  end.

(** The inputs [createGroceryItemSchema] accepts: a name of 1 to 255
    characters, a quantity of at least 1 when given, a store of at most
    255 characters, a category of at most 100 and notes of at most 1000. *)
Definition create_ok (input : CreateGroceryItemRequest.t) : bool :=
  (1 <=? String.length (CreateGroceryItemRequest.name input))%nat
  && (String.length (CreateGroceryItemRequest.name input) <=? 255)%nat
  && at_least_one (CreateGroceryItemRequest.quantity input)
  && at_most 255 (CreateGroceryItemRequest.store input)
  && at_most 100 (CreateGroceryItemRequest.category input)
  && at_most 1000 (CreateGroceryItemRequest.notes input).

(** The patches [updateGroceryItemSchema] accepts: at least one field, and
    the bounds of the create input on the fields that are present. *)
Definition update_ok (patch : UpdateGroceryItemRequest.t) : bool :=
  (0 <? Validation.keys_length patch)%nat
  && match UpdateGroceryItemRequest.name patch with
     | Some name => (1 <=? String.length name)%nat && (String.length name <=? 255)%nat
     | None => true
     end
  && at_least_one (UpdateGroceryItemRequest.quantity patch)
  && at_most 255 (UpdateGroceryItemRequest.store patch)
  && at_most 100 (UpdateGroceryItemRequest.category patch)
  && at_most 1000 (UpdateGroceryItemRequest.notes patch).

End Bounds.

(* ===================================================================== *)
(** * Bearer headers *)
(* ===================================================================== *)

Module Bearer.

(** No occurrence of the character in the string. *)
Fixpoint without (c : ascii) (s : string) : bool :=
  match s with
  | EmptyString => true
  | String d s' => negb (Ascii.eqb d c) && without c s'
  end.

(** The header that carries a token. *)
Definition header (token : string) : string := ("Bearer " ++ token)%string.

End Bearer.

(* ===================================================================== *)
(** * The hand-written grocery item service
      (the earlier GroceryItemServiceImpl, with its own validation) *)
(* ===================================================================== *)

Module LegacyGroceryItemService.

Definition validationError {A} (msg : string) : Completion A :=
  Throw (mkException ValidationError msg).

(** [!s || s.trim().length === 0]: the string is empty or made of white
    space only. *)
Definition isBlank (s : string) : bool :=
  forallb Js.isWhiteSpace (list_ascii_of_string s).

(** [value && value.length > n] *)
Definition truthyLonger (n : nat) (value : option string) : bool :=
  match GroceryItemRepository.truthy value with
  | Some s => (n <? String.length s)%nat
  | None => false
  end.

(** [value !== undefined && value.length > n] *)
Definition definedLonger (n : nat) (value : option string) : bool :=
  match value with
  | Some s => (n <? String.length s)%nat
  | None => false
  end.

(** [value !== undefined && value < 1] *)
Definition definedBelowOne (value : option Z) : bool :=
  match value with
  | Some q => q <? 1
  | None => false
  end.

Definition validateCreateItemData (data : CreateGroceryItemRequest.t)
    : Completion unit :=
  if isBlank (CreateGroceryItemRequest.name data) then
    validationError "Item name is required"
  else if (255 <? String.length (CreateGroceryItemRequest.name data))%nat then
    validationError "Item name must be 255 characters or less"
  else if definedBelowOne (CreateGroceryItemRequest.quantity data) then
    validationError "Quantity must be at least 1"
  else if truthyLonger 255 (CreateGroceryItemRequest.store data) then
    validationError "Store name must be 255 characters or less"
  else if truthyLonger 100 (CreateGroceryItemRequest.category data) then
    validationError "Category must be 100 characters or less"
  else if truthyLonger 1000 (CreateGroceryItemRequest.notes data) then
    validationError "Notes must be 1000 characters or less"
  else Return tt.

Definition validateUpdateItemData (data : UpdateGroceryItemRequest.t)
    : Completion unit :=
  if (Validation.keys_length data =? 0)%nat then
    validationError "At least one field must be provided for update"
  else if match UpdateGroceryItemRequest.name data with
          | Some name => isBlank name
          | None => false
          end then
    validationError "Item name cannot be empty"
  else if definedLonger 255 (UpdateGroceryItemRequest.name data) then
    validationError "Item name must be 255 characters or less"
  else if definedBelowOne (UpdateGroceryItemRequest.quantity data) then
    validationError "Quantity must be at least 1"
  else if definedLonger 255 (UpdateGroceryItemRequest.store data) then
    validationError "Store name must be 255 characters or less"
  else if definedLonger 100 (UpdateGroceryItemRequest.category data) then
    validationError "Category must be 100 characters or less"
  else if definedLonger 1000 (UpdateGroceryItemRequest.notes data) then
    validationError "Notes must be 1000 characters or less"
  else Return tt.

Definition validateFilters (filters : GroceryItemFilters.t) : Completion unit :=
  if truthyLonger 255 (GroceryItemFilters.store filters) then
    validationError "Store filter must be 255 characters or less"
  else if truthyLonger 100 (GroceryItemFilters.category filters) then
    validationError "Category filter must be 100 characters or less"
  else if truthyLonger 255 (GroceryItemFilters.search filters) then
    validationError "Search term must be 255 characters or less"
  else Return tt.

(** [!Number.isInteger(id) || id <= 0] *)
Definition validateId (id : Z) : Completion unit :=
  if id <=? 0 then validationError "Invalid item ID" else Return tt.

Definition createItem (userId : Z) (itemData : CreateGroceryItemRequest.t)
    : Async GroceryItemResponse.t :=
  _ <- lift (validateCreateItemData itemData) ;;
  item <- GroceryItemRepository.create userId itemData ;;
  ret (GroceryItemService.toGroceryItemResponse item).

Definition getItem (id userId : Z) : Async GroceryItemResponse.t :=
  _ <- lift (validateId id) ;;
  item <- GroceryItemRepository.findById id userId ;;
  match item with
  | None => throw NotFoundError "Grocery item not found"
  | Some item => ret (GroceryItemService.toGroceryItemResponse item)
  end.

Definition getUserItems (userId : Z) (filters : option GroceryItemFilters.t)
    : Async (list GroceryItemResponse.t) :=
  _ <- match filters with
       | Some f => lift (validateFilters f)
       | None => ret tt
       end ;;
  items <- GroceryItemRepository.findByUserId userId filters ;;
  ret (map GroceryItemService.toGroceryItemResponse items).

Definition updateItem (id userId : Z) (updateData : UpdateGroceryItemRequest.t)
    : Async GroceryItemResponse.t :=
  _ <- lift (validateId id) ;;
  _ <- lift (validateUpdateItemData updateData) ;;
  item <- GroceryItemRepository.update id userId updateData ;;
  ret (GroceryItemService.toGroceryItemResponse item).

Definition deleteItem (id userId : Z) : Async unit :=
  _ <- lift (validateId id) ;;
  deleted <- GroceryItemRepository.delete id userId ;;
  if deleted then ret tt else throw NotFoundError "Grocery item not found".

End LegacyGroceryItemService.

(* ===================================================================== *)
(** * Search terms *)
(* ===================================================================== *)

Module Search.

(** A character that ILIKE reads as itself: not [%], [_] or a backslash. *)
Definition literal (c : ascii) : bool :=
  negb (Ascii.eqb c "%") && negb (Ascii.eqb c "_") && negb (Ascii.eqb c "\").

Definition plain (search : string) : bool :=
  forallb literal (list_ascii_of_string search).

(** The same characters, letters compared without case. *)
Definition same (a b : list ascii) : Prop :=
  Forall2 (fun c x => Sql.eqb_ci c x = true) a b.

(** The term occurs in the text, letters compared without case. *)
Definition occurs (search text : string) : Prop :=
  exists before found after,
    list_ascii_of_string text = before ++ found ++ after
    /\ same (list_ascii_of_string search) found.

End Search.

(* ===================================================================== *)
(** * Statements that PostgreSQL accepts *)
(* ===================================================================== *)

(** [query] wraps the driver in a [try]: when PostgreSQL refuses a
    statement it throws [DatabaseError("Database query failed")], and
    nothing is read or written. The model of [query] above takes the
    statement to be accepted. A statement on [grocery_items] is refused
    when an integer parameter is outside the INTEGER type, when a text
    parameter holds the code unit 0, when the [user_id] of a new row is
    not the id of a user, when the sequence of ids is exhausted, or when a
    new value breaks a VARCHAR bound or the CHECK on [quantity]. The
    predicates of this module say that none of these happens; the
    properties of operations that send parameters of the caller are stated
    under them. *)
Module Pg.

(** The type INTEGER *)
Definition integer (n : Z) : Prop := -2147483648 <= n <= 2147483647.

(** A text parameter: no code unit 0. *)
Definition text (s : string) : Prop := Bearer.without Ascii.zero s = true.

(** VARCHAR(n) *)
Definition varchar (n : nat) (s : string) : Prop :=
  text s /\ (String.length s <= n)%nat.

(** The CHECK (quantity > 0) on an INTEGER column *)
Definition quantity (q : Z) : Prop := 0 < q /\ integer q.

Definition whenDefined {A} (holds : A -> Prop) (value : option A) : Prop :=
  match value with
  | Some v => holds v
  | None => True
  end.

(** The foreign key of [grocery_items.user_id] *)
Definition references (db : Db.t) (userId : Z) : Prop :=
  In userId (map UserRow.id (Db.users db)).

(** The parameters of a statement [WHERE id = $1 AND user_id = $2] *)
Definition scoped (id userId : Z) : Prop := integer id /\ integer userId.

(** The INSERT of [create] *)
Definition insert (db : Db.t) (userId : Z)
    (itemData : CreateGroceryItemRequest.t) : Prop :=
  integer userId
  /\ references db userId
  /\ integer (Db.grocery_items_id_seq db)
  /\ varchar 255 (CreateGroceryItemRequest.name itemData)
  /\ quantity (match CreateGroceryItemRequest.quantity itemData with
               | Some q => q
               | None => 1
               end)
  /\ whenDefined (varchar 100)
       (GroceryItemRepository.or_null (CreateGroceryItemRequest.category itemData))
  /\ whenDefined text
       (GroceryItemRepository.or_null (CreateGroceryItemRequest.notes itemData)).

(** The UPDATE of [update] *)
Definition update (id userId : Z) (updateData : UpdateGroceryItemRequest.t)
    : Prop :=
  scoped id userId
  /\ whenDefined (varchar 255) (UpdateGroceryItemRequest.name updateData)
  /\ whenDefined quantity (UpdateGroceryItemRequest.quantity updateData)
  /\ whenDefined (varchar 100) (UpdateGroceryItemRequest.category updateData)
  /\ whenDefined text (UpdateGroceryItemRequest.notes updateData).

(** The SELECT of [findByUserId] *)
Definition select (userId : Z) (filters : option GroceryItemFilters.t) : Prop :=
  integer userId
  /\ match filters with
     | Some f =>
         whenDefined text (GroceryItemRepository.truthy (GroceryItemFilters.category f))
         /\ whenDefined text (GroceryItemRepository.truthy (GroceryItemFilters.search f))
     | None => True
     end.

End Pg.

(* ===================================================================== *)
(** * The token library, as the specification describes it *)
(* ===================================================================== *)

(** Modelled from the spec: the jsonwebtoken package is not among the
    sources. A token encodes the claims [{subjectUserId, subjectEmail,
    issuedAt, expiresAt}] and is signed with a secret; [verify] fails with
    TokenInvalid when the encoding is malformed or the signature check
    fails, and with TokenExpired when the current time is past
    [expiresAt]. The signature is checked first, as the claims of a token
    signed with another secret are not to be trusted. A signature is
    modelled by the secret it was made with. *)
Module SpecJwt.

Record Token : Type := mkToken {
    claims : JWTPayload.t;
    issuedAt : Z;
    expiresAt : Z;
    signedWith : string
  }.

Section Verify.
Variable decode : string -> option Token.
Variable now : Z.

Definition verify (token key : string) : JwtVerifyResult :=
  match decode token with
  | None => ThrowsJsonWebTokenError
  | Some t =>
      if negb (String.eqb (signedWith t) key) then ThrowsJsonWebTokenError
      else if expiresAt t <? now then ThrowsTokenExpiredError
      else Verified (claims t)
  end.

(** The encoding is malformed. *)
Definition malformed (token : string) : Prop := decode token = None.

(** The token was signed with a different secret. *)
Definition forged (key token : string) : Prop :=
  exists t, decode token = Some t /\ signedWith t <> key.

(** The token decodes to [t], which was signed with the secret. *)
Definition authentic (key token : string) (t : Token) : Prop :=
  decode token = Some t /\ signedWith t = key.

(** The token library of the packages is the one of the specification. *)
Definition conforms (pkg : Packages) : Prop :=
  forall token, jwt_verify token jwtSecret = verify token jwtSecret.

End Verify.

(** A table of tokens: one of alice that expires at time 86400, one that
    expired at time 50, and one signed with another secret that expired at
    time 50. *)
Definition wire (token : string) : option Token :=
  if String.eqb token "alice.access" then
    Some (mkToken (JWTPayload.mk 1 "alice@example.com") 0 86400 Fakes.secret)
  else if String.eqb token "alice.expired" then
    Some (mkToken (JWTPayload.mk 1 "alice@example.com") 0 50 Fakes.secret)
  else if String.eqb token "mallory.expired" then
    Some (mkToken (JWTPayload.mk 1 "alice@example.com") 0 50 "another-secret")
  else None.

Definition packages (now : Z) : Packages :=
  Build_Packages Fakes.emailRegex Fakes.compare (verify wire now) Fakes.sign
    Fakes.secret "24h" "7d".

End SpecJwt.

(* ===================================================================== *)
(** * A store name that is too long *)
(* ===================================================================== *)

Module Long.

Fixpoint copies (n : nat) (c : ascii) : string :=
  match n with
  | O => EmptyString
  | S n' => String c (copies n' c)
  end.

(** 256 characters *)
Definition store : string := copies 256 "a".

End Long.

(* ===================================================================== *)
(** * States that differ by the log of statements only *)
(* ===================================================================== *)

(** The tables, the sequences and the clock of two states are the same. *)
Definition same_data (a b : Db.t) : Prop :=
  Db.users a = Db.users b
  /\ Db.grocery_items a = Db.grocery_items b
  /\ Db.users_id_seq a = Db.users_id_seq b
  /\ Db.grocery_items_id_seq a = Db.grocery_items_id_seq b
  /\ Db.current_timestamp a = Db.current_timestamp b.

(* ===================================================================== *)
(** * Lemmas on lists and on the datastore *)
(* ===================================================================== *)

Section ListLemmas.
Context {A B : Type}.

Lemma filter_none (f : A -> bool) (l : list A) :
  (forall x, In x l -> f x = false) -> filter f l = [].
Proof.
  induction l as [|a l IH]; intros H; simpl; [reflexivity|].
  rewrite (H a (or_introl eq_refl)). apply IH.
  intros x Hx. apply H. right. exact Hx.
Qed.

Lemma filter_all (f : A -> bool) (l : list A) :
  (forall x, In x l -> f x = true) -> filter f l = l.
Proof.
  induction l as [|a l IH]; intros H; simpl; [reflexivity|].
  rewrite (H a (or_introl eq_refl)). f_equal. apply IH.
  intros x Hx. apply H. right. exact Hx.
Qed.

Lemma map_unless (f : A -> bool) (g : A -> A) (l : list A) :
  (forall x, In x l -> f x = false) ->
  map (fun x => if f x then g x else x) l = l.
Proof.
  induction l as [|a l IH]; intros H; simpl; [reflexivity|].
  rewrite (H a (or_introl eq_refl)). f_equal. apply IH.
  intros x Hx. apply H. right. exact Hx.
Qed.

Lemma NoDup_map_eq (f : A -> B) (l : list A) (a b : A) :
  NoDup (map f l) -> In a l -> In b l -> f a = f b -> a = b.
Proof.
  induction l as [|x l IH]; simpl; intros Hnd Ha Hb Hab; [contradiction|].
  inversion Hnd as [|? ? Hnotin Hnd']; subst.
  destruct Ha as [Ha|Ha], Hb as [Hb|Hb]; subst.
  - reflexivity.
  - exfalso. apply Hnotin. rewrite Hab. apply in_map. exact Hb.
  - exfalso. apply Hnotin. rewrite <- Hab. apply in_map. exact Ha.
  - apply IH; assumption.
Qed.

End ListLemmas.

Section DatastoreLemmas.
Import Validation GroceryItemService Invariant.

Lemma with_grocery_items_same (db : Db.t) :
  Db.with_grocery_items (Db.grocery_items db) db = db.
Proof. destruct db; reflexivity. Qed.

Lemma validate_id (id : Z) :
  0 < id -> validateRequestBody idSchema id = Return id.
Proof.
  intros H. unfold validateRequestBody, idSchema, parsed, number_positive.
  destruct (id <=? 0) eqn:E; [apply Z.leb_le in E; lia | reflexivity].
Qed.

Lemma validate_patch (p : UpdateGroceryItemRequest.t) :
  Spec.valid_patch p -> validateRequestBody updateGroceryItemSchema p = Return p.
Proof. unfold Spec.valid_patch, validateRequestBody. intros ->. reflexivity. Qed.

(** A row of another owner is never hit by [WHERE id = $1 AND user_id = $2]. *)
Lemma not_owner_no_hit (db : Db.t) (item : Row.t) (other : Z) :
  primary_key db ->
  In item (Db.grocery_items db) ->
  Row.user_id item <> other ->
  forall r, In r (Db.grocery_items db) ->
            Sql.where_id_and_user_id (Row.id item) other r = false.
Proof.
  intros Hpk Hin Hne r Hr. unfold Sql.where_id_and_user_id.
  destruct (Z.eqb_spec (Row.id r) (Row.id item)) as [Hid|]; [|reflexivity].
  assert (r = item) by (eapply NoDup_map_eq; eauto). subst r.
  simpl. apply Z.eqb_neq. exact Hne.
Qed.

Lemma serial_positive (db : Db.t) (item : Row.t) :
  serial db -> In item (Db.grocery_items db) -> 0 < Row.id item.
Proof.
  unfold serial. rewrite Forall_forall. intros [_ H] Hin. apply H in Hin. lia.
Qed.

(** Ownership isolation, for the three scoped operations: a caller who is
    not the owner gets [NotFoundError] and the tables are unchanged (the
    statement is only logged). For [update] the patch has to put a field
    in the SET clause. *)
Lemma ownership_isolation (db : Db.t) (item : Row.t) (other : Z)
    (patch : UpdateGroceryItemRequest.t) :
  wf db ->
  In item (Db.grocery_items db) ->
  Row.user_id item <> other ->
  getItem (Row.id item) other db
  = (Throw (mkException NotFoundError "Grocery item not found"),
     Db.log (SelectItemById (Row.id item) other) db)
  /\ deleteItem (Row.id item) other db
     = (Throw (mkException NotFoundError "Grocery item not found"),
        Db.log (DeleteItem (Row.id item) other) db)
  /\ (Spec.valid_patch patch ->
      GroceryItemRepository.updateFields patch <> [] ->
      updateItem (Row.id item) other patch db
      = (Throw (mkException NotFoundError "Grocery item not found"),
         Db.log (UpdateItem (Row.id item) other) db)).
Proof.
  intros (Hpk & Hser & _) Hin Hne.
  pose proof (serial_positive _ _ Hser Hin) as Hpos.
  pose proof (not_owner_no_hit _ _ _ Hpk Hin Hne) as Hno.
  repeat split.
  - unfold getItem, bind, lift. rewrite (validate_id _ Hpos).
    unfold GroceryItemRepository.findById, bind, query, Sql.select_item_by_id.
    rewrite (filter_none _ _ Hno). reflexivity.
  - unfold deleteItem, bind, lift. rewrite (validate_id _ Hpos).
    unfold GroceryItemRepository.delete, bind, query, Sql.delete_grocery_item.
    rewrite (filter_none _ _ Hno). rewrite filter_all.
    + rewrite with_grocery_items_same. reflexivity.
    + intros r Hr. rewrite (Hno r Hr). reflexivity.
  - intros Hvalid Hfields.
    unfold updateItem, bind, lift. rewrite (validate_id _ Hpos).
    rewrite (validate_patch _ Hvalid).
    unfold GroceryItemRepository.update.
    destruct (GroceryItemRepository.updateFields patch) as [|a fields];
      [congruence|].
    unfold bind, query, Sql.update_grocery_item.
    rewrite (filter_none _ _ Hno). rewrite (map_unless _ _ _ Hno).
    rewrite with_grocery_items_same. reflexivity.
Qed.

End DatastoreLemmas.

Section ItemLemmas.
Import Validation GroceryItemService Invariant.

(** The SET clause the repository builds performs the merge of the patch
    on every column but [store]. *)
Lemma update_row_merge (patch : UpdateGroceryItemRequest.t) (now : Z) (r : Row.t) :
  Sql.update_row (GroceryItemRepository.updateFields patch) now r
  = Spec.merge_without_store patch now r.
Proof.
  destruct patch as [name quantity store category notes isPurchased].
  destruct name, quantity, category, notes, isPurchased; reflexivity.
Qed.

(** It is the merge of the spec exactly when the patch has no [store]. *)
Lemma merge_without_store_spec (patch : UpdateGroceryItemRequest.t) (now : Z)
    (r : Row.t) :
  UpdateGroceryItemRequest.store patch = None ->
  Spec.merge_without_store patch now r = Spec.merge patch now r.
Proof.
  intros H. unfold Spec.merge, Spec.merge_without_store. rewrite H. reflexivity.
Qed.

(** The row with a given id and owner is the only one the WHERE clause hits. *)
Lemma owner_only_hit (db : Db.t) (item : Row.t) :
  primary_key db ->
  In item (Db.grocery_items db) ->
  forall r, In r (Db.grocery_items db) ->
            Sql.where_id_and_user_id (Row.id item) (Row.user_id item) r = true ->
            r = item.
Proof.
  intros Hpk Hin r Hr Hhit. unfold Sql.where_id_and_user_id in Hhit.
  apply andb_prop in Hhit. destruct Hhit as [Hid _]. apply Z.eqb_eq in Hid.
  eapply NoDup_map_eq; eauto.
Qed.

Lemma filter_hit_owner (db : Db.t) (item : Row.t) :
  primary_key db ->
  In item (Db.grocery_items db) ->
  filter (Sql.where_id_and_user_id (Row.id item) (Row.user_id item))
         (Db.grocery_items db) = [item].
Proof.
  unfold primary_key. intros Hpk Hin.
  induction (Db.grocery_items db) as [|x l IH]; [contradiction|].
  simpl in Hpk. inversion Hpk as [|? ? Hnotin Hnd]; subst.
  simpl. destruct Hin as [->|Hin].
  - unfold Sql.where_id_and_user_id at 1. rewrite !Z.eqb_refl. simpl.
    f_equal. apply filter_none. intros r Hr.
    unfold Sql.where_id_and_user_id.
    destruct (Z.eqb_spec (Row.id r) (Row.id item)) as [Hid|]; [|reflexivity].
    exfalso. apply Hnotin. rewrite <- Hid. apply in_map. exact Hr.
  - destruct (Sql.where_id_and_user_id (Row.id item) (Row.user_id item) x) eqn:E.
    + exfalso. unfold Sql.where_id_and_user_id in E.
      apply andb_prop in E. destruct E as [Hid _]. apply Z.eqb_eq in Hid.
      apply Hnotin. rewrite Hid. apply in_map. exact Hin.
    + apply IH; assumption.
Qed.

(** Partial update by the owner: the row becomes its merge with the patch
    (on every column but [store]), the service returns the view of the
    new row, and the other rows are untouched. *)
Lemma update_by_owner (db : Db.t) (item : Row.t)
    (patch : UpdateGroceryItemRequest.t) :
  wf db ->
  In item (Db.grocery_items db) ->
  Spec.valid_patch patch ->
  GroceryItemRepository.updateFields patch <> [] ->
  let item' := Spec.merge_without_store patch (Db.current_timestamp db) item in
  updateItem (Row.id item) (Row.user_id item) patch db
  = (Return (Spec.view item'),
     Db.log (UpdateItem (Row.id item) (Row.user_id item))
       (Db.with_grocery_items
          (map (fun r => if Sql.where_id_and_user_id (Row.id item)
                              (Row.user_id item) r
                         then item' else r)
               (Db.grocery_items db))
          db)).
Proof.
  intros (Hpk & Hser & _) Hin Hvalid Hfields item'.
  pose proof (serial_positive _ _ Hser Hin) as Hpos.
  unfold updateItem, bind, lift. rewrite (validate_id _ Hpos).
  rewrite (validate_patch _ Hvalid).
  unfold GroceryItemRepository.update.
  destruct (GroceryItemRepository.updateFields patch) as [|a fields] eqn:E;
    [congruence|].
  unfold bind, query, Sql.update_grocery_item.
  rewrite (filter_hit_owner _ _ Hpk Hin). rewrite <- E.
  cbn [map]. rewrite update_row_merge. fold item'.
  unfold ret, Spec.view. do 3 f_equal.
  apply map_ext_in. intros r Hr.
  destruct (Sql.where_id_and_user_id (Row.id item) (Row.user_id item) r) eqn:Hhit;
    [|reflexivity].
  rewrite (owner_only_hit _ _ Hpk Hin r Hr Hhit).
  rewrite update_row_merge. reflexivity.
Qed.

End ItemLemmas.

Section CreateLemmas.
Import Validation GroceryItemService Invariant.

Lemma create_schema_data (input data : CreateGroceryItemRequest.t) :
  createGroceryItemSchema input = success data ->
  data = CreateGroceryItemRequest.mk
           (CreateGroceryItemRequest.name input)
           (Some (Spec.orElse (CreateGroceryItemRequest.quantity input) 1))
           (CreateGroceryItemRequest.store input)
           (CreateGroceryItemRequest.category input)
           (CreateGroceryItemRequest.notes input).
Proof.
  unfold createGroceryItemSchema, parsed. intros H.
  match type of H with
  | match ?l with _ => _ end = _ => destruct l
  end; [|discriminate].
  injection H as <-. reflexivity.
Qed.

Lemma createItem_valid (db : Db.t) (owner : Z) (input : CreateGroceryItemRequest.t) :
  Spec.valid_input input ->
  createItem owner input db
  = (Return (Spec.view (inserted owner input db)), after_insert owner input db).
Proof.
  intros [data Hdata]. pose proof (create_schema_data _ _ Hdata) as ->.
  unfold createItem, bind, lift, validateRequestBody. rewrite Hdata.
  reflexivity.
Qed.

Lemma getItem_after_insert (db : Db.t) (owner now : Z)
    (input : CreateGroceryItemRequest.t) :
  serial db ->
  let db' := Db.at_time now (after_insert owner input db) in
  getItem (Db.grocery_items_id_seq db) owner db'
  = (Return (Spec.view (inserted owner input db)),
     Db.log (SelectItemById (Db.grocery_items_id_seq db) owner) db').
Proof.
  intros [Hseq Hser] db'.
  unfold getItem, bind, lift. rewrite (validate_id _ Hseq).
  unfold GroceryItemRepository.findById, bind, query, Sql.select_item_by_id.
  unfold db' at 1. cbn [Db.grocery_items Db.at_time after_insert Db.log].
  rewrite filter_app, filter_none.
  - cbn [filter app]. unfold Sql.where_id_and_user_id, inserted at 1 2.
    cbn [Row.id Row.user_id]. rewrite !Z.eqb_refl. reflexivity.
  - rewrite Forall_forall in Hser. intros r Hr. apply Hser in Hr.
    unfold Sql.where_id_and_user_id.
    destruct (Z.eqb_spec (Row.id r) (Db.grocery_items_id_seq db)); [lia|].
    reflexivity.
Qed.

End CreateLemmas.

Section Preservation.
Import Invariant.

(** Deleting rows keeps a key column free of duplicates. *)
Lemma NoDup_map_filter {Row Key : Type} (key : Row -> Key) (keep : Row -> bool)
    (rows : list Row) :
  NoDup (map key rows) -> NoDup (map key (filter keep rows)).
Proof.
  intros Hkeys. induction rows as [|row rows IH]; simpl in *; [constructor|].
  inversion Hkeys as [|? ? Hfresh Hrest]; subst.
  destruct (keep row); [|apply IH; exact Hrest].
  simpl. constructor; [|apply IH; exact Hrest].
  intros Hin. apply Hfresh. apply in_map_iff in Hin.
  destruct Hin as (x & Hx & Hin). apply filter_In in Hin.
  rewrite <- Hx. apply in_map. tauto.
Qed.

Lemma wf_init (now : Z) : wf (Db.init now).
Proof.
  unfold wf, primary_key, serial, users_key. simpl.
  repeat split; try constructor; lia.
Qed.

Lemma wf_log (s : Statement) (db : Db.t) : wf db -> wf (Db.log s db).
Proof. destruct db. exact (fun H => H). Qed.

Lemma wf_at_time (now : Z) (db : Db.t) : wf db -> wf (Db.at_time now db).
Proof. destruct db. exact (fun H => H). Qed.

(** [create] keeps the invariant: the new id is the next value of the
    sequence, which no row has. *)
Lemma wf_create (userId : Z) (itemData : CreateGroceryItemRequest.t) (db : Db.t) :
  wf db -> wf (snd (GroceryItemRepository.create userId itemData db)).
Proof.
  intros (Hpk & (Hseq & Hser) & Hu). destruct db as [us items useq seq now log].
  unfold wf, primary_key, serial, users_key in *. simpl in *.
  rewrite Forall_forall in Hser.
  repeat split; try tauto; try lia.
  - rewrite map_app. simpl. apply NoDup_app; [exact Hpk | repeat constructor; simpl; tauto |].
    intros x Hx [<-|[]]. apply in_map_iff in Hx.
    destruct Hx as (r & Hr & Hin). apply Hser in Hin. simpl in Hr. lia.
  - apply Forall_forall. intros r Hr. apply in_app_or in Hr.
    destruct Hr as [Hr|[<-|[]]]; [apply Hser in Hr; lia | simpl; lia].
Qed.

Lemma update_row_id (sets : list Sql.Assignment) (now : Z) (r : Row.t) :
  Row.id (Sql.update_row sets now r) = Row.id r.
Proof.
  unfold Sql.update_row. simpl. revert r.
  induction sets as [|a sets IH]; intros r; simpl; [reflexivity|].
  rewrite IH. destruct a; reflexivity.
Qed.

Lemma wf_update (id userId : Z) (updateData : UpdateGroceryItemRequest.t)
    (db : Db.t) :
  wf db -> wf (snd (GroceryItemRepository.update id userId updateData db)).
Proof.
  intros H. unfold GroceryItemRepository.update.
  destruct (GroceryItemRepository.updateFields updateData) as [|a fields];
    [exact H|].
  set (sets := a :: fields).
  assert (Hids : map Row.id
                   (map (fun r => if Sql.where_id_and_user_id id userId r
                                  then Sql.update_row sets (Db.current_timestamp db) r
                                  else r)
                        (Db.grocery_items db))
                 = map Row.id (Db.grocery_items db)).
  { rewrite map_map. apply map_ext. intros r.
    destruct (Sql.where_id_and_user_id id userId r); [apply update_row_id|reflexivity]. }
  assert (Hwf : wf (snd (Sql.update_grocery_item sets id userId db))).
  { destruct H as (Hpk & (Hseq & Hser) & Hu).
    destruct db as [us items useq seq now log].
    unfold wf, primary_key, serial, users_key in *. simpl in *.
    repeat split; try tauto.
    - rewrite Hids. exact Hpk.
    - apply Forall_forall. intros r Hr. apply in_map_iff in Hr.
      destruct Hr as (r0 & Hr0 & Hin). rewrite Forall_forall in Hser.
      apply Hser in Hin.
      destruct (Sql.where_id_and_user_id id userId r0); subst r;
        [rewrite update_row_id|]; exact Hin. }
  unfold bind, query.
  destruct (Sql.update_grocery_item sets id userId db) as [rows db'].
  simpl in Hwf. apply (wf_log (UpdateItem id userId)) in Hwf.
  destruct rows; exact Hwf.
Qed.

Lemma wf_delete (id userId : Z) (db : Db.t) :
  wf db -> wf (snd (GroceryItemRepository.delete id userId db)).
Proof.
  intros (Hpk & (Hseq & Hser) & Hu). destruct db as [us items useq seq now log].
  unfold wf, primary_key, serial, users_key in *. simpl in *.
  repeat split; try tauto.
  - apply NoDup_map_filter. exact Hpk.
  - apply Forall_forall. intros r Hr. apply filter_In in Hr.
    rewrite Forall_forall in Hser. apply Hser. tauto.
Qed.

End Preservation.

Section StoreLemmas.
Import Validation GroceryItemService.

Lemma assign_store (r : Row.t) (a : Sql.Assignment) :
  Row.store (Sql.assign r a) = Row.store r.
Proof. destruct a; reflexivity. Qed.

Lemma update_row_store (sets : list Sql.Assignment) (now : Z) (r : Row.t) :
  Row.store (Sql.update_row sets now r) = Row.store r.
Proof.
  unfold Sql.update_row. simpl. revert r.
  induction sets as [|a sets IH]; intros r; simpl; [reflexivity|].
  rewrite IH. apply assign_store.
Qed.

(** The UPDATE statement leaves the [store] column of every row as it was. *)
Lemma update_keeps_stores (id userId : Z) (updateData : UpdateGroceryItemRequest.t)
    (db : Db.t) :
  map Row.store
      (Db.grocery_items (snd (GroceryItemRepository.update id userId updateData db)))
  = map Row.store (Db.grocery_items db).
Proof.
  unfold GroceryItemRepository.update.
  destruct (GroceryItemRepository.updateFields updateData) as [|a fields];
    [reflexivity|].
  unfold bind, query, Sql.update_grocery_item.
  match goal with
  | |- context [match ?rows with [] => _ | _ :: _ => _ end] => destruct rows
  end; cbn [snd throw ret Db.log Db.grocery_items Db.with_grocery_items];
    rewrite map_map; apply map_ext; intros x;
    destruct (Sql.where_id_and_user_id id userId x);
    try apply update_row_store; reflexivity.
Qed.

(** A patch with only a [store] of at most 255 characters passes the schema. *)
Lemma store_only_valid (store : string) :
  (String.length store <= 255)%nat -> Spec.valid_patch (Example.storeOnly store).
Proof.
  intros H. unfold Spec.valid_patch, updateGroceryItemSchema, parsed.
  cbn [UpdateGroceryItemRequest.name UpdateGroceryItemRequest.quantity
       UpdateGroceryItemRequest.store UpdateGroceryItemRequest.category
       UpdateGroceryItemRequest.notes UpdateGroceryItemRequest.isPurchased
       Example.storeOnly optional app keys_length key Nat.add Nat.ltb Nat.leb].
  unfold string_max.
  destruct (255 <? String.length store)%nat eqn:E; [|reflexivity].
  apply Nat.ltb_lt in E. lia.
Qed.

End StoreLemmas.

(* ===================================================================== *)
(** * Lemmas on the users table, login and the middleware *)
(* ===================================================================== *)

Section KeyLemmas.
Context {A K : Type} (f : A -> K) (eqb : K -> K -> bool).
Hypothesis eqb_eq : forall x y, eqb x y = true <-> x = y.

(** A SELECT on a unique column returns exactly the row that has the key. *)
Lemma filter_unique (l : list A) (a : A) :
  NoDup (map f l) -> In a l -> filter (fun x => eqb (f x) (f a)) l = [a].
Proof.
  induction l as [|x l IH]; simpl; intros Hnd Hin; [contradiction|].
  inversion Hnd as [|? ? Hnotin Hnd']; subst.
  destruct Hin as [->|Hin].
  - rewrite (proj2 (eqb_eq _ _) eq_refl). f_equal.
    apply filter_none. intros y Hy.
    destruct (eqb (f y) (f a)) eqn:E; [|reflexivity].
    apply eqb_eq in E. exfalso. apply Hnotin. rewrite <- E. apply in_map. exact Hy.
  - destruct (eqb (f x) (f a)) eqn:E.
    + apply eqb_eq in E. exfalso. apply Hnotin. rewrite E. apply in_map. exact Hin.
    + apply IH; assumption.
Qed.

End KeyLemmas.

Section LoginLemmas.
Context {pkg : Packages}.
Import Validation AuthService Invariant.

Lemma validate_login (email password : string) :
  zod_email email = true ->
  password <> EmptyString ->
  validateRequestBody loginSchema (LoginRequest.mk email password)
  = Return (LoginRequest.mk email password).
Proof.
  intros Hemail Hpw. unfold validateRequestBody, loginSchema, parsed, string_min.
  cbn [LoginRequest.email LoginRequest.password]. rewrite Hemail.
  destruct password as [|c password]; [congruence|]. reflexivity.
Qed.

(** No user has the id 0, which [login] looks up for an unknown e-mail. *)
Lemma no_user_zero (db : Db.t) :
  users_key db -> filter (fun u => Z.eqb (UserRow.id u) 0) (Db.users db) = [].
Proof.
  intros (_ & _ & Hpos). apply filter_none. intros u Hu.
  rewrite Forall_forall in Hpos. apply Hpos in Hu. apply Z.eqb_neq. lia.
Qed.

Lemma login_unknown_email (db : Db.t) (email password : string) :
  users_key db ->
  zod_email email = true ->
  password <> EmptyString ->
  (forall u, In u (Db.users db) -> UserRow.email u <> email) ->
  login (LoginRequest.mk email password) db
  = (Throw (mkException AuthenticationError "Invalid email or password"),
     Db.log (SelectUserByIdWithPassword 0) (Db.log (SelectUserByEmail email) db)).
Proof.
  intros Hkey Hemail Hpw Hunknown.
  unfold login, bind, lift. rewrite (validate_login _ _ Hemail Hpw).
  cbn [LoginRequest.email LoginRequest.password].
  unfold UserRepository.findByEmail, bind, query, Sql.select_user_by_email.
  rewrite filter_none.
  - unfold ret, UserRepository.findByIdWithPassword, bind, query,
      Sql.select_user_by_id.
    cbn [Db.users Db.log]. rewrite (no_user_zero _ Hkey). reflexivity.
  - intros u Hu. apply String.eqb_neq. apply Hunknown. exact Hu.
Qed.

Lemma login_wrong_password (db : Db.t) (known : UserRow.t) (password : string) :
  users_key db ->
  In known (Db.users db) ->
  zod_email (UserRow.email known) = true ->
  password <> EmptyString ->
  bcrypt_compare password (UserRow.password_hash known) = false ->
  login (LoginRequest.mk (UserRow.email known) password) db
  = (Throw (mkException AuthenticationError "Invalid email or password"),
     Db.log (SelectUserByIdWithPassword (UserRow.id known))
       (Db.log (SelectUserByEmail (UserRow.email known)) db)).
Proof.
  intros (Hids & Hemails & Hpos) Hin Hemail Hpw Hwrong.
  unfold login, bind, lift. rewrite (validate_login _ _ Hemail Hpw).
  cbn [LoginRequest.email LoginRequest.password].
  unfold UserRepository.findByEmail, bind, query, Sql.select_user_by_email.
  rewrite (filter_unique UserRow.email String.eqb String.eqb_eq _ _ Hemails Hin).
  unfold ret, UserRepository.findByIdWithPassword, bind, query,
    Sql.select_user_by_id.
  cbn [Db.users Db.log UserRepository.toUser User.id].
  rewrite (filter_unique UserRow.id Z.eqb Z.eqb_eq _ _ Hids Hin).
  unfold ret. cbn [UserRepository.toUserWithPassword UserWithPassword.passwordHash].
  rewrite Hwrong. reflexivity.
Qed.

End LoginLemmas.

Section MiddlewareLemmas.
Context {pkg : Packages}.
Import Middleware.

(** [authenticate] only throws [AuthenticationError]s. *)
Lemma authenticate_throws {B} (request : NextRequest B) (db db' : Db.t)
    (e : Exception) :
  authenticate request db = (Throw e, db') -> cls e = AuthenticationError.
Proof.
  unfold authenticate, try_catch.
  match goal with
  | |- (match ?m with _ => _ end) = _ -> _ => destruct m as [[user|e0] db0]
  end; [discriminate|].
  unfold instanceof. destruct (cls e0) eqn:E; cbn [ErrorClass_eqb];
    unfold throw, rethrow; intros H; injection H as <- _;
    first [exact E | reflexivity].
Qed.

(** When [authenticate] returns, the token was extracted and verified and
    its subject is a row of [users]; the only statement sent is the lookup
    of that row. *)
Lemma authenticate_returns {B} (request : NextRequest B) (db db' : Db.t)
    (user : User.t) :
  authenticate request db = (Return user, db') ->
  exists token payload row rest,
    Jwt.extractTokenFromHeader (authorization request) = Return token
    /\ Jwt.verifyToken token = Return payload
    /\ fst (Sql.select_user_by_id (JWTPayload.userId payload) db) = row :: rest
    /\ user = UserRepository.toUser row
    /\ db' = Db.log (SelectUserById (JWTPayload.userId payload)) db.
Proof.
  unfold authenticate, try_catch, bind, lift.
  destruct (Jwt.extractTokenFromHeader (authorization request))
    as [token|e1] eqn:Htoken.
  2:{ destruct (instanceof e1 AuthenticationError); discriminate. }
  destruct (Jwt.verifyToken token) as [payload|e2] eqn:Hpayload.
  2:{ destruct (instanceof e2 AuthenticationError); discriminate. }
  unfold AuthService.validateUser, UserRepository.findById, bind, query.
  destruct (Sql.select_user_by_id (JWTPayload.userId payload) db)
    as [rows db0] eqn:E.
  unfold Sql.select_user_by_id in E. injection E as Erows <-.
  destruct rows as [|row rest]; cbn.
  - discriminate.
  - intros H. injection H as <- <-.
    exists token, payload, row, rest. repeat split; assumption || reflexivity.
Qed.

(** A token whose subject is not in [users]: [authenticate] throws. *)
Lemma authenticate_stale_subject {B} (request : NextRequest B) (db : Db.t)
    (token : string) (payload : JWTPayload.t) :
  Jwt.extractTokenFromHeader (authorization request) = Return token ->
  Jwt.verifyToken token = Return payload ->
  fst (Sql.select_user_by_id (JWTPayload.userId payload) db) = [] ->
  authenticate request db
  = (Throw (mkException AuthenticationError "User not found"),
     Db.log (SelectUserById (JWTPayload.userId payload)) db).
Proof.
  intros Htoken Hpayload Hnone.
  unfold authenticate, try_catch, bind, lift. rewrite Htoken, Hpayload.
  unfold AuthService.validateUser, UserRepository.findById, bind, query.
  unfold Sql.select_user_by_id in *. cbn [fst] in Hnone. rewrite Hnone.
  reflexivity.
Qed.

(** [withAuth]: the handler is applied to the user [authenticate] returns,
    in the state it leaves; when [authenticate] throws, the answer is 401
    with the message of the error and does not depend on the handler. *)
Lemma withAuth_cases {B P}
    (handler : NextRequest B -> P -> User.t -> Async Response)
    (request : NextRequest B) (context : P) (db : Db.t) :
  match authenticate request db with
  | (Return user, db') =>
      withAuth handler request context db
      = try_catch (handler request context user) onError db'
  | (Throw e, db') =>
      withAuth handler request context db
      = (Return (mkResponse 401 (ErrorBody (message e))), db')
  end.
Proof.
  destruct (authenticate request db) as [[user|e] db'] eqn:E.
  - unfold withAuth, try_catch, bind. rewrite E. reflexivity.
  - pose proof (authenticate_throws _ _ _ _ E) as Hcls.
    unfold withAuth, try_catch, bind. rewrite E.
    unfold onError, instanceof. rewrite Hcls. reflexivity.
Qed.

End MiddlewareLemmas.

Section RoundTripLemmas.
Import GroceryItemService Invariant.

(** Round trip on what [create] stores: for a valid input, [get] on the id
    of the created item, by its owner and at any later time, returns the
    view that [create] returned. Its name is the input's, its quantity the
    input's or 1, its category and notes the input's (an empty string is
    stored as NULL), it is not purchased, and it has no store. *)
Lemma create_then_get (db : Db.t) (owner now : Z)
    (input : CreateGroceryItemRequest.t) :
  wf db ->
  Spec.valid_input input ->
  exists created db',
    createItem owner input db = (Return created, db')
    /\ wf db'
    /\ fst (getItem (GroceryItemResponse.id created) owner (Db.at_time now db'))
       = Return created
    /\ GroceryItemResponse.name created = CreateGroceryItemRequest.name input
    /\ GroceryItemResponse.quantity created
       = Spec.orElse (CreateGroceryItemRequest.quantity input) 1
    /\ GroceryItemResponse.category created
       = GroceryItemRepository.or_null (CreateGroceryItemRequest.category input)
    /\ GroceryItemResponse.notes created
       = GroceryItemRepository.or_null (CreateGroceryItemRequest.notes input)
    /\ GroceryItemResponse.isPurchased created = false
    /\ GroceryItemResponse.store created = None.
Proof.
  intros Hwf Hvalid.
  exists (Spec.view (inserted owner input db)), (after_insert owner input db).
  split; [apply createItem_valid; exact Hvalid|].
  split.
  { pose proof (wf_create owner
                  (CreateGroceryItemRequest.mk
                     (CreateGroceryItemRequest.name input)
                     (Some (Spec.orElse (CreateGroceryItemRequest.quantity input) 1))
                     (CreateGroceryItemRequest.store input)
                     (CreateGroceryItemRequest.category input)
                     (CreateGroceryItemRequest.notes input)) db Hwf) as H.
    exact H. }
  split.
  { destruct Hwf as (_ & Hser & _).
    pose proof (getItem_after_insert db owner now input Hser) as H.
    cbv zeta in H. cbn [Spec.view GroceryItemResponse.id toGroceryItemResponse
                        GroceryItemRepository.mapDbRowToGroceryItem GroceryItem.id
                        Sql.returning Sql.id inserted Row.id].
    rewrite H. reflexivity. }
  repeat split.
Qed.

End RoundTripLemmas.

(* ===================================================================== *)
(** * The item service: ownership, filters, round trip, partial update *)
(* ===================================================================== *)

(** C1 (ownership isolation). Bob (user 2) updates Alice's item with the
    valid, non-empty patch [{store: "Aldi"}]: the service throws
    [DatabaseError("No fields to update")], not [NotFoundError]. (For [get],
    [delete] and every patch that reaches the SET clause the answer is
    [NotFoundError]: lemma [ownership_isolation].) *)
Theorem C1_store_only_patch_of_non_owner :
  In Example.milkRow (Db.grocery_items Example.aliceHasMilk)
  /\ Row.user_id Example.milkRow = 1
  /\ Spec.valid_patch (Example.storeOnly "Aldi")
  /\ Validation.keys_length (Example.storeOnly "Aldi") = 1%nat
  /\ GroceryItemService.updateItem (Row.id Example.milkRow) 2
       (Example.storeOnly "Aldi") Example.aliceHasMilk
     = (Throw (mkException DatabaseError "No fields to update"),
        Example.aliceHasMilk)
  /\ GroceryItemService.getItem (Row.id Example.milkRow) 2 Example.aliceHasMilk
     = (Throw (mkException NotFoundError "Grocery item not found"),
        Db.log (SelectItemById 1 2) Example.aliceHasMilk).
Proof.
  repeat split.
  left. reflexivity.
Qed.

(** C2 (filter conjunction). With the three items of the example stored for
    the caller, [list(owner, {store: "A", category: "X"})] returns the items
    of category X of both stores, newest first: the [store] filter is not
    applied (and the GET handler does not read it from the query string). *)
Theorem C2_store_filter_not_applied :
  map Row.store [Example.rowAX; Example.rowAY; Example.rowBX]
  = [Some "A"; Some "A"; Some "B"]
  /\ map Row.category [Example.rowAX; Example.rowAY; Example.rowBX]
     = [Some "X"; Some "Y"; Some "X"]
  /\ GroceryItemService.getUserItems 1 (Some Example.storeAcategoryX)
       Example.threeItems
     = (Return [Spec.view Example.rowBX; Spec.view Example.rowAX],
        Db.log (SelectItemsByUser 1) Example.threeItems)
  /\ GroceryItemRepository.conditions (Some Example.storeAcategoryX)
     = [Sql.category_eq "X"]
  /\ Routes.Items.parseFilters [("store", "A"); ("category", "X")]
     = GroceryItemFilters.mk None (Some "X") None None.
Proof. repeat split. Qed.

(** C3 (round trip). Alice creates [{name: "Milk", quantity: 2, store:
    "Walmart", category: "Dairy", notes: "2% milk"}] and gets it back: the
    view has the name, quantity, category and notes of the input, but no
    store; the stored row has a NULL store. *)
Theorem C3_store_lost_in_round_trip :
  let created := GroceryItemService.createItem 1 Example.milk (Fakes.twoUsers 100) in
  let got := GroceryItemService.getItem 1 1 (snd created) in
  Spec.valid_input Example.milk
  /\ CreateGroceryItemRequest.store Example.milk = Some "Walmart"
  /\ fst created = Return (Spec.view Example.milkRow)
  /\ fst got = Return (Spec.view Example.milkRow)
  /\ GroceryItemResponse.store (Spec.view Example.milkRow) = None
  /\ map Row.store (Db.grocery_items (snd got)) = [None].
Proof.
  repeat split. eexists. reflexivity.
Qed.

(** C4 (empty patch). [update(id, owner, {})] fails before any statement is
    sent, but with a plain [Error], not a [ValidationError]: the PUT handler
    answers 500 "Internal server error", not 400. *)
Theorem C4_empty_patch_is_a_plain_error :
  (forall (id owner : Z) (db : Db.t),
      GroceryItemService.updateItem id owner UpdateGroceryItemRequest.empty db
      = (Throw (mkException JsError
                  (if 0 <? id
                   then "Validation failed: At least one field must be provided for update"
                   else "Validation failed: ID must be a positive integer")),
         db))
  /\ (forall (auth : option string) (params : list (string * string))
             (user : User.t) (db : Db.t),
         Routes.Item.putHandler
           (mkRequest auth params (Some UpdateGroceryItemRequest.empty))
           (Routes.Item.mkParams "1") user db
         = (Return (mkResponse 500 (ErrorBody "Internal server error")), db)).
Proof.
  split.
  - intros id owner db.
    unfold GroceryItemService.updateItem, bind, lift,
      Validation.validateRequestBody, Validation.idSchema,
      Validation.parsed, Validation.number_positive.
    rewrite Z.leb_antisym. destruct (0 <? id); reflexivity.
  - intros. reflexivity.
Qed.

(** C5 (partial update). Alice's item is [{name: "Milk", quantity: 2}] with
    no store. With the patch [{quantity: 3}] it becomes [{name: "Milk",
    quantity: 3}]; with the patch [{quantity: 3, store: "Aldi"}] the
    quantity becomes 3 but the store, present in the patch, is not
    modified. *)
Theorem C5_store_in_patch_not_modified :
  let db := Db.at_time 200 Example.aliceHasMilk in
  let patch := Example.quantityAndStore 3 "Aldi" in
  let updated := GroceryItemService.updateItem 1 1 patch db in
  Spec.valid_patch patch
  /\ Db.grocery_items db = [Example.milkRow]
  /\ fst (GroceryItemService.updateItem 1 1 (Example.quantityOnly 3) db)
     = Return (Spec.view (Spec.merge (Example.quantityOnly 3) 200 Example.milkRow))
  /\ fst updated
     = Return (Spec.view (Spec.merge_without_store patch 200 Example.milkRow))
  /\ Db.grocery_items (snd updated)
     = [Spec.merge_without_store patch 200 Example.milkRow]
  /\ Row.store (Spec.merge_without_store patch 200 Example.milkRow) = None
  /\ Row.store (Spec.merge patch 200 Example.milkRow) = Some "Aldi".
Proof. repeat split. Qed.

(* ===================================================================== *)
(** * Login, token verification and the authentication gateway *)
(* ===================================================================== *)

(** C6 (login failures), as the code has it. For a login input that passes
    the shape validation (an e-mail the schema accepts, a non-empty
    password): an e-mail that matches no stored user and the e-mail of a
    stored user with a password that does not verify against its hash fail
    with the same [AuthenticationError("Invalid email or password")], and
    the login route answers both with the same 401 response. *)
Theorem C6_login_failures_indistinguishable
    (pkg : Packages) (db : Db.t) (unknownEmail anyPw : string)
    (known : UserRow.t) (wrongPw : string) :
  Invariant.users_key db ->
  zod_email unknownEmail = true ->
  anyPw <> EmptyString ->
  (forall u, In u (Db.users db) -> UserRow.email u <> unknownEmail) ->
  In known (Db.users db) ->
  zod_email (UserRow.email known) = true ->
  wrongPw <> EmptyString ->
  bcrypt_compare wrongPw (UserRow.password_hash known) = false ->
  let unknown := LoginRequest.mk unknownEmail anyPw in
  let wrong := LoginRequest.mk (UserRow.email known) wrongPw in
  let failure := mkException AuthenticationError "Invalid email or password" in
  fst (AuthService.login unknown db) = Throw failure
  /\ fst (AuthService.login wrong db) = Throw failure
  /\ fst (Routes.Login.POST (mkRequest None [] (Some unknown)) db)
     = Return (mkResponse 401 (ErrorBody "Invalid email or password"))
  /\ fst (Routes.Login.POST (mkRequest None [] (Some wrong)) db)
     = Return (mkResponse 401 (ErrorBody "Invalid email or password")).
Proof.
  intros Hkey Hemail Hpw Hunknown Hin Hemail' Hpw' Hwrong unknown wrong failure.
  pose proof (login_unknown_email db _ _ Hkey Hemail Hpw Hunknown) as H1.
  pose proof (login_wrong_password db _ _ Hkey Hin Hemail' Hpw' Hwrong) as H2.
  fold unknown in H1. fold wrong in H2.
  repeat split.
  - rewrite H1. reflexivity.
  - rewrite H2. reflexivity.
  - unfold Routes.Login.POST, try_catch, bind, Routes.requestJson.
    cbn [json ret]. rewrite H1. reflexivity.
  - unfold Routes.Login.POST, try_catch, bind, Routes.requestJson.
    cbn [json ret]. rewrite H2. reflexivity.
Qed.

Lemma twoUsers_key (now : Z) : Invariant.users_key (Fakes.twoUsers now).
Proof.
  unfold Invariant.users_key. simpl. repeat split.
  - repeat constructor; simpl; intuition discriminate.
  - repeat constructor; simpl; intuition discriminate.
  - repeat constructor.
Qed.

(** C6 with the two registered users: nobody@example.com is unknown, and
    "wrong" is not Alice's password. *)
Lemma C6_login_failures_witness :
  fst (AuthService.login (pkg := Fakes.packages)
         (LoginRequest.mk "nobody@example.com" "guess") (Fakes.twoUsers 0))
  = Throw (mkException AuthenticationError "Invalid email or password")
  /\ fst (AuthService.login (pkg := Fakes.packages)
            (LoginRequest.mk "alice@example.com" "wrong") (Fakes.twoUsers 0))
     = Throw (mkException AuthenticationError "Invalid email or password").
Proof.
  pose proof (C6_login_failures_indistinguishable Fakes.packages
                (Fakes.twoUsers 0) "nobody@example.com" "guess"
                Fakes.alice "wrong") as H.
  cbv zeta in H.
  destruct H as (H1 & H2 & _).
  - apply twoUsers_key.
  - reflexivity.
  - discriminate.
  - simpl. intros u [<-|[<-|[]]]; discriminate.
  - simpl. tauto.
  - reflexivity.
  - discriminate.
  - reflexivity.
  - split; [exact H1 | exact H2].
Defined.

(** C6 as stated fails for the empty password: the login of an unknown
    e-mail with the password "" throws a plain [Error] (the route answers
    500), while a wrong password for a known e-mail gives
    [AuthenticationError] (401). *)
Lemma C6_empty_password_counterexample :
  fst (Sql.select_user_by_email "nobody@example.com" (Fakes.twoUsers 0)) = []
  /\ AuthService.login (pkg := Fakes.packages)
       (LoginRequest.mk "nobody@example.com" "") (Fakes.twoUsers 0)
     = (Throw (mkException JsError "Validation failed: Password is required"),
        Fakes.twoUsers 0)
  /\ fst (Routes.Login.POST (pkg := Fakes.packages)
            (mkRequest None [] (Some (LoginRequest.mk "nobody@example.com" "")))
            (Fakes.twoUsers 0))
     = Return (mkResponse 500 (ErrorBody "Internal server error"))
  /\ fst (Routes.Login.POST (pkg := Fakes.packages)
            (mkRequest None [] (Some (LoginRequest.mk "alice@example.com" "wrong")))
            (Fakes.twoUsers 0))
     = Return (mkResponse 401 (ErrorBody "Invalid email or password")).
Proof. repeat split. Qed.

(** C7 (authentication gateway). For every handler wrapped by [withAuth]
    and every request:
    - when [authenticate] returns a user, the bearer token was extracted
      and verified, the user is the row of [users] with the id of the
      token's subject, and the handler is run on that user after the
      lookup;
    - when [authenticate] throws, the error is an [AuthenticationError],
      the answer is 401 with its message, and it is the same for every
      handler: the wrapped operation is not run;
    - when the subject of a verified token is not in [users],
      [authenticate] throws [AuthenticationError("User not found")]. *)
Theorem C7_authentication_gateway
    (pkg : Packages) (B P : Type)
    (handler : NextRequest B -> P -> User.t -> Async Response)
    (request : NextRequest B) (context : P) (db : Db.t) :
  (forall user db',
      Middleware.authenticate request db = (Return user, db') ->
      (exists token payload row rest,
          Jwt.extractTokenFromHeader (authorization request) = Return token
          /\ Jwt.verifyToken token = Return payload
          /\ fst (Sql.select_user_by_id (JWTPayload.userId payload) db) = row :: rest
          /\ user = UserRepository.toUser row
          /\ db' = Db.log (SelectUserById (JWTPayload.userId payload)) db)
      /\ Middleware.withAuth handler request context db
         = try_catch (handler request context user) Middleware.onError db')
  /\ (forall e db',
         Middleware.authenticate request db = (Throw e, db') ->
         cls e = AuthenticationError
         /\ statusCode (cls e) = 401
         /\ forall handler' : NextRequest B -> P -> User.t -> Async Response,
              Middleware.withAuth handler' request context db
              = (Return (mkResponse 401 (ErrorBody (message e))), db'))
  /\ (forall token payload,
         Jwt.extractTokenFromHeader (authorization request) = Return token ->
         Jwt.verifyToken token = Return payload ->
         fst (Sql.select_user_by_id (JWTPayload.userId payload) db) = [] ->
         Middleware.authenticate request db
         = (Throw (mkException AuthenticationError "User not found"),
            Db.log (SelectUserById (JWTPayload.userId payload)) db)).
Proof.
  split; [|split].
  - intros user db' H. split; [exact (authenticate_returns _ _ _ _ H)|].
    pose proof (withAuth_cases handler request context db) as Hw.
    rewrite H in Hw. exact Hw.
  - intros e db' H. pose proof (authenticate_throws _ _ _ _ H) as Hcls.
    split; [exact Hcls|]. split; [rewrite Hcls; reflexivity|].
    intros handler'.
    pose proof (withAuth_cases handler' request context db) as Hw.
    rewrite H in Hw. exact Hw.
  - intros token payload. apply authenticate_stale_subject.
Qed.

(** C7 at a verified token whose subject (user 99) is not in [users]: the
    GET handler of an item is not run and the answer is 401. *)
Lemma C7_deleted_account_witness :
  Routes.Item.GET (pkg := Fakes.packages)
    (mkRequest (B := unit) (Some "Bearer ghost.access") [] None)
    (Routes.Item.mkParams "1") (Fakes.twoUsers 0)
  = (Return (mkResponse 401 (ErrorBody "User not found")),
     Db.log (SelectUserById 99) (Fakes.twoUsers 0)).
Proof.
  pose proof (C7_authentication_gateway Fakes.packages unit Routes.Item.Params
                Routes.Item.getHandler
                (mkRequest (Some "Bearer ghost.access") [] None)
                (Routes.Item.mkParams "1") (Fakes.twoUsers 0))
    as (_ & Hthrows & Hstale).
  specialize (Hstale "ghost.access" (JWTPayload.mk 99 "ghost@example.com")
                eq_refl eq_refl eq_refl).
  destruct (Hthrows _ _ Hstale) as (_ & _ & Hany).
  exact (Hany Routes.Item.getHandler).
Defined.

(** What [verifyToken] makes of each outcome of the token library. *)
Lemma verifyToken_of_library (pkg : Packages) (token : string) :
  (forall payload,
      Jwt.verifyToken token = Return payload
      <-> jwt_verify token jwtSecret = Verified payload)
  /\ (forall e, Jwt.verifyToken token = Throw e ->
                cls e = AuthenticationError /\ statusCode (cls e) = 401)
  /\ (Jwt.verifyToken token
      = Throw (mkException AuthenticationError "Token has expired")
      <-> jwt_verify token jwtSecret = ThrowsTokenExpiredError)
  /\ (Jwt.verifyToken token
      = Throw (mkException AuthenticationError "Invalid token")
      <-> jwt_verify token jwtSecret = ThrowsJsonWebTokenError)
  /\ (Jwt.verifyToken token
      = Throw (mkException AuthenticationError "Token verification failed")
      <-> jwt_verify token jwtSecret = ThrowsOther).
Proof.
  unfold Jwt.verifyToken.
  destruct (jwt_verify token jwtSecret) as [p| | |];
    repeat split; intros; try discriminate; try congruence;
    match goal with
    | H : Throw _ = Throw _ |- _ => injection H as <-; reflexivity
    end.
Qed.

(** C8 (token verification), as the code has it. Whatever the token
    library, every failure of [verifyToken] is an [AuthenticationError]
    (401), and an exception of the library that is neither a
    [TokenExpiredError] nor a [JsonWebTokenError] gives "Token verification
    failed". With the token library of the specification, at the time
    [now]: for a well-formed token signed with the server secret,
    [verifyToken] fails with "Token has expired" exactly when [now] is past
    the [expiresAt] of the token, and returns its claims exactly when it is
    not; for a token that is malformed or signed with a different secret
    it fails with "Invalid token"; and there is no other failure. *)
Theorem C8_verifyToken_outcomes (pkg : Packages)
    (decode : string -> option SpecJwt.Token) (now : Z) (token : string) :
  (forall e, Jwt.verifyToken token = Throw e ->
             cls e = AuthenticationError /\ statusCode (cls e) = 401)
  /\ (jwt_verify token jwtSecret = ThrowsOther ->
      Jwt.verifyToken token
      = Throw (mkException AuthenticationError "Token verification failed"))
  /\ (SpecJwt.conforms decode now pkg ->
      (forall t, SpecJwt.authentic decode jwtSecret token t ->
                 (Jwt.verifyToken token
                  = Throw (mkException AuthenticationError "Token has expired")
                  <-> SpecJwt.expiresAt t < now)
                 /\ (Jwt.verifyToken token = Return (SpecJwt.claims t)
                     <-> now <= SpecJwt.expiresAt t))
      /\ (SpecJwt.malformed decode token \/ SpecJwt.forged decode jwtSecret token ->
          Jwt.verifyToken token
          = Throw (mkException AuthenticationError "Invalid token"))
      /\ (forall e, Jwt.verifyToken token = Throw e ->
                    e = mkException AuthenticationError "Token has expired"
                    \/ e = mkException AuthenticationError "Invalid token")).
Proof.
  destruct (verifyToken_of_library pkg token) as (_ & Hkind & _ & _ & Hother).
  split; [exact Hkind|]. split; [apply Hother|].
  intros Hlib. unfold Jwt.verifyToken. rewrite (Hlib token).
  unfold SpecJwt.verify.
  split; [|split].
  - intros t [Hdecode Hsigned]. rewrite Hdecode, Hsigned, String.eqb_refl.
    cbn [negb]. destruct (Z.ltb_spec (SpecJwt.expiresAt t) now) as [Hlt|Hle].
    + split; split; intros H; try reflexivity; try exact Hlt;
        [discriminate | lia].
    + split; split; intros H; try reflexivity; try exact Hle;
        [discriminate | lia].
  - intros [Hmal | (t & Hdecode & Hsigned)].
    + unfold SpecJwt.malformed in Hmal. rewrite Hmal. reflexivity.
    + rewrite Hdecode. apply String.eqb_neq in Hsigned. rewrite Hsigned.
      reflexivity.
  - intros e. destruct (decode token) as [t|].
    + destruct (negb _).
      * intros H. injection H as <-. right. reflexivity.
      * destruct (_ <? _); intros H; [|discriminate].
        injection H as <-. left. reflexivity.
    + intros H. injection H as <-. right. reflexivity.
Qed.

(** C8 at the time 100: the token of alice that expired at 50 fails with
    "Token has expired", the one that expires at 86400 is verified, and
    the expired token signed with another secret fails with "Invalid
    token". *)
Lemma C8_verifyToken_witness :
  Jwt.verifyToken (pkg := SpecJwt.packages 100) "alice.expired"
  = Throw (mkException AuthenticationError "Token has expired")
  /\ Jwt.verifyToken (pkg := SpecJwt.packages 100) "alice.access"
     = Return (JWTPayload.mk 1 "alice@example.com")
  /\ Jwt.verifyToken (pkg := SpecJwt.packages 100) "mallory.expired"
     = Throw (mkException AuthenticationError "Invalid token").
Proof.
  split; [|split].
  - destruct (C8_verifyToken_outcomes (SpecJwt.packages 100) SpecJwt.wire 100
                "alice.expired") as (_ & _ & H).
    destruct (H (fun token => eq_refl)) as (Hauthentic & _ & _).
    apply (Hauthentic
             (SpecJwt.mkToken (JWTPayload.mk 1 "alice@example.com") 0 50
                Fakes.secret)).
    + split; reflexivity.
    + simpl. lia.
  - destruct (C8_verifyToken_outcomes (SpecJwt.packages 100) SpecJwt.wire 100
                "alice.access") as (_ & _ & H).
    destruct (H (fun token => eq_refl)) as (Hauthentic & _ & _).
    apply (Hauthentic
             (SpecJwt.mkToken (JWTPayload.mk 1 "alice@example.com") 0 86400
                Fakes.secret)).
    + split; reflexivity.
    + simpl. lia.
  - destruct (C8_verifyToken_outcomes (SpecJwt.packages 100) SpecJwt.wire 100
                "mallory.expired") as (_ & _ & H).
    destruct (H (fun token => eq_refl)) as (_ & Hinvalid & _).
    apply Hinvalid. right.
    exists (SpecJwt.mkToken (JWTPayload.mk 1 "alice@example.com") 0 50
              "another-secret").
    split; [reflexivity | discriminate].
Defined.

(** C8 as stated fails: an expired token and a token with a bad signature
    are both rejected with the error kind [AuthenticationError] (they
    differ by their message only), and there is a third failure, "Token
    verification failed". And with the token library of the specification,
    at the time 100, a token that expired at the time 50 and was signed
    with another secret fails with "Invalid token", not with "Token has
    expired". *)
Lemma C8_same_kind_counterexample :
  (exists expired invalid other,
      Jwt.verifyToken (pkg := Fakes.packages) "alice.expired" = Throw expired
      /\ Jwt.verifyToken (pkg := Fakes.packages) "alice.forged" = Throw invalid
      /\ Jwt.verifyToken (pkg := Fakes.packages) "not.a.string" = Throw other
      /\ cls expired = cls invalid
      /\ message expired <> message invalid
      /\ message other <> message expired
      /\ message other <> message invalid)
  /\ (exists t,
         SpecJwt.wire "mallory.expired" = Some t
         /\ SpecJwt.expiresAt t < 100
         /\ SpecJwt.signedWith t <> jwtSecret (Packages := SpecJwt.packages 100)
         /\ Jwt.verifyToken (pkg := SpecJwt.packages 100) "mallory.expired"
            = Throw (mkException AuthenticationError "Invalid token")).
Proof.
  split.
  - do 3 eexists. repeat split; discriminate.
  - eexists. split; [reflexivity|]. split; [simpl; lia|].
    split; [discriminate | reflexivity].
Qed.

(** [parseInt] skips the white space before the number, the no-break
    space included, and stops at the first character that is no digit. *)
Lemma parseInt_skips_white_space :
  Js.parseInt (String (ascii_of_nat 160) " 7") = Some 7
  /\ Js.parseInt (String (ascii_of_nat 9) "-12abc") = Some (-12)
  /\ Js.parseInt (String (ascii_of_nat 160) "x") = None.
Proof. repeat split. Qed.

(** C9 (invalid path id), as the code has it. For GET, PUT and DELETE on
    /api/grocery-items/{id} with an id on which [parseInt] gives NaN: a
    request that passes authentication is answered 400 "Invalid item ID",
    and the only statement sent is the lookup of the user by the
    middleware (no statement on [grocery_items]); a request that fails
    authentication is answered 401. *)
Theorem C9_invalid_id_after_authentication
    (pkg : Packages) (request : NextRequest UpdateGroceryItemRequest.t)
    (params : Routes.Item.Params) (db : Db.t) :
  Js.parseInt (Routes.Item.id params) = None ->
  match Middleware.authenticate request db with
  | (Return user, db') =>
      (exists userId, db' = Db.log (SelectUserById userId) db)
      /\ Routes.Item.GET request params db
         = (Return (mkResponse 400 (ErrorBody "Invalid item ID")), db')
      /\ Routes.Item.PUT request params db
         = (Return (mkResponse 400 (ErrorBody "Invalid item ID")), db')
      /\ Routes.Item.DELETE request params db
         = (Return (mkResponse 400 (ErrorBody "Invalid item ID")), db')
  | (Throw e, db') =>
      Routes.Item.GET request params db
      = (Return (mkResponse 401 (ErrorBody (message e))), db')
      /\ Routes.Item.PUT request params db
         = (Return (mkResponse 401 (ErrorBody (message e))), db')
      /\ Routes.Item.DELETE request params db
         = (Return (mkResponse 401 (ErrorBody (message e))), db')
  end.
Proof.
  intros Hnan.
  pose proof (withAuth_cases Routes.Item.getHandler request params db) as Hget.
  pose proof (withAuth_cases Routes.Item.putHandler request params db) as Hput.
  pose proof (withAuth_cases Routes.Item.deleteHandler request params db) as Hdel.
  destruct (Middleware.authenticate request db) as [[user|e] db'] eqn:E.
  - split.
    + destruct (authenticate_returns _ _ _ _ E)
        as (token & payload & row & rest & _ & _ & _ & _ & ->).
      eexists. reflexivity.
    + unfold Routes.Item.GET, Routes.Item.PUT, Routes.Item.DELETE.
      rewrite Hget, Hput, Hdel.
      unfold Routes.Item.getHandler, Routes.Item.putHandler,
        Routes.Item.deleteHandler, try_catch.
      rewrite Hnan. repeat split.
  - unfold Routes.Item.GET, Routes.Item.PUT, Routes.Item.DELETE.
    rewrite Hget, Hput, Hdel. repeat split.
Qed.

(** C9 at the id "abc" and Alice's token. *)
Lemma C9_invalid_id_witness :
  Routes.Item.GET (pkg := Fakes.packages)
    (mkRequest (B := UpdateGroceryItemRequest.t) (Some "Bearer alice.access") [] None)
    (Routes.Item.mkParams "abc") (Fakes.twoUsers 0)
  = (Return (mkResponse 400 (ErrorBody "Invalid item ID")),
     Db.log (SelectUserById 1) (Fakes.twoUsers 0)).
Proof.
  pose proof (C9_invalid_id_after_authentication Fakes.packages
                (mkRequest (Some "Bearer alice.access") [] None)
                (Routes.Item.mkParams "abc") (Fakes.twoUsers 0) eq_refl) as H.
  exact (proj1 (proj2 H)).
Defined.

(** C9 as stated fails for a request without credentials: with the id
    "abc", on which [parseInt] gives NaN, the answer is 401, not 400. (And
    an id such as "12abc" is read as 12 by [parseInt]: with Alice's token
    the item 12 is looked up, and the answer is 404.) *)
Lemma C9_unauthenticated_counterexample :
  Js.parseInt "abc" = None
  /\ Routes.Item.GET (pkg := Fakes.packages)
       (mkRequest (B := unit) None [] None)
       (Routes.Item.mkParams "abc") (Fakes.twoUsers 0)
     = (Return (mkResponse 401 (ErrorBody "Authorization header missing")),
        Fakes.twoUsers 0)
  /\ Routes.Item.DELETE (pkg := Fakes.packages)
       (mkRequest (B := unit) (Some "Bearer alice.expired") [] None)
       (Routes.Item.mkParams "abc") (Fakes.twoUsers 0)
     = (Return (mkResponse 401 (ErrorBody "Token has expired")),
        Fakes.twoUsers 0)
  /\ Routes.Item.GET (pkg := Fakes.packages)
       (mkRequest (B := unit) (Some "Bearer alice.access") [] None)
       (Routes.Item.mkParams "12abc") (Fakes.twoUsers 0)
     = (Return (mkResponse 404 (ErrorBody "Grocery item not found")),
        Db.log (SelectItemById 12 1)
          (Db.log (SelectUserById 1) (Fakes.twoUsers 0))).
Proof. repeat split. Qed.

(** C10 (the [store] field is never written). After [create] every row of
    the table that was not there before is the row of the input with a
    NULL [store], and for an INSERT that PostgreSQL accepts that row is
    added; [update] leaves the [store] of every row as it was; [findById],
    [findByUserId] and [delete] write no column. A patch with only the
    [store] field makes the repository throw
    [DatabaseError("No fields to update")] without sending a statement, and
    such a patch passes the validation of the service when the item id is
    positive and the store has at most 255 characters. *)
Theorem C10_store_never_written :
  (forall (userId : Z) (itemData : CreateGroceryItemRequest.t) (db : Db.t)
          (r : Row.t),
      In r (Db.grocery_items (snd (GroceryItemRepository.create userId itemData db))) ->
      In r (Db.grocery_items db)
      \/ (Row.store r = None
          /\ r = Row.mk (Db.grocery_items_id_seq db) userId
                   (CreateGroceryItemRequest.name itemData)
                   (Spec.orElse (CreateGroceryItemRequest.quantity itemData) 1)
                   None
                   (GroceryItemRepository.or_null (CreateGroceryItemRequest.category itemData))
                   (GroceryItemRepository.or_null (CreateGroceryItemRequest.notes itemData))
                   false (Db.current_timestamp db) (Db.current_timestamp db)))
  /\ (forall (userId : Z) (itemData : CreateGroceryItemRequest.t) (db : Db.t),
         Pg.insert db userId itemData ->
         exists r,
           Db.grocery_items (snd (GroceryItemRepository.create userId itemData db))
           = Db.grocery_items db ++ [r]
           /\ Row.store r = None
           /\ Row.user_id r = userId
           /\ Row.name r = CreateGroceryItemRequest.name itemData
           /\ Row.quantity r
              = Spec.orElse (CreateGroceryItemRequest.quantity itemData) 1
           /\ Row.category r
              = GroceryItemRepository.or_null (CreateGroceryItemRequest.category itemData)
           /\ Row.notes r
              = GroceryItemRepository.or_null (CreateGroceryItemRequest.notes itemData))
  /\ (forall (id userId : Z) (updateData : UpdateGroceryItemRequest.t) (db : Db.t),
         map Row.store
           (Db.grocery_items (snd (GroceryItemRepository.update id userId updateData db)))
         = map Row.store (Db.grocery_items db))
  /\ (forall (id userId : Z) (filters : option GroceryItemFilters.t) (db : Db.t),
         Db.grocery_items (snd (GroceryItemRepository.findById id userId db))
         = Db.grocery_items db
         /\ Db.grocery_items (snd (GroceryItemRepository.findByUserId userId filters db))
            = Db.grocery_items db
         /\ incl (Db.grocery_items (snd (GroceryItemRepository.delete id userId db)))
                 (Db.grocery_items db))
  /\ (forall (id userId : Z) (store : string) (db : Db.t),
         GroceryItemRepository.update id userId (Example.storeOnly store) db
         = (Throw (mkException DatabaseError "No fields to update"), db)
         /\ (0 < id -> (String.length store <= 255)%nat ->
             Validation.validateRequestBody Validation.updateGroceryItemSchema
               (Example.storeOnly store)
             = Return (Example.storeOnly store)
             /\ GroceryItemService.updateItem id userId (Example.storeOnly store) db
                = (Throw (mkException DatabaseError "No fields to update"), db))).
Proof.
  split; [|split; [|split; [|split]]].
  - intros userId itemData db r Hr. destruct db. cbn in Hr.
    apply in_app_or in Hr. destruct Hr as [Hr | [<- | []]].
    + left. exact Hr.
    + right. split; reflexivity.
  - intros userId itemData db _. eexists. split.
    + destruct db; reflexivity.
    + repeat split.
  - exact update_keeps_stores.
  - intros id userId filters db. split; [|split].
    + unfold GroceryItemRepository.findById, bind, query, Sql.select_item_by_id.
      destruct (map Sql.returning _); destruct db; reflexivity.
    + destruct db; reflexivity.
    + intros r Hr. destruct db. simpl in Hr. apply filter_In in Hr. tauto.
  - intros id userId store db. split; [reflexivity|].
    intros Hid Hlen.
    pose proof (validate_patch _ (store_only_valid _ Hlen)) as Hvalid.
    split; [exact Hvalid|].
    unfold GroceryItemService.updateItem, bind, lift.
    rewrite (validate_id _ Hid), Hvalid. reflexivity.
Qed.

(** C10 at Alice's item and the store "Aldi". *)
Lemma C10_store_only_patch_witness :
  GroceryItemService.updateItem 1 1 (Example.storeOnly "Aldi") Example.aliceHasMilk
  = (Throw (mkException DatabaseError "No fields to update"), Example.aliceHasMilk).
Proof.
  apply (proj2 (proj2 (proj2 (proj2 (proj2 C10_store_never_written))) 1 1 "Aldi"
                  Example.aliceHasMilk)).
  - lia.
  - simpl. lia.
Defined.

(** C10 as stated fails for a long store: a patch with only a [store] of
    256 characters does not pass the validation of the service, which
    throws a plain [Error]; the repository is not called. *)
Lemma C10_long_store_counterexample :
  String.length Long.store = 256%nat
  /\ Validation.validateRequestBody Validation.updateGroceryItemSchema
       (Example.storeOnly Long.store)
     = Throw (mkException JsError
                "Validation failed: Store name must be 255 characters or less")
  /\ GroceryItemService.updateItem 1 1 (Example.storeOnly Long.store)
       Example.aliceHasMilk
     = (Throw (mkException JsError
                 "Validation failed: Store name must be 255 characters or less"),
        Example.aliceHasMilk).
Proof.
  split; [|split]; vm_compute; reflexivity.
Qed.

(* ===================================================================== *)
(** * Further properties of the item service *)
(* ===================================================================== *)

Lemma wf_aliceHasMilk : Invariant.wf Example.aliceHasMilk.
Proof.
  unfold Invariant.wf, Invariant.primary_key, Invariant.serial. simpl.
  split; [|split; [|apply (twoUsers_key 100)]].
  - repeat constructor. simpl. tauto.
  - split; [lia|]. repeat constructor; simpl; lia.
Qed.

(** X1. Ownership isolation, for the three scoped operations and
    parameters that PostgreSQL accepts: a caller who is not the owner of a
    stored item gets [NotFoundError] from [getItem], [deleteItem] and
    [updateItem], and the tables are unchanged (the statement is only
    logged). For [updateItem] the patch has to be valid and to put a field
    in the SET clause. *)
Theorem isolation_between_users (db : Db.t) (item : Row.t) (other : Z)
    (patch : UpdateGroceryItemRequest.t) :
  Invariant.wf db ->
  In item (Db.grocery_items db) ->
  Row.user_id item <> other ->
  Pg.scoped (Row.id item) other ->
  GroceryItemService.getItem (Row.id item) other db
  = (Throw (mkException NotFoundError "Grocery item not found"),
     Db.log (SelectItemById (Row.id item) other) db)
  /\ GroceryItemService.deleteItem (Row.id item) other db
     = (Throw (mkException NotFoundError "Grocery item not found"),
        Db.log (DeleteItem (Row.id item) other) db)
  /\ (Spec.valid_patch patch ->
      Pg.update (Row.id item) other patch ->
      GroceryItemRepository.updateFields patch <> [] ->
      GroceryItemService.updateItem (Row.id item) other patch db
      = (Throw (mkException NotFoundError "Grocery item not found"),
         Db.log (UpdateItem (Row.id item) other) db)).
Proof.
  intros Hwf Hin Hne _.
  destruct (ownership_isolation db item other patch Hwf Hin Hne)
    as (Hget & Hdelete & Hupdate).
  split; [exact Hget|]. split; [exact Hdelete|].
  intros Hvalid _ Hfields. exact (Hupdate Hvalid Hfields).
Qed.

(** Ownership isolation at Alice's item, for Bob (user 2) and the patch
    [{quantity: 3}]. *)
Lemma isolation_between_users_witness :
  GroceryItemService.getItem 1 2 Example.aliceHasMilk
  = (Throw (mkException NotFoundError "Grocery item not found"),
     Db.log (SelectItemById 1 2) Example.aliceHasMilk)
  /\ GroceryItemService.deleteItem 1 2 Example.aliceHasMilk
     = (Throw (mkException NotFoundError "Grocery item not found"),
        Db.log (DeleteItem 1 2) Example.aliceHasMilk)
  /\ GroceryItemService.updateItem 1 2 (Example.quantityOnly 3) Example.aliceHasMilk
     = (Throw (mkException NotFoundError "Grocery item not found"),
        Db.log (UpdateItem 1 2) Example.aliceHasMilk).
Proof.
  destruct (isolation_between_users Example.aliceHasMilk Example.milkRow 2
              (Example.quantityOnly 3)) as (Hget & Hdelete & Hupdate).
  - apply wf_aliceHasMilk.
  - simpl. tauto.
  - simpl. lia.
  - unfold Pg.scoped, Pg.integer. simpl. lia.
  - split; [exact Hget|]. split; [exact Hdelete|].
    apply Hupdate; [reflexivity | | discriminate].
    unfold Pg.update, Pg.scoped, Pg.quantity, Pg.integer. simpl. lia.
Defined.

(** X2. Round trip on what [create] stores: for a valid input whose INSERT
    PostgreSQL accepts, [createItem] returns the view of the new item, and
    [getItem] on its id, by its owner and at any later time, returns the
    same view. Its name is the input's, its quantity the input's or 1, its
    category and notes the input's (an empty string is stored as NULL), it
    is not purchased, and it has no store. *)
Theorem round_trip_of_created_item (db : Db.t) (owner now : Z)
    (input : CreateGroceryItemRequest.t) :
  Invariant.wf db ->
  Spec.valid_input input ->
  Pg.insert db owner input ->
  exists created db',
    GroceryItemService.createItem owner input db = (Return created, db')
    /\ Invariant.wf db'
    /\ fst (GroceryItemService.getItem (GroceryItemResponse.id created) owner
              (Db.at_time now db'))
       = Return created
    /\ GroceryItemResponse.name created = CreateGroceryItemRequest.name input
    /\ GroceryItemResponse.quantity created
       = Spec.orElse (CreateGroceryItemRequest.quantity input) 1
    /\ GroceryItemResponse.category created
       = GroceryItemRepository.or_null (CreateGroceryItemRequest.category input)
    /\ GroceryItemResponse.notes created
       = GroceryItemRepository.or_null (CreateGroceryItemRequest.notes input)
    /\ GroceryItemResponse.isPurchased created = false
    /\ GroceryItemResponse.store created = None.
Proof.
  intros Hwf Hvalid _. exact (create_then_get db owner now input Hwf Hvalid).
Qed.

Lemma insert_milk (now : Z) : Pg.insert (Fakes.twoUsers now) 1 Example.milk.
Proof.
  unfold Pg.insert, Pg.references, Pg.varchar, Pg.quantity, Pg.integer,
    Pg.text. simpl. intuition lia.
Qed.

(** The round trip at the input [milk], created by Alice in a database
    with no items and read back at time 200. *)
Lemma round_trip_of_created_item_witness :
  exists created db',
    GroceryItemService.createItem 1 Example.milk (Fakes.twoUsers 100)
    = (Return created, db')
    /\ fst (GroceryItemService.getItem (GroceryItemResponse.id created) 1
              (Db.at_time 200 db'))
       = Return created
    /\ GroceryItemResponse.name created = "Milk"
    /\ GroceryItemResponse.quantity created = 2.
Proof.
  destruct (round_trip_of_created_item (Fakes.twoUsers 100) 1 200 Example.milk)
    as (created & db' & Hcreate & _ & Hget & Hname & Hquantity & _).
  - unfold Invariant.wf, Invariant.primary_key, Invariant.serial. simpl.
    split; [constructor|]. split; [split; [lia|constructor]|].
    apply (twoUsers_key 100).
  - eexists. reflexivity.
  - apply insert_milk.
  - exists created, db'. repeat split; assumption.
Defined.

Section UpdateAndDelete.
Import GroceryItemService Invariant.

(** X3. Partial update by the owner, column by column, for a valid patch whose
    UPDATE PostgreSQL accepts. The id, the owner, the
    store and the creation time of the item are kept; each of name,
    quantity, category, notes and purchased flag is the value of the patch
    when the patch has the field and the old value otherwise; the update
    time is the current time. The service returns the view of the new row,
    and every other row of the table is still there. *)
Theorem update_merges_patch (db : Db.t) (item : Row.t)
    (patch : UpdateGroceryItemRequest.t) :
  wf db ->
  In item (Db.grocery_items db) ->
  Spec.valid_patch patch ->
  Pg.update (Row.id item) (Row.user_id item) patch ->
  GroceryItemRepository.updateFields patch <> [] ->
  exists item' db',
    updateItem (Row.id item) (Row.user_id item) patch db
    = (Return (Spec.view item'), db')
    /\ In item' (Db.grocery_items db')
    /\ Row.id item' = Row.id item
    /\ Row.user_id item' = Row.user_id item
    /\ Row.store item' = Row.store item
    /\ Row.created_at item' = Row.created_at item
    /\ Row.updated_at item' = Db.current_timestamp db
    /\ Row.name item' = Spec.orElse (UpdateGroceryItemRequest.name patch) (Row.name item)
    /\ Row.quantity item'
       = Spec.orElse (UpdateGroceryItemRequest.quantity patch) (Row.quantity item)
    /\ Row.category item'
       = Spec.orKeep (UpdateGroceryItemRequest.category patch) (Row.category item)
    /\ Row.notes item'
       = Spec.orKeep (UpdateGroceryItemRequest.notes patch) (Row.notes item)
    /\ Row.is_purchased item'
       = Spec.orElse (UpdateGroceryItemRequest.isPurchased patch) (Row.is_purchased item)
    /\ (forall r, In r (Db.grocery_items db) -> Row.id r <> Row.id item ->
                  In r (Db.grocery_items db'))
    /\ List.length (Db.grocery_items db') = List.length (Db.grocery_items db).
Proof.
  intros Hwf Hin Hvalid _ Hfields.
  pose proof (update_by_owner db item patch Hwf Hin Hvalid Hfields) as H.
  cbv zeta in H.
  eexists. eexists. split; [exact H|].
  cbn [Db.grocery_items Db.log Db.with_grocery_items].
  split.
  { apply in_map_iff. exists item. split; [|exact Hin].
    unfold Sql.where_id_and_user_id. rewrite !Z.eqb_refl. reflexivity. }
  do 10 (split; [reflexivity|]).
  split.
  - intros r Hr Hne. apply in_map_iff. exists r. split; [|exact Hr].
    unfold Sql.where_id_and_user_id.
    destruct (Z.eqb_spec (Row.id r) (Row.id item)); [contradiction|reflexivity].
  - apply length_map.
Qed.

(** X4. Delete by the owner: the row is removed and the others are kept; after
    it, [get] and a second [delete] of the same id fail with
    [NotFoundError]. *)
Theorem delete_by_owner (db : Db.t) (item : Row.t) :
  wf db ->
  In item (Db.grocery_items db) ->
  exists db',
    deleteItem (Row.id item) (Row.user_id item) db = (Return tt, db')
    /\ ~ In (Row.id item) (map Row.id (Db.grocery_items db'))
    /\ (forall r, In r (Db.grocery_items db) -> r <> item ->
                  In r (Db.grocery_items db'))
    /\ (forall r, In r (Db.grocery_items db') -> In r (Db.grocery_items db))
    /\ fst (getItem (Row.id item) (Row.user_id item) db')
       = Throw (mkException NotFoundError "Grocery item not found")
    /\ fst (deleteItem (Row.id item) (Row.user_id item) db')
       = Throw (mkException NotFoundError "Grocery item not found").
Proof.
  intros (Hpk & Hser & Hu) Hin.
  pose proof (serial_positive _ _ Hser Hin) as Hpos.
  set (hit := Sql.where_id_and_user_id (Row.id item) (Row.user_id item)).
  set (rest := filter (fun r => negb (hit r)) (Db.grocery_items db)).
  assert (Hrest : forall r, In r rest -> hit r = false).
  { intros r Hr. apply filter_In in Hr. destruct Hr as [_ Hr].
    destruct (hit r); [discriminate|reflexivity]. }
  exists (Db.log (DeleteItem (Row.id item) (Row.user_id item))
            (Db.with_grocery_items rest db)).
  split.
  { unfold deleteItem, bind, lift. rewrite (validate_id _ Hpos).
    unfold GroceryItemRepository.delete, bind, query, Sql.delete_grocery_item.
    rewrite (filter_hit_owner _ _ Hpk Hin). reflexivity. }
  cbn [Db.grocery_items Db.log Db.with_grocery_items].
  split.
  { intros Hid. apply in_map_iff in Hid. destruct Hid as (r & Hid & Hr).
    pose proof (Hrest r Hr) as Hmiss. apply filter_In in Hr. destruct Hr as [Hr _].
    assert (r = item) by (eapply NoDup_map_eq; eauto). subst r.
    unfold hit, Sql.where_id_and_user_id in Hmiss.
    rewrite !Z.eqb_refl in Hmiss. discriminate. }
  split.
  { intros r Hr Hne. apply filter_In. split; [exact Hr|].
    destruct (hit r) eqn:E; [|reflexivity].
    exfalso. apply Hne. exact (owner_only_hit _ _ Hpk Hin r Hr E). }
  split.
  { intros r Hr. apply filter_In in Hr. tauto. }
  split.
  - unfold getItem, bind, lift. rewrite (validate_id _ Hpos).
    unfold GroceryItemRepository.findById, bind, query, Sql.select_item_by_id.
    cbn [Db.grocery_items Db.log Db.with_grocery_items]. fold hit.
    rewrite (filter_none _ _ Hrest). reflexivity.
  - unfold deleteItem, bind, lift. rewrite (validate_id _ Hpos).
    unfold GroceryItemRepository.delete, bind, query, Sql.delete_grocery_item.
    cbn [Db.grocery_items Db.log Db.with_grocery_items]. fold hit.
    rewrite (filter_none _ _ Hrest). reflexivity.
Qed.

(** X5. [markAsPurchased] and [markAsNotPurchased] by the owner set the
    purchased flag and the update time of the item and nothing else. *)
Theorem mark_sets_only_the_flag (db : Db.t) (item : Row.t) (flag : bool) :
  wf db ->
  In item (Db.grocery_items db) ->
  let item' :=
    Row.mk (Row.id item) (Row.user_id item) (Row.name item) (Row.quantity item)
      (Row.store item) (Row.category item) (Row.notes item) flag
      (Row.created_at item) (Db.current_timestamp db) in
  fst ((if flag then markAsPurchased else markAsNotPurchased)
         (Row.id item) (Row.user_id item) db)
  = Return (Spec.view item')
  /\ In item'
        (Db.grocery_items
           (snd ((if flag then markAsPurchased else markAsNotPurchased)
                   (Row.id item) (Row.user_id item) db))).
Proof.
  intros Hwf Hin item'.
  set (patch := UpdateGroceryItemRequest.mk None None None None None (Some flag)).
  assert (Hmark : (if flag then markAsPurchased else markAsNotPurchased)
                    (Row.id item) (Row.user_id item) db
                  = updateItem (Row.id item) (Row.user_id item) patch db)
    by (destruct flag; reflexivity).
  rewrite Hmark.
  pose proof (update_by_owner db item patch Hwf Hin eq_refl) as H.
  cbv zeta in H. rewrite H; [|discriminate].
  change (Spec.merge_without_store patch (Db.current_timestamp db) item) with item'.
  split; [reflexivity|].
  cbn [snd Db.grocery_items Db.log Db.with_grocery_items].
  apply in_map_iff. exists item. split; [|exact Hin].
  unfold Sql.where_id_and_user_id. rewrite !Z.eqb_refl. reflexivity.
Qed.

End UpdateAndDelete.

(** The partial update at Alice's item and the patch [{quantity: 3}]. *)
Lemma update_merges_patch_witness :
  exists item' db',
    GroceryItemService.updateItem 1 1 (Example.quantityOnly 3) Example.aliceHasMilk
    = (Return (Spec.view item'), db')
    /\ Row.name item' = "Milk"
    /\ Row.quantity item' = 3.
Proof.
  destruct (update_merges_patch Example.aliceHasMilk Example.milkRow
              (Example.quantityOnly 3))
    as (item' & db' & H & _ & _ & _ & _ & _ & _ & Hname & Hquantity & _).
  - apply wf_aliceHasMilk.
  - simpl. tauto.
  - reflexivity.
  - unfold Pg.update, Pg.scoped, Pg.quantity, Pg.integer. simpl. lia.
  - discriminate.
  - exists item', db'. repeat split; assumption.
Defined.

(** Alice deletes her item. *)
Lemma delete_by_owner_witness :
  exists db',
    GroceryItemService.deleteItem 1 1 Example.aliceHasMilk = (Return tt, db')
    /\ fst (GroceryItemService.getItem 1 1 db')
       = Throw (mkException NotFoundError "Grocery item not found").
Proof.
  destruct (delete_by_owner Example.aliceHasMilk Example.milkRow)
    as (db' & Hdelete & _ & _ & _ & Hget & _).
  - apply wf_aliceHasMilk.
  - simpl. tauto.
  - exists db'. split; assumption.
Defined.

(** Alice marks her item as purchased. *)
Lemma mark_sets_only_the_flag_witness :
  fst (GroceryItemService.markAsPurchased 1 1 Example.aliceHasMilk)
  = Return (Spec.view (Row.mk 1 1 "Milk" 2 None (Some "Dairy") (Some "2% milk")
                         true 100 100)).
Proof.
  exact (proj1 (mark_sets_only_the_flag Example.aliceHasMilk Example.milkRow true
                  wf_aliceHasMilk (or_introl eq_refl))).
Defined.

(* ===================================================================== *)
(** * Listing *)
(* ===================================================================== *)

Section SortLemmas.

Lemma insert_desc_perm (r : Row.t) (l : list Row.t) :
  Permutation (Sql.insert_desc r l) (r :: l).
Proof.
  induction l as [|x l IH]; simpl; [apply Permutation_refl|].
  destruct (Row.created_at x <=? Row.created_at r); [apply Permutation_refl|].
  apply perm_trans with (x :: r :: l); [apply perm_skip; exact IH | apply perm_swap].
Qed.

Lemma order_by_perm (l : list Row.t) :
  Permutation (Sql.order_by_created_at_desc l) l.
Proof.
  induction l as [|r l IH]; simpl; [constructor|].
  apply perm_trans with (r :: Sql.order_by_created_at_desc l);
    [apply insert_desc_perm | apply perm_skip; exact IH].
Qed.

Lemma insert_desc_sorted (r : Row.t) (l : list Row.t) :
  StronglySorted Listing.newer_row l -> StronglySorted Listing.newer_row (Sql.insert_desc r l).
Proof.
  induction l as [|x l IH]; simpl; intros Hs.
  - repeat constructor.
  - inversion Hs as [|? ? Hs' Hall]; subst.
    destruct (Z.leb_spec (Row.created_at x) (Row.created_at r)) as [Hle|Hlt].
    + constructor; [exact Hs|]. constructor; [exact Hle|].
      rewrite Forall_forall in *. intros y Hy. specialize (Hall y Hy).
      unfold Listing.newer_row in *. lia.
    + constructor; [apply IH; exact Hs'|].
      rewrite Forall_forall in *. intros y Hy.
      apply (Permutation_in _ (insert_desc_perm r l)) in Hy.
      destruct Hy as [<-|Hy]; [unfold Listing.newer_row; lia | apply Hall; exact Hy].
Qed.

Lemma order_by_sorted (l : list Row.t) :
  StronglySorted Listing.newer_row (Sql.order_by_created_at_desc l).
Proof.
  induction l as [|r l IH]; simpl; [constructor|].
  apply insert_desc_sorted. exact IH.
Qed.

Lemma sorted_items (l : list Row.t) :
  StronglySorted Listing.newer_row l ->
  StronglySorted Listing.newer_first (map Listing.item l).
Proof.
  induction 1 as [|r l Hs IH Hall]; simpl; constructor; [exact IH|].
  rewrite Forall_forall in *. intros i Hi. apply in_map_iff in Hi.
  destruct Hi as (y & <- & Hy). exact (Hall y Hy).
Qed.

Lemma conditions_match (filters : option GroceryItemFilters.t) (r : Row.t) :
  forallb (fun c => Sql.holds c r) (GroceryItemRepository.conditions filters)
  = Listing.matches filters r.
Proof.
  destruct filters as [[store category isPurchased search]|]; [|reflexivity].
  unfold GroceryItemRepository.conditions, Listing.matches,
    GroceryItemRepository.truthy, GroceryItemRepository.or_null.
  cbn [GroceryItemFilters.category GroceryItemFilters.isPurchased
       GroceryItemFilters.search].
  destruct category as [[|c category]|], isPurchased as [isPurchased|],
    search as [[|d search]|];
    cbn [app forallb Sql.holds andb]; rewrite ?andb_true_r, ?andb_assoc;
    reflexivity.
Qed.

End SortLemmas.

(** X7. Listing, for parameters that PostgreSQL accepts: [findByUserId] sends
    one SELECT and writes nothing; the items it returns all belong to the
    caller, are ordered newest first, and are exactly (as a multiset) the
    rows of the caller that match the filters. *)
Theorem list_scoped_sorted_complete
    (userId : Z) (filters : option GroceryItemFilters.t) (db : Db.t) :
  Pg.select userId filters ->
  exists items,
    GroceryItemRepository.findByUserId userId filters db
    = (Return items, Db.log (SelectItemsByUser userId) db)
    /\ Forall (fun i => GroceryItem.userId i = userId) items
    /\ StronglySorted Listing.newer_first items
    /\ Permutation items
         (map Listing.item
            (filter (fun r => Z.eqb (Row.user_id r) userId && Listing.matches filters r)
                    (Db.grocery_items db))).
Proof.
  intros _.
  set (kept := filter (fun r => Z.eqb (Row.user_id r) userId
                                && Listing.matches filters r)
                      (Db.grocery_items db)).
  assert (Hkept : filter (fun r => Z.eqb (Row.user_id r) userId
                                   && forallb (fun c => Sql.holds c r)
                                        (GroceryItemRepository.conditions filters))
                         (Db.grocery_items db) = kept).
  { apply filter_ext. intros r. rewrite conditions_match. reflexivity. }
  exists (map Listing.item (Sql.order_by_created_at_desc kept)).
  split.
  { unfold GroceryItemRepository.findByUserId, bind, query,
      Sql.select_items_by_user. rewrite Hkept.
    unfold ret, Listing.item. rewrite map_map. reflexivity. }
  split.
  { apply Forall_forall. intros i Hi. apply in_map_iff in Hi.
    destruct Hi as (r & <- & Hr).
    apply (Permutation_in _ (order_by_perm kept)) in Hr.
    apply filter_In in Hr. destruct Hr as [_ Hr].
    apply andb_prop in Hr. destruct Hr as [Hr _]. apply Z.eqb_eq in Hr.
    exact Hr. }
  split.
  - apply sorted_items. apply order_by_sorted.
  - apply Permutation_map. apply order_by_perm.
Qed.

(** The list of user 1 among three items, with the store "A" and the
    category "X": the two items of the category "X" are returned. *)
Lemma list_scoped_sorted_complete_witness :
  exists items,
    GroceryItemRepository.findByUserId 1 (Some Example.storeAcategoryX)
      Example.threeItems
    = (Return items, Db.log (SelectItemsByUser 1) Example.threeItems)
    /\ Forall (fun i => GroceryItem.userId i = 1) items
    /\ List.length items = 2%nat.
Proof.
  destruct (list_scoped_sorted_complete 1 (Some Example.storeAcategoryX)
              Example.threeItems) as (items & Hfind & Hmine & _ & Hperm).
  - unfold Pg.select, Pg.integer, Pg.text. simpl. intuition lia.
  - exists items. split; [exact Hfind|]. split; [exact Hmine|].
    apply Permutation_length in Hperm. rewrite Hperm. reflexivity.
Defined.

(** X9. Lists are isolated: what a user creates never changes what another
    user lists, whatever the input and the filters. *)
Theorem create_invisible_to_others
    (owner other : Z) (input : CreateGroceryItemRequest.t)
    (filters : option GroceryItemFilters.t) (db : Db.t) :
  owner <> other ->
  fst (GroceryItemService.getUserItems other filters
         (snd (GroceryItemService.createItem owner input db)))
  = fst (GroceryItemService.getUserItems other filters db).
Proof.
  intros Hne. unfold GroceryItemService.createItem, bind, lift.
  destruct (Validation.validateRequestBody Validation.createGroceryItemSchema input)
    as [data|e]; [|reflexivity].
  unfold GroceryItemService.getUserItems, bind, lift.
  destruct filters as [f|].
  - destruct (Validation.validateRequestBody Validation.groceryItemFiltersSchema f)
      as [f'|e]; [|reflexivity].
    unfold ret, GroceryItemRepository.findByUserId, bind, query,
      Sql.select_items_by_user.
    destruct db as [us items useq seq now log].
    cbn [GroceryItemRepository.create bind query Sql.insert_grocery_item fst snd
         Db.grocery_items Db.log ret Db.users Db.users_id_seq
         Db.grocery_items_id_seq Db.current_timestamp Db.statements].
    rewrite filter_app. cbn [filter Row.user_id].
    destruct (Z.eqb_spec owner other); [contradiction|].
    cbn [andb]. rewrite app_nil_r. reflexivity.
  - unfold ret, GroceryItemRepository.findByUserId, bind, query,
      Sql.select_items_by_user.
    destruct db as [us items useq seq now log].
    cbn [GroceryItemRepository.create bind query Sql.insert_grocery_item fst snd
         Db.grocery_items Db.log ret Db.users Db.users_id_seq
         Db.grocery_items_id_seq Db.current_timestamp Db.statements].
    rewrite filter_app. cbn [filter Row.user_id].
    destruct (Z.eqb_spec owner other); [contradiction|].
    cbn [andb]. rewrite app_nil_r. reflexivity.
Qed.

(** Bob's list is the same before and after Alice creates [milk]. *)
Lemma create_invisible_to_others_witness :
  fst (GroceryItemService.getUserItems 2 None
         (snd (GroceryItemService.createItem 1 Example.milk (Fakes.twoUsers 100))))
  = fst (GroceryItemService.getUserItems 2 None (Fakes.twoUsers 100)).
Proof.
  apply (create_invisible_to_others 1 2 Example.milk None (Fakes.twoUsers 100)).
  lia.
Defined.

(** X10. The item a user creates, with a valid input whose INSERT PostgreSQL
    accepts, is in the unfiltered list of that user. *)
Theorem created_item_is_listed
    (owner now : Z) (input : CreateGroceryItemRequest.t) (db : Db.t) :
  Spec.valid_input input ->
  Pg.insert db owner input ->
  exists created db' items,
    GroceryItemService.createItem owner input db = (Return created, db')
    /\ fst (GroceryItemService.getUserItems owner None (Db.at_time now db'))
       = Return items
    /\ In created items.
Proof.
  intros Hvalid _. rewrite (createItem_valid db owner input Hvalid).
  do 3 eexists. split; [reflexivity|].
  unfold GroceryItemService.getUserItems, bind, ret,
    GroceryItemRepository.findByUserId, query, Sql.select_items_by_user.
  cbn [fst]. split; [reflexivity|].
  rewrite !map_map. unfold Spec.view. apply in_map_iff.
  exists (inserted owner input db). split; [reflexivity|].
  apply (Permutation_in _ (Permutation_sym (order_by_perm _))).
  apply filter_In. split.
  - cbn [Db.grocery_items after_insert Db.at_time Db.log]. apply in_or_app.
    right. left. reflexivity.
  - cbn [GroceryItemRepository.conditions inserted Row.user_id forallb].
    rewrite Z.eqb_refl. reflexivity.
Qed.

Lemma created_item_is_listed_witness :
  exists created db' items,
    GroceryItemService.createItem 1 Example.milk (Fakes.twoUsers 100)
    = (Return created, db')
    /\ fst (GroceryItemService.getUserItems 1 None (Db.at_time 200 db'))
       = Return items
    /\ In created items.
Proof.
  apply (created_item_is_listed 1 200 Example.milk (Fakes.twoUsers 100)).
  - eexists. reflexivity.
  - apply insert_milk.
Defined.

(** X11. Every operation of the item service keeps the keys of the tables: the
    ids of [grocery_items] stay distinct, positive and below the next value
    of the sequence, whatever the arguments and whether it returns or
    throws. *)
Theorem item_service_keeps_keys (db : Db.t) (id userId : Z)
    (input : CreateGroceryItemRequest.t) (patch : UpdateGroceryItemRequest.t)
    (filters : option GroceryItemFilters.t) :
  Invariant.wf db ->
  Invariant.wf (snd (GroceryItemService.createItem userId input db))
  /\ Invariant.wf (snd (GroceryItemService.getItem id userId db))
  /\ Invariant.wf (snd (GroceryItemService.getUserItems userId filters db))
  /\ Invariant.wf (snd (GroceryItemService.updateItem id userId patch db))
  /\ Invariant.wf (snd (GroceryItemService.deleteItem id userId db))
  /\ Invariant.wf (snd (GroceryItemService.markAsPurchased id userId db))
  /\ Invariant.wf (snd (GroceryItemService.markAsNotPurchased id userId db)).
Proof.
  intros Hwf.
  assert (Hupdate : forall p,
             Invariant.wf (snd (GroceryItemService.updateItem id userId p db))).
  { intros p. unfold GroceryItemService.updateItem, bind, lift.
    destruct (Validation.validateRequestBody Validation.idSchema id); [|exact Hwf].
    destruct (Validation.validateRequestBody Validation.updateGroceryItemSchema p)
      as [data|]; [|exact Hwf].
    pose proof (wf_update id userId data db Hwf) as H.
    destruct (GroceryItemRepository.update id userId data db) as [[item|e] db'];
      exact H. }
  split; [|split; [|split; [|split; [|split; [|split]]]]]; try apply Hupdate.
  - unfold GroceryItemService.createItem, bind, lift.
    destruct (Validation.validateRequestBody Validation.createGroceryItemSchema input)
      as [data|]; [|exact Hwf].
    pose proof (wf_create userId data db Hwf) as H.
    destruct (GroceryItemRepository.create userId data db) as [[item|e] db'];
      exact H.
  - unfold GroceryItemService.getItem, bind, lift.
    destruct (Validation.validateRequestBody Validation.idSchema id); [|exact Hwf].
    unfold GroceryItemRepository.findById, bind, query, Sql.select_item_by_id.
    destruct (map Sql.returning _); apply wf_log; exact Hwf.
  - unfold GroceryItemService.getUserItems, bind, lift.
    destruct filters as [f|].
    + destruct (Validation.validateRequestBody Validation.groceryItemFiltersSchema f);
        [|exact Hwf].
      apply wf_log. exact Hwf.
    + apply wf_log. exact Hwf.
  - unfold GroceryItemService.deleteItem, bind, lift.
    destruct (Validation.validateRequestBody Validation.idSchema id); [|exact Hwf].
    pose proof (wf_delete id userId db Hwf) as H.
    destruct (GroceryItemRepository.delete id userId db) as [[[]|e] db'];
      exact H.
Qed.

Lemma item_service_keeps_keys_witness :
  Invariant.wf (snd (GroceryItemService.createItem 1 Example.milk (Db.init 0))).
Proof.
  exact (proj1 (item_service_keeps_keys (Db.init 0) 1 1 Example.milk
                  UpdateGroceryItemRequest.empty None (wf_init 0))).
Defined.

(* ===================================================================== *)
(** * Validation and the errors of the item service *)
(* ===================================================================== *)

Section BoundsLemmas.
Import Validation.

Lemma string_min_leb (n : nat) (msg s : string) :
  string_min n msg s = if (n <=? String.length s)%nat then [] else [msg].
Proof.
  unfold string_min. rewrite Nat.ltb_antisym.
  destruct (n <=? String.length s)%nat; reflexivity.
Qed.

Lemma string_max_leb (n : nat) (msg s : string) :
  string_max n msg s = if (String.length s <=? n)%nat then [] else [msg].
Proof.
  unfold string_max. rewrite Nat.ltb_antisym.
  destruct (String.length s <=? n)%nat; reflexivity.
Qed.

Lemma number_min_leb (n : Z) (msg : string) (v : Z) :
  number_min n msg v = if n <=? v then [] else [msg].
Proof.
  unfold number_min. rewrite Z.ltb_antisym. destruct (n <=? v); reflexivity.
Qed.

Lemma optional_max (n : nat) (msg : string) (value : option string) :
  optional (string_max n msg) value = if Bounds.at_most n value then [] else [msg].
Proof. destruct value; [apply string_max_leb | reflexivity]. Qed.

Lemma optional_min (msg : string) (value : option Z) :
  optional (number_min 1 msg) value = if Bounds.at_least_one value then [] else [msg].
Proof. destruct value; [apply number_min_leb | reflexivity]. Qed.

Lemma create_schema_bounds (input : CreateGroceryItemRequest.t) :
  if Bounds.create_ok input
  then Spec.valid_input input
  else exists errors, createGroceryItemSchema input = failure errors.
Proof.
  unfold Spec.valid_input, createGroceryItemSchema, Bounds.create_ok.
  rewrite string_min_leb, string_max_leb, optional_min, !optional_max.
  destruct (1 <=? _)%nat, (_ <=? 255)%nat, (Bounds.at_least_one _),
    (Bounds.at_most 255 _), (Bounds.at_most 100 _), (Bounds.at_most 1000 _);
    cbn [andb app parsed]; eexists; reflexivity.
Qed.

Lemma update_schema_bounds (patch : UpdateGroceryItemRequest.t) :
  if Bounds.update_ok patch
  then Spec.valid_patch patch
  else exists errors, updateGroceryItemSchema patch = failure errors.
Proof.
  unfold Spec.valid_patch, updateGroceryItemSchema, Bounds.update_ok.
  rewrite optional_min, !optional_max.
  destruct (UpdateGroceryItemRequest.name patch) as [name|]; cbn [optional].
  - rewrite string_min_leb, string_max_leb.
    destruct (0 <? _)%nat, (1 <=? _)%nat, (_ <=? 255)%nat,
      (Bounds.at_least_one _), (Bounds.at_most 255 _), (Bounds.at_most 100 _),
      (Bounds.at_most 1000 _);
      cbn [andb app parsed]; try reflexivity; eexists; reflexivity.
  - destruct (0 <? _)%nat, (Bounds.at_least_one _), (Bounds.at_most 255 _),
      (Bounds.at_most 100 _), (Bounds.at_most 1000 _);
      cbn [andb app parsed]; try reflexivity; eexists; reflexivity.
Qed.

Lemma validate_id_cases (id : Z) :
  if 0 <? id
  then validateRequestBody idSchema id = Return id
  else validateRequestBody idSchema id
       = Throw (mkException JsError
                  "Validation failed: ID must be a positive integer").
Proof.
  unfold validateRequestBody, idSchema, parsed, number_positive.
  rewrite Z.leb_antisym. destruct (0 <? id); reflexivity.
Qed.

End BoundsLemmas.

Section BoundsOfTheService.
Import GroceryItemService.

Lemma createItem_accepts (owner : Z) (input : CreateGroceryItemRequest.t)
    (db : Db.t) :
  Bounds.create_ok input = true ->
  createItem owner input db
  = (Return (Spec.view (inserted owner input db)), after_insert owner input db).
Proof.
  intros Hok. pose proof (create_schema_bounds input) as H. rewrite Hok in H.
  apply createItem_valid. exact H.
Qed.

Lemma createItem_rejects (owner : Z) (input : CreateGroceryItemRequest.t)
    (db : Db.t) :
  Bounds.create_ok input = false ->
  exists msg, createItem owner input db = (Throw (mkException JsError msg), db).
Proof.
  intros Hok. pose proof (create_schema_bounds input) as H. rewrite Hok in H.
  destruct H as [errors H].
  unfold createItem, bind, lift, Validation.validateRequestBody. rewrite H.
  eexists. reflexivity.
Qed.

Lemma updateItem_accepts (id owner : Z) (patch : UpdateGroceryItemRequest.t)
    (db : Db.t) :
  (0 <? id) && Bounds.update_ok patch = true ->
  updateItem id owner patch db
  = bind (GroceryItemRepository.update id owner patch)
         (fun item => ret (toGroceryItemResponse item)) db.
Proof.
  intros Hok. apply andb_prop in Hok. destruct Hok as [Hid Hok].
  pose proof (validate_id_cases id) as Hv. rewrite Hid in Hv.
  pose proof (update_schema_bounds patch) as H. rewrite Hok in H.
  unfold updateItem, bind at 1 2, lift. rewrite Hv, (validate_patch _ H).
  reflexivity.
Qed.

Lemma updateItem_rejects (id owner : Z) (patch : UpdateGroceryItemRequest.t)
    (db : Db.t) :
  (0 <? id) && Bounds.update_ok patch = false ->
  exists msg, updateItem id owner patch db = (Throw (mkException JsError msg), db).
Proof.
  intros Hok.
  pose proof (validate_id_cases id) as Hv.
  pose proof (update_schema_bounds patch) as H.
  unfold updateItem, bind, lift.
  destruct (0 <? id); rewrite Hv; [|eexists; reflexivity].
  cbn [andb] in Hok. rewrite Hok in H. destruct H as [errors H].
  unfold Validation.validateRequestBody. rewrite H. eexists. reflexivity.
Qed.

End BoundsOfTheService.

(** X12. [createItem] checks the bounds before anything else: an input within
    the bounds, whose INSERT PostgreSQL accepts, inserts one row and
    returns its view; an input outside the bounds throws a plain [Error]
    and no statement is sent. *)
Theorem createItem_checks_bounds
    (owner : Z) (input : CreateGroceryItemRequest.t) (db : Db.t) :
  if Bounds.create_ok input
  then Pg.insert db owner input ->
       GroceryItemService.createItem owner input db
       = (Return (Spec.view (inserted owner input db)), after_insert owner input db)
  else exists msg,
      GroceryItemService.createItem owner input db
      = (Throw (mkException JsError msg), db).
Proof.
  destruct (Bounds.create_ok input) eqn:Hok.
  - intros _. apply createItem_accepts. exact Hok.
  - apply createItem_rejects. exact Hok.
Qed.

(** Alice creates [milk], which is within the bounds. *)
Lemma createItem_checks_bounds_witness :
  GroceryItemService.createItem 1 Example.milk (Fakes.twoUsers 100)
  = (Return (Spec.view Example.milkRow), Example.aliceHasMilk).
Proof.
  apply (createItem_checks_bounds 1 Example.milk (Fakes.twoUsers 100)).
  apply insert_milk.
Defined.

(** X13. [updateItem] checks the id and the patch before anything else: with a
    positive id and a patch within the bounds it is the update of the
    repository; otherwise it throws a plain [Error] and no statement is
    sent. *)
Theorem updateItem_checks_bounds
    (id owner : Z) (patch : UpdateGroceryItemRequest.t) (db : Db.t) :
  if (0 <? id) && Bounds.update_ok patch
  then GroceryItemService.updateItem id owner patch db
       = bind (GroceryItemRepository.update id owner patch)
              (fun item => ret (GroceryItemService.toGroceryItemResponse item)) db
  else exists msg,
      GroceryItemService.updateItem id owner patch db
      = (Throw (mkException JsError msg), db).
Proof.
  destruct ((0 <? id) && Bounds.update_ok patch) eqn:Hok;
    [apply updateItem_accepts | apply updateItem_rejects]; exact Hok.
Qed.

Section ErrorKinds.
Import GroceryItemService.

Lemma validate_throws_plain {I O} (schema : Validation.ZodSchema I O) (data : I)
    (e : Exception) :
  Validation.validateRequestBody schema data = Throw e -> cls e = JsError.
Proof.
  unfold Validation.validateRequestBody. destruct (schema data); [discriminate|].
  intros H. injection H as <-. reflexivity.
Qed.

Lemma createItem_throws (userId : Z) (input : CreateGroceryItemRequest.t)
    (db db' : Db.t) (e : Exception) :
  createItem userId input db = (Throw e, db') -> cls e = JsError /\ db' = db.
Proof.
  unfold createItem, bind, lift.
  destruct (Validation.validateRequestBody _ input) as [data|e0] eqn:Hv.
  - destruct db; cbn. discriminate.
  - intros H. injection H as <- <-.
    split; [exact (validate_throws_plain _ _ _ Hv) | reflexivity].
Qed.

Lemma getUserItems_throws (userId : Z) (filters : option GroceryItemFilters.t)
    (db db' : Db.t) (e : Exception) :
  getUserItems userId filters db = (Throw e, db') -> cls e = JsError /\ db' = db.
Proof.
  unfold getUserItems, bind, lift. destruct filters as [f|].
  - destruct (Validation.validateRequestBody _ f) as [data|e0] eqn:Hv.
    + cbn. discriminate.
    + intros H. injection H as <- <-.
      split; [exact (validate_throws_plain _ _ _ Hv) | reflexivity].
  - cbn. discriminate.
Qed.

Lemma getItem_throws (id userId : Z) (db db' : Db.t) (e : Exception) :
  getItem id userId db = (Throw e, db') ->
  (cls e = JsError /\ db' = db) \/ cls e = NotFoundError.
Proof.
  unfold getItem, bind, lift.
  destruct (Validation.validateRequestBody _ id) as [data|e0] eqn:Hv.
  - unfold GroceryItemRepository.findById, bind, query, Sql.select_item_by_id.
    destruct (map Sql.returning _); cbn; intros H; [|discriminate].
    injection H as <- _. right. reflexivity.
  - intros H. injection H as <- <-. left.
    split; [exact (validate_throws_plain _ _ _ Hv) | reflexivity].
Qed.

Lemma deleteItem_throws (id userId : Z) (db db' : Db.t) (e : Exception) :
  deleteItem id userId db = (Throw e, db') ->
  (cls e = JsError /\ db' = db) \/ cls e = NotFoundError.
Proof.
  unfold deleteItem, bind, lift.
  destruct (Validation.validateRequestBody _ id) as [data|e0] eqn:Hv.
  - unfold GroceryItemRepository.delete, bind, query, Sql.delete_grocery_item.
    cbn. destruct (0 <? _); cbn; intros H; [discriminate|].
    injection H as <- _. right. reflexivity.
  - intros H. injection H as <- <-. left.
    split; [exact (validate_throws_plain _ _ _ Hv) | reflexivity].
Qed.

Lemma updateItem_throws (id userId : Z) (patch : UpdateGroceryItemRequest.t)
    (db db' : Db.t) (e : Exception) :
  updateItem id userId patch db = (Throw e, db') ->
  (cls e = JsError /\ db' = db) \/ cls e = NotFoundError \/ cls e = DatabaseError.
Proof.
  unfold updateItem, bind, lift.
  destruct (Validation.validateRequestBody _ id) as [data|e0] eqn:Hv.
  - destruct (Validation.validateRequestBody _ patch) as [data'|e1] eqn:Hv'.
    + unfold GroceryItemRepository.update.
      destruct (GroceryItemRepository.updateFields data').
      * cbn. intros H. injection H as <- _. right. right. reflexivity.
      * unfold bind, query, Sql.update_grocery_item.
        destruct (map _ (filter _ _)); cbn; intros H; [|discriminate].
        injection H as <- _. right. left. reflexivity.
    + intros H. injection H as <- <-. left.
      split; [exact (validate_throws_plain _ _ _ Hv') | reflexivity].
  - intros H. injection H as <- <-. left.
    split; [exact (validate_throws_plain _ _ _ Hv) | reflexivity].
Qed.

(** X14. The errors of the item service. An error of an operation is a plain
    [Error] (failed validation), thrown before any statement is sent, a
    [DatabaseError] (of the repository or of a statement that PostgreSQL
    refuses) or, for [getItem], [deleteItem] and [updateItem] only, a
    [NotFoundError]. No operation throws a [ValidationError], an
    [AuthenticationError] or a [ConflictError]. *)
Theorem item_service_error_kinds (id userId : Z)
    (input : CreateGroceryItemRequest.t) (patch : UpdateGroceryItemRequest.t)
    (filters : option GroceryItemFilters.t) (db db' : Db.t) (e : Exception) :
  (createItem userId input db = (Throw e, db') ->
   (cls e = JsError /\ db' = db) \/ cls e = DatabaseError)
  /\ (getUserItems userId filters db = (Throw e, db') ->
      (cls e = JsError /\ db' = db) \/ cls e = DatabaseError)
  /\ (getItem id userId db = (Throw e, db') ->
      (cls e = JsError /\ db' = db) \/ cls e = NotFoundError
      \/ cls e = DatabaseError)
  /\ (deleteItem id userId db = (Throw e, db') ->
      (cls e = JsError /\ db' = db) \/ cls e = NotFoundError
      \/ cls e = DatabaseError)
  /\ (updateItem id userId patch db = (Throw e, db') ->
      (cls e = JsError /\ db' = db) \/ cls e = NotFoundError
      \/ cls e = DatabaseError).
Proof.
  split; [intros H; left; exact (createItem_throws _ _ _ _ _ H)|].
  split; [intros H; left; exact (getUserItems_throws _ _ _ _ _ H)|].
  split; [intros H; destruct (getItem_throws _ _ _ _ _ H); tauto|].
  split; [intros H; destruct (deleteItem_throws _ _ _ _ _ H); tauto|].
  apply updateItem_throws.
Qed.

End ErrorKinds.

(** The error of the empty patch on a positive id: a plain [Error], with
    the database as it was. *)
Lemma item_service_error_kinds_witness :
  (cls (mkException JsError
          "Validation failed: At least one field must be provided for update")
   = JsError /\ Example.aliceHasMilk = Example.aliceHasMilk)
  \/ cls (mkException JsError
            "Validation failed: At least one field must be provided for update")
     = NotFoundError
  \/ cls (mkException JsError
            "Validation failed: At least one field must be provided for update")
     = DatabaseError.
Proof.
  apply (proj2 (proj2 (proj2 (proj2
           (item_service_error_kinds 1 1 Example.milk UpdateGroceryItemRequest.empty
              None Example.aliceHasMilk Example.aliceHasMilk _))))).
  reflexivity.
Defined.

(* ===================================================================== *)
(** * The item routes *)
(* ===================================================================== *)

Section RouteLemmas.
Context {pkg : Packages}.

(** The [catch] block of a handler always answers; the status is the
    status code of the error, or 500 for an error that is not an
    [AppError]. *)
Lemma catchBlock_answers (named : Exception -> bool) (e : Exception) (db : Db.t) :
  exists response,
    Routes.catchBlock named e db = (Return response, db)
    /\ (status response = statusCode (cls e) \/ status response = 500).
Proof.
  unfold Routes.catchBlock.
  destruct (named e); [eexists; split; [reflexivity|left; reflexivity]|].
  destruct (instanceofAppError e); eexists; split; try reflexivity;
    [left|right]; reflexivity.
Qed.

(** A wrapped handler that catches its own errors: the answer of the route
    is 401 or the answer of the handler. *)
Lemma withAuth_answers {B P}
    (handler : NextRequest B -> P -> User.t -> Async Response)
    (request : NextRequest B) (context : P) (db : Db.t) (statuses : list Z) :
  (forall user db0, exists response db1,
        handler request context user db0 = (Return response, db1)
        /\ In (status response) statuses) ->
  exists response db',
    Middleware.withAuth handler request context db = (Return response, db')
    /\ In (status response) (401 :: statuses).
Proof.
  intros Hhandler.
  pose proof (withAuth_cases handler request context db) as H.
  destruct (Middleware.authenticate request db) as [[user|e] db0].
  - destruct (Hhandler user db0) as (response & db1 & Hr & Hs).
    exists response, db1. split; [|right; exact Hs].
    rewrite H. unfold try_catch. rewrite Hr. reflexivity.
  - do 2 eexists. split; [exact H|]. left. reflexivity.
Qed.

End RouteLemmas.

(** X15. The routes of an item always answer (no exception leaves them) and
    the status is 200, 400, 401, 404 or 500: never 403, whoever owns the
    item. The routes of the collection answer 200 (GET) or 201 (POST), 401
    or 500. *)
Theorem item_routes_always_answer (pkg : Packages)
    (request : NextRequest UpdateGroceryItemRequest.t)
    (params : Routes.Item.Params)
    (post : NextRequest CreateGroceryItemRequest.t) (db : Db.t) :
  (exists response db',
      Routes.Item.GET request params db = (Return response, db')
      /\ In (status response) [401; 200; 400; 404; 500])
  /\ (exists response db',
         Routes.Item.PUT request params db = (Return response, db')
         /\ In (status response) [401; 200; 400; 404; 500])
  /\ (exists response db',
         Routes.Item.DELETE request params db = (Return response, db')
         /\ In (status response) [401; 200; 400; 404; 500])
  /\ (exists response db',
         Routes.Items.GET request tt db = (Return response, db')
         /\ In (status response) [401; 200; 500])
  /\ (exists response db',
         Routes.Items.POST post tt db = (Return response, db')
         /\ In (status response) [401; 201; 500]).
Proof.
  split; [|split; [|split; [|split]]]; apply withAuth_answers; intros user db0.
  - unfold Routes.Item.getHandler, try_catch.
    destruct (Js.parseInt (Routes.Item.id params)) as [itemId|];
      [|do 2 eexists; split; [reflexivity|simpl; tauto]].
    unfold bind.
    destruct (GroceryItemService.getItem itemId (User.id user) db0)
      as [[item|e] db1] eqn:E.
    + do 2 eexists. split; [reflexivity|simpl; tauto].
    + destruct (catchBlock_answers
                  (fun error => instanceof error NotFoundError
                                || instanceof error ValidationError) e db1)
        as (response & Hr & Hs).
      exists response, db1. split; [exact Hr|].
      apply getItem_throws in E.
      destruct E as [[E _]|E]; rewrite E in Hs; simpl in *; lia.
  - unfold Routes.Item.putHandler, try_catch.
    destruct (Js.parseInt (Routes.Item.id params)) as [itemId|];
      [|do 2 eexists; split; [reflexivity|simpl; tauto]].
    unfold bind, Routes.requestJson.
    destruct (json request) as [body|];
      [|do 2 eexists; split; [reflexivity|simpl; tauto]].
    cbn [ret].
    destruct (GroceryItemService.updateItem itemId (User.id user) body db0)
      as [[item|e] db1] eqn:E.
    + do 2 eexists. split; [reflexivity|simpl; tauto].
    + destruct (catchBlock_answers
                  (fun error => instanceof error NotFoundError
                                || instanceof error ValidationError) e db1)
        as (response & Hr & Hs).
      exists response, db1. split; [exact Hr|].
      apply updateItem_throws in E.
      destruct E as [[E _]|[E|E]]; rewrite E in Hs; simpl in *; lia.
  - unfold Routes.Item.deleteHandler, try_catch.
    destruct (Js.parseInt (Routes.Item.id params)) as [itemId|];
      [|do 2 eexists; split; [reflexivity|simpl; tauto]].
    unfold bind.
    destruct (GroceryItemService.deleteItem itemId (User.id user) db0)
      as [[[]|e] db1] eqn:E.
    + do 2 eexists. split; [reflexivity|simpl; tauto].
    + destruct (catchBlock_answers
                  (fun error => instanceof error NotFoundError
                                || instanceof error ValidationError) e db1)
        as (response & Hr & Hs).
      exists response, db1. split; [exact Hr|].
      apply deleteItem_throws in E.
      destruct E as [[E _]|E]; rewrite E in Hs; simpl in *; lia.
  - unfold Routes.Items.getHandler, try_catch, bind.
    destruct (GroceryItemService.getUserItems (User.id user)
                (Some (Routes.Items.parseFilters (searchParams request))) db0)
      as [[items|e] db1] eqn:E.
    + do 2 eexists. split; [reflexivity|simpl; tauto].
    + destruct (catchBlock_answers
                  (fun error => instanceof error ValidationError) e db1)
        as (response & Hr & Hs).
      exists response, db1. split; [exact Hr|].
      apply getUserItems_throws in E.
      destruct E as [E _]; rewrite E in Hs; simpl in *; lia.
  - unfold Routes.Items.postHandler, try_catch, bind, Routes.requestJson.
    destruct (json post) as [body|];
      [|do 2 eexists; split; [reflexivity|simpl; tauto]].
    cbn [ret].
    destruct (GroceryItemService.createItem (User.id user) body db0)
      as [[item|e] db1] eqn:E.
    + do 2 eexists. split; [reflexivity|simpl; tauto].
    + destruct (catchBlock_answers
                  (fun error => instanceof error ValidationError) e db1)
        as (response & Hr & Hs).
      exists response, db1. split; [exact Hr|].
      apply createItem_throws in E.
      destruct E as [E _]; rewrite E in Hs; simpl in *; lia.
Qed.

(** X16. An id that [parseInt] reads as zero or a negative integer: for a
    request that passes authentication the three routes answer 500
    "Internal server error", and no statement on [grocery_items] is sent
    (the id fails the validation of the service, which throws a plain
    [Error]). *)
Theorem nonpositive_id_is_500
    (pkg : Packages) (request : NextRequest UpdateGroceryItemRequest.t)
    (params : Routes.Item.Params) (db db' : Db.t) (user : User.t) (itemId : Z) :
  Middleware.authenticate request db = (Return user, db') ->
  Js.parseInt (Routes.Item.id params) = Some itemId ->
  itemId <= 0 ->
  Routes.Item.GET request params db
  = (Return (mkResponse 500 (ErrorBody "Internal server error")), db')
  /\ Routes.Item.PUT request params db
     = (Return (mkResponse 500 (ErrorBody "Internal server error")), db')
  /\ Routes.Item.DELETE request params db
     = (Return (mkResponse 500 (ErrorBody "Internal server error")), db').
Proof.
  intros Hauth Hid Hle.
  pose proof (withAuth_cases Routes.Item.getHandler request params db) as Hget.
  pose proof (withAuth_cases Routes.Item.putHandler request params db) as Hput.
  pose proof (withAuth_cases Routes.Item.deleteHandler request params db) as Hdel.
  rewrite Hauth in Hget, Hput, Hdel.
  pose proof (validate_id_cases itemId) as Hv.
  destruct (Z.ltb_spec 0 itemId); [lia|].
  unfold Routes.Item.GET, Routes.Item.PUT, Routes.Item.DELETE.
  rewrite Hget, Hput, Hdel.
  unfold Routes.Item.getHandler, Routes.Item.putHandler,
    Routes.Item.deleteHandler, try_catch. rewrite Hid.
  unfold GroceryItemService.getItem, GroceryItemService.updateItem,
    GroceryItemService.deleteItem, bind, lift, Routes.requestJson.
  rewrite Hv. split; [reflexivity|]. split; [|reflexivity].
  destruct (json request); reflexivity.
Qed.

(** GET /api/grocery-items/0 with Alice's token. *)
Lemma nonpositive_id_is_500_witness :
  Routes.Item.GET (pkg := Fakes.packages)
    (mkRequest (B := UpdateGroceryItemRequest.t) (Some "Bearer alice.access") [] None)
    (Routes.Item.mkParams "0") (Fakes.twoUsers 0)
  = (Return (mkResponse 500 (ErrorBody "Internal server error")),
     Db.log (SelectUserById 1) (Fakes.twoUsers 0)).
Proof.
  apply (nonpositive_id_is_500 Fakes.packages
           (mkRequest (Some "Bearer alice.access") [] None)
           (Routes.Item.mkParams "0") (Fakes.twoUsers 0)
           (Db.log (SelectUserById 1) (Fakes.twoUsers 0))
           (UserRepository.toUser Fakes.alice) 0).
  - reflexivity.
  - reflexivity.
  - lia.
Defined.

(** X17. POST /api/grocery-items by an authenticated user: a body within the
    bounds, whose INSERT PostgreSQL accepts, is answered 201 with the view
    of the inserted row; a body outside the bounds, or that is not JSON,
    is answered 500 "Internal server error" and nothing is inserted. *)
Theorem post_creates_or_answers_500
    (pkg : Packages) (request : NextRequest CreateGroceryItemRequest.t)
    (db db' : Db.t) (user : User.t) :
  Middleware.authenticate request db = (Return user, db') ->
  match json request with
  | Some input =>
      if Bounds.create_ok input
      then Pg.insert db' (User.id user) input ->
           Routes.Items.POST request tt db
           = (Return (mkResponse 201
                        (ItemBody "Grocery item created successfully"
                           (Spec.view (inserted (User.id user) input db')))),
              after_insert (User.id user) input db')
      else Routes.Items.POST request tt db
           = (Return (mkResponse 500 (ErrorBody "Internal server error")), db')
  | None =>
      Routes.Items.POST request tt db
      = (Return (mkResponse 500 (ErrorBody "Internal server error")), db')
  end.
Proof.
  intros Hauth.
  pose proof (withAuth_cases Routes.Items.postHandler request tt db) as H.
  rewrite Hauth in H. unfold Routes.Items.POST. rewrite H.
  unfold Routes.Items.postHandler, try_catch, bind, Routes.requestJson.
  destruct (json request) as [input|]; [|reflexivity].
  cbn [ret].
  destruct (Bounds.create_ok input) eqn:Hok.
  - intros _. rewrite (createItem_accepts _ _ _ Hok). reflexivity.
  - destruct (createItem_rejects (User.id user) input db' Hok) as [msg Hc].
    rewrite Hc. reflexivity.
Qed.

(** Alice posts [milk]. *)
Lemma post_creates_witness :
  fst (Routes.Items.POST (pkg := Fakes.packages)
         (mkRequest (Some "Bearer alice.access") [] (Some Example.milk))
         tt (Fakes.twoUsers 100))
  = Return (mkResponse 201
              (ItemBody "Grocery item created successfully"
                 (Spec.view Example.milkRow))).
Proof.
  rewrite (post_creates_or_answers_500 Fakes.packages
             (mkRequest (Some "Bearer alice.access") [] (Some Example.milk))
             (Fakes.twoUsers 100)
             (Db.log (SelectUserById 1) (Fakes.twoUsers 100))
             (UserRepository.toUser Fakes.alice) eq_refl
             (insert_milk 100)).
  reflexivity.
Defined.

(* ===================================================================== *)
(** * Bearer headers, authentication and login *)
(* ===================================================================== *)

Section SplitLemmas.

Lemma split_not_nil (sep : ascii) (s : string) : Jwt.split sep s <> [].
Proof.
  destruct s as [|c s]; simpl; [discriminate|].
  destruct (Ascii.eqb c sep); [discriminate|].
  destruct (Jwt.split sep s); discriminate.
Qed.

Lemma split_without (sep : ascii) (s : string) :
  Bearer.without sep s = true -> Jwt.split sep s = [s].
Proof.
  induction s as [|c s IH]; simpl; [reflexivity|].
  destruct (Ascii.eqb c sep); [discriminate|]. simpl. intros H.
  rewrite (IH H). reflexivity.
Qed.

(** Joining the parts with the separator gives the string back. *)
Lemma concat_split (sep : ascii) (s : string) :
  String.concat (String sep EmptyString) (Jwt.split sep s) = s.
Proof.
  induction s as [|c s IH]; simpl; [reflexivity|].
  pose proof (split_not_nil sep s) as Hne.
  destruct (Ascii.eqb_spec c sep) as [->|Hc].
  - destruct (Jwt.split sep s) as [|part parts]; [congruence|].
    simpl in *. rewrite IH. reflexivity.
  - destruct (Jwt.split sep s) as [|part parts]; [congruence|].
    destruct parts as [|part' parts]; simpl in *; rewrite <- IH; reflexivity.
Qed.

Lemma split_parts_without (sep : ascii) (s : string) :
  Forall (fun part => Bearer.without sep part = true) (Jwt.split sep s).
Proof.
  induction s as [|c s IH]; simpl; [repeat constructor|].
  destruct (Ascii.eqb c sep) eqn:E; [constructor; [reflexivity|exact IH]|].
  pose proof (split_not_nil sep s) as Hne.
  destruct (Jwt.split sep s) as [|part parts]; [congruence|].
  inversion IH as [|? ? Hpart Hparts]; subst.
  constructor; [|exact Hparts]. simpl. rewrite E, Hpart. reflexivity.
Qed.

End SplitLemmas.

(** X18. [extractTokenFromHeader] returns a token exactly for the header
    "Bearer <token>" with a token that has no space (the scheme name is
    case-sensitive, one space separates it from the token); every other
    header, and a missing header, throw. *)
Theorem extractToken_iff (authHeader : option string) (token : string) :
  Jwt.extractTokenFromHeader authHeader = Return token
  <-> authHeader = Some (Bearer.header token) /\ Bearer.without " " token = true.
Proof.
  split.
  - unfold Jwt.extractTokenFromHeader.
    destruct authHeader as [[|c h]|]; try discriminate.
    pose proof (concat_split " " (String c h)) as Hjoin.
    pose proof (split_parts_without " " (String c h)) as Hparts.
    destruct (Jwt.split " " (String c h)) as [|scheme [|tok [|x rest]]];
      try discriminate.
    destruct (String.eqb_spec scheme "Bearer") as [->|]; [|discriminate].
    intros H. injection H as <-. split.
    + rewrite <- Hjoin. reflexivity.
    + inversion Hparts as [|? ? _ Htail]; subst.
      inversion Htail; subst. assumption.
  - intros [-> Hno]. unfold Jwt.extractTokenFromHeader, Bearer.header.
    cbn [append Jwt.split Ascii.eqb Bool.eqb].
    rewrite (split_without " " token Hno). reflexivity.
Qed.

(** The header of Alice's token, and a header with a lower-case scheme. *)
Lemma extractToken_iff_witness :
  Jwt.extractTokenFromHeader (Some "Bearer alice.access") = Return "alice.access"
  /\ Jwt.extractTokenFromHeader (Some "bearer alice.access") <> Return "alice.access".
Proof.
  split.
  - apply (proj2 (extractToken_iff (Some "Bearer alice.access") "alice.access")).
    split; reflexivity.
  - intros H.
    apply (proj1 (extractToken_iff (Some "bearer alice.access") "alice.access")) in H.
    destruct H as [H _]. discriminate.
Defined.

Section ReadOnly.
Context {pkg : Packages}.

Lemma authenticate_statements (B : Type) (request : NextRequest B) (db : Db.t) :
  snd (Middleware.authenticate request db)
  = match Jwt.extractTokenFromHeader (authorization request) with
    | Throw _ => db
    | Return token =>
        match Jwt.verifyToken token with
        | Throw _ => db
        | Return payload => Db.log (SelectUserById (JWTPayload.userId payload)) db
        end
    end.
Proof.
  unfold Middleware.authenticate, try_catch, bind, lift.
  destruct (Jwt.extractTokenFromHeader (authorization request)) as [token|e1].
  2:{ destruct (instanceof e1 AuthenticationError); reflexivity. }
  destruct (Jwt.verifyToken token) as [payload|e2].
  2:{ destruct (instanceof e2 AuthenticationError); reflexivity. }
  unfold AuthService.validateUser, UserRepository.findById, bind, query,
    Sql.select_user_by_id.
  destruct (filter _ (Db.users db)); reflexivity.
Qed.

Lemma login_statements (loginData : LoginRequest.t) (db : Db.t) :
  snd (AuthService.login loginData db)
  = match Validation.validateRequestBody Validation.loginSchema loginData with
    | Throw _ => db
    | Return data =>
        Db.log (SelectUserByIdWithPassword
                  (match fst (Sql.select_user_by_email (LoginRequest.email data) db) with
                   | row :: _ => UserRow.id row
                   | [] => 0
                   end))
          (Db.log (SelectUserByEmail (LoginRequest.email data)) db)
    end.
Proof.
  unfold AuthService.login, bind, lift.
  destruct (Validation.validateRequestBody Validation.loginSchema loginData)
    as [data|e] eqn:Hv; [|reflexivity].
  unfold UserRepository.findByEmail, bind, query, Sql.select_user_by_email.
  cbn [fst].
  destruct (filter _ (Db.users db)) as [|row rows]; cbn [ret].
  - unfold UserRepository.findByIdWithPassword, bind, query,
      Sql.select_user_by_id. cbn [Db.users Db.log].
    destruct (filter _ (Db.users db)) as [|row' rows']; cbn [ret]; [reflexivity|].
    destruct (negb _); reflexivity.
  - unfold UserRepository.findByIdWithPassword, bind, query,
      Sql.select_user_by_id. cbn [Db.users Db.log UserRepository.toUser User.id].
    destruct (filter _ (Db.users db)) as [|row' rows']; cbn [ret]; [reflexivity|].
    destruct (negb _); reflexivity.
Qed.

End ReadOnly.

(** X20. Authentication and login only read. [authenticate] sends no
    statement when the header or the token is rejected, and otherwise
    exactly one, the lookup of the user of the token by id. [login], for
    an e-mail that PostgreSQL accepts as a parameter, sends no statement
    when the input is rejected, and otherwise exactly two: the lookup by
    e-mail, then the lookup by the id that was found (or by 0). The
    tables and the sequences are never changed. *)
Theorem authentication_only_reads
    (pkg : Packages) (B : Type) (request : NextRequest B)
    (loginData : LoginRequest.t) (db : Db.t) :
  snd (Middleware.authenticate request db)
  = match Jwt.extractTokenFromHeader (authorization request) with
    | Throw _ => db
    | Return token =>
        match Jwt.verifyToken token with
        | Throw _ => db
        | Return payload => Db.log (SelectUserById (JWTPayload.userId payload)) db
        end
    end
  /\ (Pg.text (LoginRequest.email loginData) ->
      snd (AuthService.login loginData db)
      = match Validation.validateRequestBody Validation.loginSchema loginData with
        | Throw _ => db
        | Return data =>
            Db.log (SelectUserByIdWithPassword
                      (match fst (Sql.select_user_by_email
                                    (LoginRequest.email data) db) with
                       | row :: _ => UserRow.id row
                       | [] => 0
                       end))
              (Db.log (SelectUserByEmail (LoginRequest.email data)) db)
        end)
  /\ same_data (snd (Middleware.authenticate request db)) db
  /\ same_data (snd (AuthService.login loginData db)) db.
Proof.
  split; [apply authenticate_statements|].
  split; [intros _; apply login_statements|].
  rewrite authenticate_statements, login_statements.
  split.
  - destruct (Jwt.extractTokenFromHeader _) as [token|];
      [destruct (Jwt.verifyToken token)|]; destruct db; repeat split.
  - destruct (Validation.validateRequestBody _ _); destruct db; repeat split.
Qed.

(** The login of alice with her password sends the lookup by e-mail and
    the lookup by her id. *)
Lemma authentication_only_reads_witness :
  snd (AuthService.login (pkg := Fakes.packages)
         (LoginRequest.mk "alice@example.com" "correct horse") (Fakes.twoUsers 0))
  = Db.log (SelectUserByIdWithPassword 1)
      (Db.log (SelectUserByEmail "alice@example.com") (Fakes.twoUsers 0)).
Proof.
  apply (proj1 (proj2 (authentication_only_reads Fakes.packages unit
                         (mkRequest None [] None)
                         (LoginRequest.mk "alice@example.com" "correct horse")
                         (Fakes.twoUsers 0)))).
  reflexivity.
Defined.

(** X21. Login of a stored user with a password that verifies against its
    hash: the result is the user without the hash and the two tokens signed
    for its id and e-mail, and the login route answers 200. *)
Theorem login_succeeds
    (pkg : Packages) (db : Db.t) (known : UserRow.t) (password : string) :
  Invariant.users_key db ->
  In known (Db.users db) ->
  zod_email (UserRow.email known) = true ->
  password <> EmptyString ->
  bcrypt_compare password (UserRow.password_hash known) = true ->
  let request := LoginRequest.mk (UserRow.email known) password in
  let user := UserRepository.toUser known in
  let tokens := Jwt.generateTokens (UserRow.id known) (UserRow.email known) in
  fst (AuthService.login request db) = Return (user, tokens)
  /\ fst (Routes.Login.POST (mkRequest None [] (Some request)) db)
     = Return (mkResponse 200 (LoginBody "Login successful" user tokens)).
Proof.
  intros (Hids & Hemails & Hpos) Hin Hemail Hpw Hright request user tokens.
  assert (H : AuthService.login request db
              = (Return (user, tokens),
                 Db.log (SelectUserByIdWithPassword (UserRow.id known))
                   (Db.log (SelectUserByEmail (UserRow.email known)) db))).
  { unfold AuthService.login, bind, lift, request.
    rewrite (validate_login _ _ Hemail Hpw).
    cbn [LoginRequest.email LoginRequest.password].
    unfold UserRepository.findByEmail, bind, query, Sql.select_user_by_email.
    rewrite (filter_unique UserRow.email String.eqb String.eqb_eq _ _ Hemails Hin).
    unfold ret, UserRepository.findByIdWithPassword, bind, query,
      Sql.select_user_by_id.
    cbn [Db.users Db.log UserRepository.toUser User.id].
    rewrite (filter_unique UserRow.id Z.eqb Z.eqb_eq _ _ Hids Hin).
    unfold ret. cbn [UserRepository.toUserWithPassword UserWithPassword.passwordHash].
    rewrite Hright. reflexivity. }
  split; [rewrite H; reflexivity|].
  unfold Routes.Login.POST, try_catch, bind, Routes.requestJson.
  cbn [json ret]. rewrite H. reflexivity.
Qed.

(** Alice logs in with her password. *)
Lemma login_succeeds_witness :
  fst (AuthService.login (pkg := Fakes.packages)
         (LoginRequest.mk "alice@example.com" "correct horse") (Fakes.twoUsers 0))
  = Return (User.mk 1 "alice@example.com" 10 10,
            AuthTokens.mk "alice@example.com/24h" "alice@example.com/7d").
Proof.
  apply (login_succeeds Fakes.packages (Fakes.twoUsers 0) Fakes.alice
           "correct horse").
  - apply twoUsers_key.
  - simpl. tauto.
  - reflexivity.
  - discriminate.
  - reflexivity.
Defined.

(* ===================================================================== *)
(** * The hand-written service against the Zod service *)
(* ===================================================================== *)

Section LegacyLemmas.
Import LegacyGroceryItemService.







End LegacyLemmas.



(* ===================================================================== *)
(** * Reading one's own item, and passing the gateway *)
(* ===================================================================== *)

(** X6. [get] by the owner returns the view of the stored row, and only sends
    the SELECT. *)
Theorem get_by_owner (db : Db.t) (item : Row.t) :
  Invariant.wf db ->
  In item (Db.grocery_items db) ->
  GroceryItemService.getItem (Row.id item) (Row.user_id item) db
  = (Return (Spec.view item),
     Db.log (SelectItemById (Row.id item) (Row.user_id item)) db).
Proof.
  intros (Hpk & Hser & _) Hin.
  unfold GroceryItemService.getItem, bind, lift.
  rewrite (validate_id _ (serial_positive _ _ Hser Hin)).
  unfold GroceryItemRepository.findById, bind, query, Sql.select_item_by_id.
  rewrite (filter_hit_owner _ _ Hpk Hin). reflexivity.
Qed.

(** Alice reads her item. *)
Lemma get_by_owner_witness :
  GroceryItemService.getItem 1 1 Example.aliceHasMilk
  = (Return (Spec.view Example.milkRow),
     Db.log (SelectItemById 1 1) Example.aliceHasMilk).
Proof.
  apply (get_by_owner Example.aliceHasMilk Example.milkRow wf_aliceHasMilk).
  simpl. tauto.
Defined.

(** X19. Passing the gateway: with the header "Bearer <token>", a token the
    library verifies and a subject that is a row of [users], [authenticate]
    returns that user, and a wrapped handler is run on it in the state
    after the lookup. *)
Theorem authenticate_succeeds
    (pkg : Packages) (B P : Type)
    (handler : NextRequest B -> P -> User.t -> Async Response)
    (request : NextRequest B) (context : P) (db : Db.t)
    (token : string) (payload : JWTPayload.t) (subject : UserRow.t) :
  Invariant.users_key db ->
  authorization request = Some (Bearer.header token) ->
  Bearer.without " " token = true ->
  jwt_verify token jwtSecret = Verified payload ->
  In subject (Db.users db) ->
  UserRow.id subject = JWTPayload.userId payload ->
  let db' := Db.log (SelectUserById (UserRow.id subject)) db in
  Middleware.authenticate request db = (Return (UserRepository.toUser subject), db')
  /\ Middleware.withAuth handler request context db
     = try_catch (handler request context (UserRepository.toUser subject))
         Middleware.onError db'.
Proof.
  intros (Hids & _ & _) Hheader Hno Hverify Hin Hid db'.
  assert (Hauth : Middleware.authenticate request db
                  = (Return (UserRepository.toUser subject), db')).
  { unfold Middleware.authenticate, try_catch, bind, lift.
    rewrite Hheader.
    unfold Jwt.extractTokenFromHeader, Bearer.header.
    cbn [append Jwt.split Ascii.eqb Bool.eqb].
    rewrite (split_without " " token Hno). cbn [String.eqb Ascii.eqb Bool.eqb].
    unfold Jwt.verifyToken. rewrite Hverify.
    unfold AuthService.validateUser, UserRepository.findById, bind, query,
      Sql.select_user_by_id.
    rewrite <- Hid.
    rewrite (filter_unique UserRow.id Z.eqb Z.eqb_eq _ _ Hids Hin).
    reflexivity. }
  split; [exact Hauth|].
  pose proof (withAuth_cases handler request context db) as H.
  rewrite Hauth in H. exact H.
Qed.

(** Alice's token passes the gateway. *)
Lemma authenticate_succeeds_witness :
  Middleware.authenticate (pkg := Fakes.packages)
    (mkRequest (B := unit) (Some "Bearer alice.access") [] None) (Fakes.twoUsers 0)
  = (Return (User.mk 1 "alice@example.com" 10 10),
     Db.log (SelectUserById 1) (Fakes.twoUsers 0)).
Proof.
  apply (proj1 (authenticate_succeeds Fakes.packages unit Routes.Item.Params
                  Routes.Item.getHandler
                  (mkRequest (Some "Bearer alice.access") [] None)
                  (Routes.Item.mkParams "1") (Fakes.twoUsers 0)
                  "alice.access" (JWTPayload.mk 1 "alice@example.com") Fakes.alice
                  (twoUsers_key 0) eq_refl eq_refl eq_refl
                  (or_introl eq_refl) eq_refl)).
Defined.

(* ===================================================================== *)
(** * The search filter *)
(* ===================================================================== *)

Section SearchLemmas.

Lemma chars_app (a b : string) :
  list_ascii_of_string (a ++ b)
  = list_ascii_of_string a ++ list_ascii_of_string b.
Proof. induction a as [|c a IH]; simpl; [reflexivity|]. rewrite IH. reflexivity. Qed.

(** [%] followed by [p] matches a text when [p] matches one of its
    suffixes. *)
Lemma ilike_star (p s : list ascii) :
  Sql.ilike_chars ("%"%char :: p) s = true
  <-> exists before rest, s = before ++ rest /\ Sql.ilike_chars p rest = true.
Proof.
  induction s as [|x s IH].
  - simpl. rewrite orb_false_r. split.
    + intros H. exists [], []. split; [reflexivity|exact H].
    + intros (before & rest & Hs & H). symmetry in Hs.
      apply app_eq_nil in Hs. destruct Hs as [_ ->]. exact H.
  - change (Sql.ilike_chars ("%"%char :: p) (x :: s))
      with (Sql.ilike_chars p (x :: s) || Sql.ilike_chars ("%"%char :: p) s).
    rewrite orb_true_iff, IH. split.
    + intros [H|(before & rest & Hs & H)].
      * exists [], (x :: s). split; [reflexivity|exact H].
      * exists (x :: before), rest. split; [rewrite Hs; reflexivity|exact H].
    + intros (before & rest & Hs & H). destruct before as [|y before].
      * left. simpl in Hs. rewrite Hs. exact H.
      * right. simpl in Hs. injection Hs as _ Hs.
        exists before, rest. split; assumption.
Qed.

(** Literal characters followed by [q] match a text that starts with the
    same characters, followed by a text that [q] matches. *)
Lemma ilike_literals (p q s : list ascii) :
  forallb Search.literal p = true ->
  (Sql.ilike_chars (p ++ q) s = true
   <-> exists found rest,
       s = found ++ rest /\ Search.same p found /\ Sql.ilike_chars q rest = true).
Proof.
  revert s. induction p as [|c p IH]; intros s Hp.
  - simpl. split.
    + intros H. exists [], s. repeat split; [constructor|exact H].
    + intros (found & rest & Hs & Hsame & H). inversion Hsame; subst. exact H.
  - simpl in Hp. apply andb_prop in Hp. destruct Hp as [Hc Hp].
    unfold Search.literal in Hc.
    apply andb_prop in Hc. destruct Hc as [Hc H3].
    apply andb_prop in Hc. destruct Hc as [H1 H2].
    apply negb_true_iff in H1, H2, H3.
    change ((c :: p) ++ q) with (c :: (p ++ q)).
    assert (Hstep : Sql.ilike_chars (c :: (p ++ q)) s
                    = match s with
                      | [] => false
                      | x :: s' => Sql.eqb_ci c x && Sql.ilike_chars (p ++ q) s'
                      end).
    { cbn [Sql.ilike_chars]. rewrite H1, H2, H3. reflexivity. }
    rewrite Hstep. destruct s as [|x s].
    + split; [discriminate|].
      intros (found & rest & Hs & Hsame & _). inversion Hsame; subst. discriminate.
    + rewrite andb_true_iff, (IH s Hp). split.
      * intros (Hx & found & rest & Hs & Hsame & H).
        exists (x :: found), rest. repeat split;
          [rewrite Hs; reflexivity | constructor; assumption | exact H].
      * intros (found & rest & Hs & Hsame & H).
        inversion Hsame as [|? y ? found' Hy Hsame']; subst.
        simpl in Hs. injection Hs as -> ->.
        split; [exact Hy|]. exists found', rest. repeat split; assumption.
Qed.

Lemma ilike_any (s : list ascii) : Sql.ilike_chars ["%"%char] s = true.
Proof. apply ilike_star. exists s, []. split; [symmetry; apply app_nil_r|reflexivity]. Qed.

End SearchLemmas.

(** X8. The pattern [findByUserId] builds for a search term, [%term%], makes
    ILIKE a substring test without case, when the term has none of the
    characters [%], [_] and backslash (which the code does not escape). *)
Theorem search_is_substring (search text : string) :
  Search.plain search = true ->
  Sql.ilike text ("%" ++ search ++ "%") = true <-> Search.occurs search text.
Proof.
  intros Hplain. unfold Sql.ilike, Search.occurs.
  rewrite chars_app. change (list_ascii_of_string "%") with ["%"%char].
  change (["%"%char] ++ list_ascii_of_string (search ++ "%"))
    with ("%"%char :: list_ascii_of_string (search ++ "%")).
  rewrite chars_app. change (list_ascii_of_string "%") with ["%"%char].
  rewrite ilike_star. split.
  - intros (before & rest & Hs & H).
    apply (ilike_literals _ _ _ Hplain) in H.
    destruct H as (found & after & Hrest & Hsame & _).
    exists before, found, after. rewrite Hs, Hrest. split; [reflexivity|exact Hsame].
  - intros (before & found & after & Hs & Hsame).
    exists before, (found ++ after). split; [exact Hs|].
    apply (ilike_literals _ _ _ Hplain).
    exists found, after. repeat split; [exact Hsame | apply ilike_any].
Qed.

(** "milk" is found in "Whole Milk". *)
Lemma search_is_substring_witness :
  Sql.ilike "Whole Milk" "%milk%" = true.
Proof.
  apply (proj2 (search_is_substring "milk" "Whole Milk" eq_refl)).
  exists (list_ascii_of_string "Whole "), (list_ascii_of_string "Milk"), [].
  split; [reflexivity|]. repeat constructor.
Defined.
